(** * helloworld: a NES emulator in Go -- shallow embedding and verification

    The development follows the package structure of the repository:
    [nesfile] (cartridge image), [mapper] (cartridge address mapping),
    [wrapper] (host window), [ppu] (picture processing unit), [cpu]
    (6502 interpreter) and [emu] (the CPU bus, package main).

    Conventions.  Go's [uint8], [uint16] and [uint64] values are integers in
    [Z]; every operation that can leave the range is wrapped explicitly with
    [u8], [u16] or [u64].  Arrays and slices are lists; an index that Go
    would reject with a run-time panic makes the function return [None].
    Every other [panic(...)] of the source is [None] as well. *)

From Stdlib Require Import ZArith Lia Bool.
From stdpp Require Import base option list gmap strings.

Local Open Scope Z_scope.

(** ** Fixed-width arithmetic *)

Definition u8 (x : Z) : Z := x mod 0x100.
Definition u16 (x : Z) : Z := x mod 0x10000.
Definition u64 (x : Z) : Z := x mod 0x10000000000000000.

(** Go's unary [^] on a [uint8] and on a [uint16]. *)
Definition not8 (x : Z) : Z := Z.lxor x 0xff.
Definition not16 (x : Z) : Z := Z.lxor x 0xffff.

(** [l[i]] for a slice or array of bytes; [None] is Go's index panic. *)
Definition getb {A} (l : list A) (i : Z) : option A :=
  if i <? 0 then None else l !! Z.to_nat i.

(** [l[i] = v]; [None] is Go's index panic. *)
Definition setb {A} (l : list A) (i : Z) (v : A) : option (list A) :=
  if (0 <=? i) && (i <? Z.of_nat (length l))
  then Some (<[Z.to_nat i := v]> l) else None.

(** [l[lo:hi]] on an array or on a slice whose capacity is its length. *)
Definition slice {A} (l : list A) (lo hi : Z) : option (list A) :=
  if (0 <=? lo) && (lo <=? hi) && (hi <=? Z.of_nat (length l))
  then Some (take (Z.to_nat (hi - lo)) (drop (Z.to_nat lo) l)) else None.

(** The integers [0, 1, ..., n-1], the range of a counting loop. *)
Definition upto (n : Z) : list Z := Z.of_nat <$> seq 0 (Z.to_nat n).

(** An array of [n] elements, all [x]: a zeroed Go array, or [make]. *)
Definition fill {A} (n : Z) (x : A) : list A := replicate (Z.to_nat n) x.

Arguments upto : simpl never.
Arguments fill : simpl never.

(** A [for] loop whose body can panic. *)
Fixpoint forM {S} (body : Z -> S -> option S) (l : list Z) (s : S) : option S :=
  match l with
  | [] => Some s
  | i :: l' => s' ← body i s; forM body l' s'
  end.

(** ** Package nesfile: the cartridge image *)

Module nesfile.

Inductive MirroringMode := Horizontal | Vertical | FourScreen.

Record NesFile := {
  Mirroring : MirroringMode;
  SramEnabled : bool;
  Mapper : Z;
  (* Each bank of PrgRom is 16K. *)
  PrgRom : list (list Z);
  (* Each bank of ChrRom is 8K. *)
  ChrRom : list (list Z)
}.

(** An open [*os.File] on a regular file: its contents and the offset of
    the next read. *)
Record File := { contents : list Z; offset : nat }.

(** Read from 'file' into 'target' and die on error.  [target] is the
    slice of [n] zero bytes that the caller has just made.  A read at the
    end of the file returns [io.EOF], on which [log.Fatal] ends the
    program; a short read only prints a message and leaves the rest of
    [target] zero. *)
Definition readAndCheck (n : Z) (file : File) : option (list Z * File) :=
  let rest := drop (offset file) (contents file) in
  let got := take (Z.to_nat n) rest in
  if (0 <? n) && (length rest =? 0)%nat then None
  else Some (got ++ fill (n - Z.of_nat (length got)) 0,
             {| contents := contents file;
                offset := (offset file + length got)%nat |}).

(** The loops that fill [PrgRom] and [ChrRom]: [count] banks of [size]
    bytes each. *)
Fixpoint readBanks (count : nat) (size : Z) (file : File)
  : option (list (list Z) * File) :=
  match count with
  | O => Some ([], file)
  | S count' =>
      '(bank, file) ← readAndCheck size file;
      '(banks, file) ← readBanks count' size file;
      Some (bank :: banks, file)
  end.

(** Look for the magic value in the header: 'NES\x1a' *)
Definition canonicalHeader : list Z := [78; 69; 83; 0x1a].

(** Read the provided file in iNES format and output it.  Dies if the file
    is malformed.  [fs] is the file system: the contents of the files that
    [os.Open] finds. *)
Definition ReadNesFile (fs : gmap string (list Z)) (fileName : string)
  : option NesFile :=
  (* Open the provided file. *)
  bytes ← fs !! fileName;
  let file := {| contents := bytes; offset := 0 |} in
  (* Read the full 16-byte header. *)
  '(fileHeader, file) ← readAndCheck 16 file;
  if negb (bool_decide (canonicalHeader = take 4 fileHeader)) then None else
  h4 ← getb fileHeader 4;
  h5 ← getb fileHeader 5;
  h6 ← getb fileHeader 6;
  h7 ← getb fileHeader 7;
  let mirroring := if 0 =? Z.land h6 1 then Horizontal else Vertical in
  let mirroring := if negb (0 =? Z.land h6 8) then FourScreen else mirroring in
  (* Not impl'd for now but might as well set it correctly. *)
  let sramEnabled := 2 =? Z.land h6 2 in
  (* The mapper is a byte whose nibbles are in the high 4 bits of each ROM
     control byte. *)
  let mapper := Z.lor (Z.land 0xf (Z.shiftr h6 4)) (Z.land 0xf0 h7) in
  (* There's a 512-byte thing to skip over. *)
  let hasTrainer := negb (0 =? Z.land h6 4) in
  file ← (if hasTrainer then snd <$> readAndCheck 512 file else Some file);
  (* Read in the ROM banks. *)
  '(prg, file) ← readBanks (Z.to_nat h4) 0x4000 file;
  '(chr, file) ← readBanks (Z.to_nat h5) 0x2000 file;
  Some {| Mirroring := mirroring; SramEnabled := sramEnabled;
          Mapper := mapper; PrgRom := prg; ChrRom := chr |}.

End nesfile.

(** ** Package mapper *)

Module mapper.
Import nesfile.

(** A nametable slot is a slice of one of the two physical 1 KiB banks. *)
Inductive NtRef := NtBank0 | NtBank1.

(** A pattern-table slot is a 4 KiB slice: of one of the two CHR-RAM arrays
    a constructor allocated, or of a CHR-ROM bank starting at [off]. *)
Inductive PtRef :=
| PtRam (second : bool)
| PtRom (bank : nat) (off : Z).

(** [MapperAddressSpace].  Go's slices alias their backing arrays, so the
    slots hold references and the arrays live in the record: [chrRom] are
    the arrays of [nesFile.ChrRom] (the [chrRom] fields of Mapper1 and
    Mapper3 are slices of the same arrays), [chrRam0] and [chrRam1] the
    arrays made for a cartridge without CHR-ROM.  PRG-ROM is never written,
    so [cpuPages0] and [cpuPages1] hold the bank contents. *)
Record MapperAddressSpace := {
  cpuSram : list Z;
  cpuPages0 : list Z;
  cpuPages1 : list Z;
  ppuPt0 : PtRef;
  ppuPt1 : PtRef;
  ppuPtIsROM : bool;
  ppuNts : list NtRef;
  ppuNtBank0 : list Z;
  ppuNtBank1 : list Z;
  chrRom : list (list Z);
  chrRam0 : list Z;
  chrRam1 : list Z;
  debug : bool
}.

Definition set_cpuSram v (m : MapperAddressSpace) :=
  {| cpuSram := v; cpuPages0 := cpuPages0 m; cpuPages1 := cpuPages1 m;
     ppuPt0 := ppuPt0 m; ppuPt1 := ppuPt1 m; ppuPtIsROM := ppuPtIsROM m;
     ppuNts := ppuNts m; ppuNtBank0 := ppuNtBank0 m; ppuNtBank1 := ppuNtBank1 m;
     chrRom := chrRom m; chrRam0 := chrRam0 m; chrRam1 := chrRam1 m;
     debug := debug m |}.
Definition set_cpuPages0 v (m : MapperAddressSpace) :=
  {| cpuSram := cpuSram m; cpuPages0 := v; cpuPages1 := cpuPages1 m;
     ppuPt0 := ppuPt0 m; ppuPt1 := ppuPt1 m; ppuPtIsROM := ppuPtIsROM m;
     ppuNts := ppuNts m; ppuNtBank0 := ppuNtBank0 m; ppuNtBank1 := ppuNtBank1 m;
     chrRom := chrRom m; chrRam0 := chrRam0 m; chrRam1 := chrRam1 m;
     debug := debug m |}.
Definition set_cpuPages1 v (m : MapperAddressSpace) :=
  {| cpuSram := cpuSram m; cpuPages0 := cpuPages0 m; cpuPages1 := v;
     ppuPt0 := ppuPt0 m; ppuPt1 := ppuPt1 m; ppuPtIsROM := ppuPtIsROM m;
     ppuNts := ppuNts m; ppuNtBank0 := ppuNtBank0 m; ppuNtBank1 := ppuNtBank1 m;
     chrRom := chrRom m; chrRam0 := chrRam0 m; chrRam1 := chrRam1 m;
     debug := debug m |}.
Definition set_ppuPt0 v (m : MapperAddressSpace) :=
  {| cpuSram := cpuSram m; cpuPages0 := cpuPages0 m; cpuPages1 := cpuPages1 m;
     ppuPt0 := v; ppuPt1 := ppuPt1 m; ppuPtIsROM := ppuPtIsROM m;
     ppuNts := ppuNts m; ppuNtBank0 := ppuNtBank0 m; ppuNtBank1 := ppuNtBank1 m;
     chrRom := chrRom m; chrRam0 := chrRam0 m; chrRam1 := chrRam1 m;
     debug := debug m |}.
Definition set_ppuPt1 v (m : MapperAddressSpace) :=
  {| cpuSram := cpuSram m; cpuPages0 := cpuPages0 m; cpuPages1 := cpuPages1 m;
     ppuPt0 := ppuPt0 m; ppuPt1 := v; ppuPtIsROM := ppuPtIsROM m;
     ppuNts := ppuNts m; ppuNtBank0 := ppuNtBank0 m; ppuNtBank1 := ppuNtBank1 m;
     chrRom := chrRom m; chrRam0 := chrRam0 m; chrRam1 := chrRam1 m;
     debug := debug m |}.
Definition set_ppuPtIsROM v (m : MapperAddressSpace) :=
  {| cpuSram := cpuSram m; cpuPages0 := cpuPages0 m; cpuPages1 := cpuPages1 m;
     ppuPt0 := ppuPt0 m; ppuPt1 := ppuPt1 m; ppuPtIsROM := v;
     ppuNts := ppuNts m; ppuNtBank0 := ppuNtBank0 m; ppuNtBank1 := ppuNtBank1 m;
     chrRom := chrRom m; chrRam0 := chrRam0 m; chrRam1 := chrRam1 m;
     debug := debug m |}.
Definition set_ppuNts v (m : MapperAddressSpace) :=
  {| cpuSram := cpuSram m; cpuPages0 := cpuPages0 m; cpuPages1 := cpuPages1 m;
     ppuPt0 := ppuPt0 m; ppuPt1 := ppuPt1 m; ppuPtIsROM := ppuPtIsROM m;
     ppuNts := v; ppuNtBank0 := ppuNtBank0 m; ppuNtBank1 := ppuNtBank1 m;
     chrRom := chrRom m; chrRam0 := chrRam0 m; chrRam1 := chrRam1 m;
     debug := debug m |}.
Definition set_ppuNtBank0 v (m : MapperAddressSpace) :=
  {| cpuSram := cpuSram m; cpuPages0 := cpuPages0 m; cpuPages1 := cpuPages1 m;
     ppuPt0 := ppuPt0 m; ppuPt1 := ppuPt1 m; ppuPtIsROM := ppuPtIsROM m;
     ppuNts := ppuNts m; ppuNtBank0 := v; ppuNtBank1 := ppuNtBank1 m;
     chrRom := chrRom m; chrRam0 := chrRam0 m; chrRam1 := chrRam1 m;
     debug := debug m |}.
Definition set_ppuNtBank1 v (m : MapperAddressSpace) :=
  {| cpuSram := cpuSram m; cpuPages0 := cpuPages0 m; cpuPages1 := cpuPages1 m;
     ppuPt0 := ppuPt0 m; ppuPt1 := ppuPt1 m; ppuPtIsROM := ppuPtIsROM m;
     ppuNts := ppuNts m; ppuNtBank0 := ppuNtBank0 m; ppuNtBank1 := v;
     chrRom := chrRom m; chrRam0 := chrRam0 m; chrRam1 := chrRam1 m;
     debug := debug m |}.
Definition set_chrRom v (m : MapperAddressSpace) :=
  {| cpuSram := cpuSram m; cpuPages0 := cpuPages0 m; cpuPages1 := cpuPages1 m;
     ppuPt0 := ppuPt0 m; ppuPt1 := ppuPt1 m; ppuPtIsROM := ppuPtIsROM m;
     ppuNts := ppuNts m; ppuNtBank0 := ppuNtBank0 m; ppuNtBank1 := ppuNtBank1 m;
     chrRom := v; chrRam0 := chrRam0 m; chrRam1 := chrRam1 m;
     debug := debug m |}.
Definition set_chrRam0 v (m : MapperAddressSpace) :=
  {| cpuSram := cpuSram m; cpuPages0 := cpuPages0 m; cpuPages1 := cpuPages1 m;
     ppuPt0 := ppuPt0 m; ppuPt1 := ppuPt1 m; ppuPtIsROM := ppuPtIsROM m;
     ppuNts := ppuNts m; ppuNtBank0 := ppuNtBank0 m; ppuNtBank1 := ppuNtBank1 m;
     chrRom := chrRom m; chrRam0 := v; chrRam1 := chrRam1 m;
     debug := debug m |}.
Definition set_chrRam1 v (m : MapperAddressSpace) :=
  {| cpuSram := cpuSram m; cpuPages0 := cpuPages0 m; cpuPages1 := cpuPages1 m;
     ppuPt0 := ppuPt0 m; ppuPt1 := ppuPt1 m; ppuPtIsROM := ppuPtIsROM m;
     ppuNts := ppuNts m; ppuNtBank0 := ppuNtBank0 m; ppuNtBank1 := ppuNtBank1 m;
     chrRom := chrRom m; chrRam0 := chrRam0 m; chrRam1 := v;
     debug := debug m |}.
Definition set_debug v (m : MapperAddressSpace) :=
  {| cpuSram := cpuSram m; cpuPages0 := cpuPages0 m; cpuPages1 := cpuPages1 m;
     ppuPt0 := ppuPt0 m; ppuPt1 := ppuPt1 m; ppuPtIsROM := ppuPtIsROM m;
     ppuNts := ppuNts m; ppuNtBank0 := ppuNtBank0 m; ppuNtBank1 := ppuNtBank1 m;
     chrRom := chrRom m; chrRam0 := chrRam0 m; chrRam1 := chrRam1 m;
     debug := v |}.

(** [new(MapperN)]: every array zeroed, every slice nil.  The slices are
    all assigned by the constructors before anything reads them. *)
Definition newAddressSpace : MapperAddressSpace :=
  {| cpuSram := fill 0x2000 0; cpuPages0 := []; cpuPages1 := [];
     ppuPt0 := PtRam false; ppuPt1 := PtRam true; ppuPtIsROM := false;
     ppuNts := [];
     ppuNtBank0 := fill 0x400 0; ppuNtBank1 := fill 0x400 0;
     chrRom := []; chrRam0 := []; chrRam1 := []; debug := false |}.

(** Reading and writing through a pattern-table slot; [i] is below 0x1000. *)
Definition readPt (r : PtRef) (i : Z) (m : MapperAddressSpace) : option Z :=
  match r with
  | PtRam false => getb (chrRam0 m) i
  | PtRam true => getb (chrRam1 m) i
  | PtRom bank off => b ← chrRom m !! bank; getb b (off + i)
  end.

Definition writePt (r : PtRef) (i val : Z) (m : MapperAddressSpace)
  : option MapperAddressSpace :=
  match r with
  | PtRam false => a ← setb (chrRam0 m) i val; Some (set_chrRam0 a m)
  | PtRam true => a ← setb (chrRam1 m) i val; Some (set_chrRam1 a m)
  | PtRom bank off =>
      b ← chrRom m !! bank;
      b' ← setb b (off + i) val;
      Some (set_chrRom (<[bank := b']> (chrRom m)) m)
  end.

Definition readNt (r : NtRef) (i : Z) (m : MapperAddressSpace) : option Z :=
  match r with
  | NtBank0 => getb (ppuNtBank0 m) i
  | NtBank1 => getb (ppuNtBank1 m) i
  end.

Definition writeNt (r : NtRef) (i val : Z) (m : MapperAddressSpace)
  : option MapperAddressSpace :=
  match r with
  | NtBank0 => a ← setb (ppuNtBank0 m) i val; Some (set_ppuNtBank0 a m)
  | NtBank1 => a ← setb (ppuNtBank1 m) i val; Some (set_ppuNtBank1 a m)
  end.

Definition Debug (val : bool) (m : MapperAddressSpace) := set_debug val m.

Definition ReadCPU (addr : Z) (m : MapperAddressSpace) : option Z :=
  if addr <? 0x4018 then None
  else if addr <? 0x6000 then Some 0
  else if addr <? 0x8000 then getb (cpuSram m) (Z.land addr 0x1fff)
  else if addr <? 0xc000 then getb (cpuPages0 m) (Z.land addr 0x3fff)
  else getb (cpuPages1 m) (Z.land addr 0x3fff).

Definition ReadPPU (addr : Z) (m : MapperAddressSpace) : option Z :=
  if addr <? 0x1000 then readPt (ppuPt0 m) addr m
  else if addr <? 0x2000 then readPt (ppuPt1 m) (Z.land addr 0xfff) m
  else if addr <? 0x3f00 then
    let addr := Z.land addr 0x0fff in
    r ← getb (ppuNts m) (addr / 0x400);
    readNt r (Z.land addr 0x3ff) m
  else None.

Definition WritePPU (addr val : Z) (m : MapperAddressSpace)
  : option (Z * MapperAddressSpace) :=
  if addr <? 0x1000 then
    m' ← writePt (ppuPt0 m) addr val m; Some (0, m')
  else if addr <? 0x2000 then
    m' ← writePt (ppuPt1 m) (Z.land addr 0xfff) val m; Some (0, m')
  else if addr <? 0x3f00 then
    let addr := Z.land addr 0x0fff in
    r ← getb (ppuNts m) (addr / 0x400);
    m' ← writeNt r (Z.land addr 0x3ff) val m;
    Some (0, m')
  else None.

Definition setupNametables (nesFile : NesFile) (mas : MapperAddressSpace)
  : option MapperAddressSpace :=
  match Mirroring nesFile with
  | Horizontal => Some (set_ppuNts [NtBank0; NtBank0; NtBank1; NtBank1] mas)
  | Vertical => Some (set_ppuNts [NtBank0; NtBank1; NtBank0; NtBank1] mas)
  | FourScreen => None
  end.

(** [bank[lo:lo+0x1000]] of a CHR-ROM bank: the slot refers to the bank,
    and the slice expression panics when the bank is too short. *)
Definition chrSlice (chr : list (list Z)) (bank : nat) (lo : Z) : option PtRef :=
  b ← chr !! bank;
  _ ← slice b lo (lo + 0x1000);
  Some (PtRom bank lo).

Definition last_bank (banks : list (list Z)) : option (list Z) :=
  getb banks (Z.of_nat (length banks) - 1).

(** [make([]byte, 0x1000)] twice: fresh CHR-RAM for both pattern slots. *)
Definition makePatternRam (out : MapperAddressSpace) : MapperAddressSpace :=
  set_ppuPt1 (PtRam true) (set_chrRam1 (fill 0x1000 0)
    (set_ppuPt0 (PtRam false) (set_chrRam0 (fill 0x1000 0) out))).

(** *** Mapper 0 *)

Record Mapper0 := { as0 : MapperAddressSpace }.

Definition NewMapper0 (nesFile : NesFile) : option Mapper0 :=
  let out := set_chrRom (ChrRom nesFile) newAddressSpace in
  p0 ← getb (PrgRom nesFile) 0;
  let out := set_cpuPages0 p0 out in
  p1 ← last_bank (PrgRom nesFile);
  let out := set_cpuPages1 p1 out in
  out ← (if (length (ChrRom nesFile) =? 0)%nat then
           Some (set_ppuPtIsROM false (makePatternRam out))
         else
           let out := set_ppuPtIsROM true out in
           r0 ← chrSlice (ChrRom nesFile) 0 0;
           let out := set_ppuPt0 r0 out in
           r1 ← chrSlice (ChrRom nesFile) 0 0x1000;
           Some (set_ppuPt1 r1 out));
  out ← setupNametables nesFile out;
  Some {| as0 := out |}.

Definition WriteCPU0 (addr val : Z) (mapper : Mapper0) : option (Z * Mapper0) :=
  (* No remapping with mapper 0. *)
  Some (0, mapper).

(** *** Mapper 3 *)

(** The [chrRom] field of the source is [chrRom (as3 _)]. *)
Record Mapper3 := { as3 : MapperAddressSpace }.

Definition NewMapper3 (nesFile : NesFile) : option Mapper3 :=
  let out := set_chrRom (ChrRom nesFile) newAddressSpace in
  p0 ← getb (PrgRom nesFile) 0;
  let out := set_cpuPages0 p0 out in
  p1 ← last_bank (PrgRom nesFile);
  let out := set_cpuPages1 p1 out in
  r0 ← chrSlice (ChrRom nesFile) 0 0;
  let out := set_ppuPt0 r0 out in
  r1 ← chrSlice (ChrRom nesFile) 0 0x1000;
  let out := set_ppuPt1 r1 out in
  out ← setupNametables nesFile out;
  Some {| as3 := out |}.

Definition WriteCPU3 (addr val : Z) (mapper : Mapper3) : option (Z * Mapper3) :=
  (* Any write swaps in an 8K VROM bank at 0x0000.  Only the lower 2 bits
     are used. *)
  let m := as3 mapper in
  r0 ← chrSlice (chrRom m) (Z.to_nat (Z.land val 3)) 0;
  let m := set_ppuPt0 r0 m in
  r1 ← chrSlice (chrRom m) (Z.to_nat (Z.land val 3)) 0x1000;
  let m := set_ppuPt1 r1 m in
  Some (0, {| as3 := m |}).

(** *** Mapper 2 *)

Record Mapper2 := { as2 : MapperAddressSpace; prgRom2 : list (list Z) }.

Definition NewMapper2 (nesFile : NesFile) : option Mapper2 :=
  let out := set_chrRom (ChrRom nesFile) newAddressSpace in
  p0 ← getb (PrgRom nesFile) 0;
  let out := set_cpuPages0 p0 out in
  p1 ← last_bank (PrgRom nesFile);
  let out := set_cpuPages1 p1 out in
  let out := set_ppuPtIsROM false (makePatternRam out) in
  out ← setupNametables nesFile out;
  Some {| as2 := out; prgRom2 := PrgRom nesFile |}.

Definition WriteCPU2 (addr val : Z) (mapper : Mapper2) : option (Z * Mapper2) :=
  (* Any write swaps in a 16k ROM bank at 0x8000 *)
  b ← getb (prgRom2 mapper) val;
  Some (0, {| as2 := set_cpuPages0 b (as2 mapper); prgRom2 := prgRom2 mapper |}).

(** *** Mapper 1 *)

(** The [chrRom] field of the source is [chrRom (as1 _)]. *)
Record Mapper1 := {
  as1 : MapperAddressSpace;
  prgRom : list (list Z);
  shiftReg : Z;
  whichBit : Z;
  controlReg : Z
}.

Definition with_as1 a (m : Mapper1) :=
  {| as1 := a; prgRom := prgRom m; shiftReg := shiftReg m;
     whichBit := whichBit m; controlReg := controlReg m |}.
Definition set_shiftReg v (m : Mapper1) :=
  {| as1 := as1 m; prgRom := prgRom m; shiftReg := v;
     whichBit := whichBit m; controlReg := controlReg m |}.
Definition set_whichBit v (m : Mapper1) :=
  {| as1 := as1 m; prgRom := prgRom m; shiftReg := shiftReg m;
     whichBit := v; controlReg := controlReg m |}.
Definition set_controlReg v (m : Mapper1) :=
  {| as1 := as1 m; prgRom := prgRom m; shiftReg := shiftReg m;
     whichBit := whichBit m; controlReg := v |}.

Definition NewMapper1 (nesFile : NesFile) : option Mapper1 :=
  let out := set_chrRom (ChrRom nesFile) newAddressSpace in
  p0 ← getb (PrgRom nesFile) 0;
  let out := set_cpuPages0 p0 out in
  p1 ← last_bank (PrgRom nesFile);
  let out := set_cpuPages1 p1 out in
  out ← (if (length (ChrRom nesFile) =? 0)%nat then
           Some (set_ppuPtIsROM false (makePatternRam out))
         else
           let out := set_ppuPtIsROM true out in
           r0 ← chrSlice (ChrRom nesFile) 0 0;
           let out := set_ppuPt0 r0 out in
           r1 ← chrSlice (ChrRom nesFile) 0 0x1000;
           Some (set_ppuPt1 r1 out));
  out ← setupNametables nesFile out;
  Some {| as1 := out; prgRom := PrgRom nesFile;
          shiftReg := 0; whichBit := 0; controlReg := 0 |}.

Definition controlRegChanged (mapper : Mapper1) : Mapper1 :=
  let nts :=
    match Z.land (controlReg mapper) 3 with
    | 0 => [NtBank0; NtBank0; NtBank0; NtBank0]
    | 1 => [NtBank1; NtBank1; NtBank1; NtBank1]
    | 2 => [NtBank0; NtBank1; NtBank0; NtBank1]
    | 3 => [NtBank0; NtBank0; NtBank1; NtBank1]
    | _ => ppuNts (as1 mapper)
    end in
  with_as1 (set_ppuNts nts (as1 mapper)) mapper.

(** [int(shiftReg >> 1) % len(chrRom)]; a zero length is Go's division
    panic. *)
Definition romIndex (mapper : Mapper1) : option nat :=
  let n := Z.of_nat (length (chrRom (as1 mapper))) in
  if n =? 0 then None
  else Some (Z.to_nat (Z.shiftr (shiftReg mapper) 1 mod n)).

Definition remapChr0 (mapper : Mapper1) : option Mapper1 :=
  let chr := chrRom (as1 mapper) in
  if (length chr =? 0)%nat then Some mapper
  else if Z.land 0x10 (controlReg mapper) =? 0 then
    i ← romIndex mapper;
    r0 ← chrSlice chr i 0;
    let mapper := with_as1 (set_ppuPt0 r0 (as1 mapper)) mapper in
    r1 ← chrSlice chr i 0x1000;
    Some (with_as1 (set_ppuPt1 r1 (as1 mapper)) mapper)
  else
    i ← romIndex mapper;
    r ← chrSlice chr i (if Z.land (shiftReg mapper) 1 =? 0 then 0 else 0x1000);
    Some (with_as1 (set_ppuPt0 r (as1 mapper)) mapper).

Definition remapChr1 (mapper : Mapper1) : option Mapper1 :=
  if Z.land 0x10 (controlReg mapper) =? 0x10 then
    i ← romIndex mapper;
    r ← chrSlice (chrRom (as1 mapper)) i
          (if Z.land (shiftReg mapper) 1 =? 0 then 0 else 0x1000);
    Some (with_as1 (set_ppuPt1 r (as1 mapper)) mapper)
  else Some mapper.

Definition remapPrg (mapper : Mapper1) : option Mapper1 :=
  let mapper := set_shiftReg (Z.land (shiftReg mapper) 0xf) mapper in
  let prgRomBankMode := Z.land (Z.shiftr (controlReg mapper) 2) 3 in
  let n := Z.of_nat (length (prgRom mapper)) in
  if (prgRomBankMode =? 0) || (prgRomBankMode =? 1) then
    let bankIndex := Z.shiftr (shiftReg mapper) 1 in
    b0 ← getb (prgRom mapper) (u8 (bankIndex * 2));
    let mapper := with_as1 (set_cpuPages0 b0 (as1 mapper)) mapper in
    b1 ← getb (prgRom mapper) (u8 (bankIndex * 2 + 1));
    Some (with_as1 (set_cpuPages1 b1 (as1 mapper)) mapper)
  else if prgRomBankMode =? 2 then
    if n =? 0 then None else
    b ← getb (prgRom mapper) (shiftReg mapper mod n);
    Some (with_as1 (set_cpuPages1 b (as1 mapper)) mapper)
  else
    if n =? 0 then None else
    b ← getb (prgRom mapper) (shiftReg mapper mod n);
    Some (with_as1 (set_cpuPages0 b (as1 mapper)) mapper).

Definition WriteCPU1 (addr val : Z) (mapper : Mapper1) : option (Z * Mapper1) :=
  if addr <? 0x8000 then
    s ← setb (cpuSram (as1 mapper)) (Z.land addr 0x1fff) val;
    Some (0, with_as1 (set_cpuSram s (as1 mapper)) mapper)
  else if Z.land val 0x80 =? 0x80 then
    (* Writing any value with the high bit set resets the shift register. *)
    let mapper := set_controlReg (Z.lor (controlReg mapper) 0x0c) mapper in
    let mapper := controlRegChanged mapper in
    let mapper := set_shiftReg 0 mapper in
    let mapper := set_whichBit 0 mapper in
    Some (0, mapper)
  else
    let mapper :=
      set_shiftReg (Z.lor (shiftReg mapper)
                      (u8 (Z.shiftl (Z.land val 1) (whichBit mapper)))) mapper in
    let mapper := set_whichBit (u8 (whichBit mapper + 1)) mapper in
    if whichBit mapper <? 5 then Some (0, mapper)
    else
      let mapper := set_whichBit 0 mapper in
      mapper ←
        (if addr <? 0xa000 then
           Some (controlRegChanged (set_controlReg (shiftReg mapper) mapper))
         else if addr <? 0xc000 then remapChr0 mapper
         else if addr <? 0xe000 then remapChr1 mapper
         else remapPrg mapper);
      Some (0, set_shiftReg 0 mapper).

(** *** The [Mapper] interface

    The interface has exactly the four implementers of [mapperTable]; the
    embedded [MapperAddressSpace] provides [ReadCPU], [ReadPPU], [WritePPU]
    and [Debug] for each of them. *)
Inductive Mapper :=
| IsMapper0 (m : Mapper0)
| IsMapper1 (m : Mapper1)
| IsMapper2 (m : Mapper2)
| IsMapper3 (m : Mapper3).

Definition addressSpace (m : Mapper) : MapperAddressSpace :=
  match m with
  | IsMapper0 m => as0 m
  | IsMapper1 m => as1 m
  | IsMapper2 m => as2 m
  | IsMapper3 m => as3 m
  end.

Definition with_addressSpace (a : MapperAddressSpace) (m : Mapper) : Mapper :=
  match m with
  | IsMapper0 _ => IsMapper0 {| as0 := a |}
  | IsMapper1 m => IsMapper1 (with_as1 a m)
  | IsMapper2 m => IsMapper2 {| as2 := a; prgRom2 := prgRom2 m |}
  | IsMapper3 _ => IsMapper3 {| as3 := a |}
  end.

Definition MapperReadCPU (addr : Z) (m : Mapper) : option Z :=
  ReadCPU addr (addressSpace m).

Definition MapperReadPPU (addr : Z) (m : Mapper) : option Z :=
  ReadPPU addr (addressSpace m).

Definition MapperWritePPU (addr val : Z) (m : Mapper) : option (Z * Mapper) :=
  '(c, a) ← WritePPU addr val (addressSpace m);
  Some (c, with_addressSpace a m).

Definition MapperWriteCPU (addr val : Z) (m : Mapper) : option (Z * Mapper) :=
  match m with
  | IsMapper0 m => '(c, m') ← WriteCPU0 addr val m; Some (c, IsMapper0 m')
  | IsMapper1 m => '(c, m') ← WriteCPU1 addr val m; Some (c, IsMapper1 m')
  | IsMapper2 m => '(c, m') ← WriteCPU2 addr val m; Some (c, IsMapper2 m')
  | IsMapper3 m => '(c, m') ← WriteCPU3 addr val m; Some (c, IsMapper3 m')
  end.

Definition MapperDebug (on : bool) (m : Mapper) : Mapper :=
  with_addressSpace (Debug on (addressSpace m)) m.

(** [GetMapper] with the constructors of [mapperTable]. *)
Definition GetMapper (nesFile : NesFile) : option Mapper :=
  match nesfile.Mapper nesFile with
  | 0 => IsMapper0 <$> NewMapper0 nesFile
  | 1 => IsMapper1 <$> NewMapper1 nesFile
  | 2 => IsMapper2 <$> NewMapper2 nesFile
  | 3 => IsMapper3 <$> NewMapper3 nesFile
  | _ => None
  end.

End mapper.

(** ** Package wrapper: the host window *)

Module wrapper.

(** A window with an RGB buffer.  The SDL handles are host resources and
    are left out; [lockedPixels] is the locked texture memory, four bytes
    per pixel. *)
Record GraphicsWindow := {
  Height : Z;
  Width : Z;
  lockedPixels : list Z
}.

(** Set the (x,y)-th pixel to (r,g,b). *)
Definition SetPixel (x y r g b : Z) (gw : GraphicsWindow) : option GraphicsWindow :=
  let base := 4 * (y * Width gw + x) in
  px ← setb (lockedPixels gw) base b;
  px ← setb px (base + 1) g;
  px ← setb px (base + 2) r;
  px ← setb px (base + 3) 0;
  Some {| Height := Height gw; Width := Width gw; lockedPixels := px |}.

(** The window [NewWindow] returns once its texture is locked. *)
Definition NewWindow (height width : Z) : GraphicsWindow :=
  {| Height := height; Width := width;
     lockedPixels := fill (4 * height * width) 0 |}.

End wrapper.

(** ** Package ppu *)

Module ppu.
Import mapper wrapper.

Definition DisplayHeight : Z := 240.
Definition DisplayWidth : Z := 256.

Definition PPUCTRL : Z := 0x2000.
Definition PPUMASK : Z := 0x2001.
Definition PPUSTATUS : Z := 0x2002.
Definition OAMADDR : Z := 0x2003.
Definition OAMDATA : Z := 0x2004.
Definition PPUSCROLL : Z := 0x2005.
Definition PPUADDR : Z := 0x2006.
Definition PPUDATA : Z := 0x2007.

(** An entry of the global RGB table [Palette]. *)
Record Color := { r : Z; g : Z; b : Z }.

(** The PPU.  Its [cartMapper] field points to the mapper object that the
    CPU bus holds as well; the mapper is therefore passed to, and returned
    by, the methods that use it instead of being copied into the record. *)
Record PPU := {
  Debug : bool;
  pal : list Z;
  oamData : list Z;
  ppuCtrl : Z;
  ppuMask : Z;
  ppuStatus : Z;
  oamAddr : Z;
  loopyT : Z;
  loopyV : Z;
  loopyX : Z;
  addressLatch : Z;
  bufferedReadData : Z;
  window : GraphicsWindow;
  scanLineCounter : Z
}.

Definition set_Debug v (p : PPU) : PPU :=
  {| Debug := v; pal := pal p; oamData := oamData p; ppuCtrl := ppuCtrl p;
     ppuMask := ppuMask p; ppuStatus := ppuStatus p; oamAddr := oamAddr p;
     loopyT := loopyT p; loopyV := loopyV p; loopyX := loopyX p;
     addressLatch := addressLatch p; bufferedReadData := bufferedReadData p;
     window := window p; scanLineCounter := scanLineCounter p |}.
Definition set_pal v (p : PPU) : PPU :=
  {| Debug := Debug p; pal := v; oamData := oamData p; ppuCtrl := ppuCtrl p;
     ppuMask := ppuMask p; ppuStatus := ppuStatus p; oamAddr := oamAddr p;
     loopyT := loopyT p; loopyV := loopyV p; loopyX := loopyX p;
     addressLatch := addressLatch p; bufferedReadData := bufferedReadData p;
     window := window p; scanLineCounter := scanLineCounter p |}.
Definition set_oamData v (p : PPU) : PPU :=
  {| Debug := Debug p; pal := pal p; oamData := v; ppuCtrl := ppuCtrl p;
     ppuMask := ppuMask p; ppuStatus := ppuStatus p; oamAddr := oamAddr p;
     loopyT := loopyT p; loopyV := loopyV p; loopyX := loopyX p;
     addressLatch := addressLatch p; bufferedReadData := bufferedReadData p;
     window := window p; scanLineCounter := scanLineCounter p |}.
Definition set_ppuCtrl v (p : PPU) : PPU :=
  {| Debug := Debug p; pal := pal p; oamData := oamData p; ppuCtrl := v;
     ppuMask := ppuMask p; ppuStatus := ppuStatus p; oamAddr := oamAddr p;
     loopyT := loopyT p; loopyV := loopyV p; loopyX := loopyX p;
     addressLatch := addressLatch p; bufferedReadData := bufferedReadData p;
     window := window p; scanLineCounter := scanLineCounter p |}.
Definition set_ppuMask v (p : PPU) : PPU :=
  {| Debug := Debug p; pal := pal p; oamData := oamData p;
     ppuCtrl := ppuCtrl p; ppuMask := v; ppuStatus := ppuStatus p;
     oamAddr := oamAddr p; loopyT := loopyT p; loopyV := loopyV p;
     loopyX := loopyX p; addressLatch := addressLatch p;
     bufferedReadData := bufferedReadData p; window := window p;
     scanLineCounter := scanLineCounter p |}.
Definition set_ppuStatus v (p : PPU) : PPU :=
  {| Debug := Debug p; pal := pal p; oamData := oamData p;
     ppuCtrl := ppuCtrl p; ppuMask := ppuMask p; ppuStatus := v;
     oamAddr := oamAddr p; loopyT := loopyT p; loopyV := loopyV p;
     loopyX := loopyX p; addressLatch := addressLatch p;
     bufferedReadData := bufferedReadData p; window := window p;
     scanLineCounter := scanLineCounter p |}.
Definition set_oamAddr v (p : PPU) : PPU :=
  {| Debug := Debug p; pal := pal p; oamData := oamData p;
     ppuCtrl := ppuCtrl p; ppuMask := ppuMask p; ppuStatus := ppuStatus p;
     oamAddr := v; loopyT := loopyT p; loopyV := loopyV p;
     loopyX := loopyX p; addressLatch := addressLatch p;
     bufferedReadData := bufferedReadData p; window := window p;
     scanLineCounter := scanLineCounter p |}.
Definition set_loopyT v (p : PPU) : PPU :=
  {| Debug := Debug p; pal := pal p; oamData := oamData p;
     ppuCtrl := ppuCtrl p; ppuMask := ppuMask p; ppuStatus := ppuStatus p;
     oamAddr := oamAddr p; loopyT := v; loopyV := loopyV p;
     loopyX := loopyX p; addressLatch := addressLatch p;
     bufferedReadData := bufferedReadData p; window := window p;
     scanLineCounter := scanLineCounter p |}.
Definition set_loopyV v (p : PPU) : PPU :=
  {| Debug := Debug p; pal := pal p; oamData := oamData p;
     ppuCtrl := ppuCtrl p; ppuMask := ppuMask p; ppuStatus := ppuStatus p;
     oamAddr := oamAddr p; loopyT := loopyT p; loopyV := v;
     loopyX := loopyX p; addressLatch := addressLatch p;
     bufferedReadData := bufferedReadData p; window := window p;
     scanLineCounter := scanLineCounter p |}.
Definition set_loopyX v (p : PPU) : PPU :=
  {| Debug := Debug p; pal := pal p; oamData := oamData p;
     ppuCtrl := ppuCtrl p; ppuMask := ppuMask p; ppuStatus := ppuStatus p;
     oamAddr := oamAddr p; loopyT := loopyT p; loopyV := loopyV p;
     loopyX := v; addressLatch := addressLatch p;
     bufferedReadData := bufferedReadData p; window := window p;
     scanLineCounter := scanLineCounter p |}.
Definition set_addressLatch v (p : PPU) : PPU :=
  {| Debug := Debug p; pal := pal p; oamData := oamData p;
     ppuCtrl := ppuCtrl p; ppuMask := ppuMask p; ppuStatus := ppuStatus p;
     oamAddr := oamAddr p; loopyT := loopyT p; loopyV := loopyV p;
     loopyX := loopyX p; addressLatch := v;
     bufferedReadData := bufferedReadData p; window := window p;
     scanLineCounter := scanLineCounter p |}.
Definition set_bufferedReadData v (p : PPU) : PPU :=
  {| Debug := Debug p; pal := pal p; oamData := oamData p;
     ppuCtrl := ppuCtrl p; ppuMask := ppuMask p; ppuStatus := ppuStatus p;
     oamAddr := oamAddr p; loopyT := loopyT p; loopyV := loopyV p;
     loopyX := loopyX p; addressLatch := addressLatch p;
     bufferedReadData := v; window := window p;
     scanLineCounter := scanLineCounter p |}.
Definition set_window v (p : PPU) : PPU :=
  {| Debug := Debug p; pal := pal p; oamData := oamData p;
     ppuCtrl := ppuCtrl p; ppuMask := ppuMask p; ppuStatus := ppuStatus p;
     oamAddr := oamAddr p; loopyT := loopyT p; loopyV := loopyV p;
     loopyX := loopyX p; addressLatch := addressLatch p;
     bufferedReadData := bufferedReadData p; window := v;
     scanLineCounter := scanLineCounter p |}.
Definition set_scanLineCounter v (p : PPU) : PPU :=
  {| Debug := Debug p; pal := pal p; oamData := oamData p;
     ppuCtrl := ppuCtrl p; ppuMask := ppuMask p; ppuStatus := ppuStatus p;
     oamAddr := oamAddr p; loopyT := loopyT p; loopyV := loopyV p;
     loopyX := loopyX p; addressLatch := addressLatch p;
     bufferedReadData := bufferedReadData p; window := window p;
     scanLineCounter := v |}.

Definition NewPPU (window : GraphicsWindow) : PPU :=
  {| Debug := false; pal := fill 0x20 0; oamData := fill 256 0;
     ppuCtrl := 0; ppuMask := 0; ppuStatus := 0; oamAddr := 0;
     loopyT := 0; loopyV := 0; loopyX := 0; addressLatch := 0;
     bufferedReadData := 0; window := window; scanLineCounter := 0 |}.

(** Enter the VBlank period.  Returns true if the CPU should handle a NMI. *)
Definition EnterVBlankShouldNMI (ppu : PPU) : bool * PPU :=
  let ppu := set_ppuStatus (Z.lor (ppuStatus ppu) 0x80) ppu in
  (Z.land (ppuCtrl ppu) 0x80 =? 0x80, ppu).

(** Exit the VBlank period. *)
Definition ExitVBlank (ppu : PPU) : PPU :=
  let ppu := set_ppuStatus (Z.land (ppuStatus ppu) 0x3f) ppu in
  set_scanLineCounter 0 ppu.

(** [copy(ppu.oamData[:], src)] copies [min(256, len(src))] bytes. *)
Definition SpriteDMA (src : list Z) (ppu : PPU) : option PPU :=
  let n := Nat.min (length (oamData ppu)) (length src) in
  let ppu := set_oamData (take n src ++ drop n (oamData ppu)) ppu in
  if (n =? 256)%nat then Some ppu else None.

(** The internal address counter is incremented during PPUDATA accesses. *)
Definition incVRAMAddress (ppu : PPU) : PPU :=
  if Z.land (ppuCtrl ppu) 4 =? 0
  then set_loopyV (u16 (loopyV ppu + 1)) ppu
  else set_loopyV (u16 (loopyV ppu + 32)) ppu.

Definition ReadRegister (mmioreg : Z) (ppu : PPU) (cartMapper : Mapper)
  : option (Z * PPU) :=
  match Z.land mmioreg 0x2007 with
  | 0x2000 => Some (ppuCtrl ppu, ppu)
  | 0x2001 => Some (ppuMask ppu, ppu)
  | 0x2002 =>
      let val := ppuStatus ppu in
      let ppu := set_ppuStatus (Z.land (ppuStatus ppu) 0x7f) ppu in
      let ppu := set_addressLatch 0 ppu in
      Some (val, ppu)
  | 0x2003 => Some (oamAddr ppu, ppu)
  | 0x2004 => val ← getb (oamData ppu) (oamAddr ppu); Some (val, ppu)
  | 0x2005 => Some (0, ppu)
  | 0x2006 => Some (0, ppu)
  | 0x2007 =>
      let val := bufferedReadData ppu in
      '(val, ppu) ←
        (if loopyV ppu <? 0x3f00 then
           d ← MapperReadPPU (loopyV ppu) cartMapper;
           Some (val, set_bufferedReadData d ppu)
         else
           let addr := Z.land (loopyV ppu) 0x1f in
           val ← getb (pal ppu) addr;
           Some (val, ppu));
      Some (val, incVRAMAddress ppu)
  | _ => None
  end.

Definition WriteRegister (mmioreg val : Z) (ppu : PPU) (cartMapper : Mapper)
  : option (PPU * Mapper) :=
  match Z.land mmioreg 0x2007 with
  | 0x2000 =>
      let ppu := set_ppuCtrl val ppu in
      let ppu := set_loopyT (Z.land (loopyT ppu) (not16 0x0c00)) ppu in
      let ppu := set_loopyT (Z.lor (loopyT ppu)
                               (u16 (Z.shiftl (Z.land val 3) 10))) ppu in
      Some (ppu, cartMapper)
  | 0x2001 => Some (set_ppuMask val ppu, cartMapper)
  | 0x2002 => Some (ppu, cartMapper)
  | 0x2003 => Some (set_oamAddr val ppu, cartMapper)
  | 0x2004 =>
      oam ← setb (oamData ppu) (oamAddr ppu) val;
      let ppu := set_oamData oam ppu in
      Some (set_oamAddr (u8 (oamAddr ppu + 1)) ppu, cartMapper)
  | 0x2005 =>
      if addressLatch ppu =? 0 then
        let ppu := set_loopyX (Z.land val 7) ppu in
        let ppu := set_loopyT (Z.land (loopyT ppu) (not16 0x1F)) ppu in
        let ppu := set_loopyT (Z.lor (loopyT ppu)
                                 (Z.land 0x1F (Z.shiftr val 3))) ppu in
        Some (set_addressLatch 1 ppu, cartMapper)
      else
        let ppu := set_loopyT (Z.land (loopyT ppu) (not16 0x73E0)) ppu in
        let ppu := set_loopyT (Z.lor (loopyT ppu)
                                 (u16 (Z.shiftl (Z.land val 7) 12))) ppu in
        let ppu := set_loopyT (Z.lor (loopyT ppu)
                                 (u16 (Z.shiftl (Z.land val 0xF8) 2))) ppu in
        Some (set_addressLatch 0 ppu, cartMapper)
  | 0x2006 =>
      if addressLatch ppu =? 0 then
        let ppu := set_loopyT (Z.land (loopyT ppu) 0x00ff) ppu in
        let ppu := set_loopyT (Z.lor (loopyT ppu)
                                 (u16 (Z.shiftl (Z.land val 0x3f) 8))) ppu in
        Some (set_addressLatch 1 ppu, cartMapper)
      else
        let ppu := set_loopyT (Z.land (loopyT ppu) 0xff00) ppu in
        let ppu := set_loopyT (Z.lor (loopyT ppu) val) ppu in
        let ppu := set_loopyV (loopyT ppu) ppu in
        Some (set_addressLatch 0 ppu, cartMapper)
  | 0x2007 =>
      '(ppu, cartMapper) ←
        (if loopyV ppu <? 0x3f00 then
           '(_, cartMapper) ← MapperWritePPU (loopyV ppu) val cartMapper;
           Some (ppu, cartMapper)
         else
           let addr := Z.land (loopyV ppu) 0x1f in
           (* The upper 2 bits of the palette are ignored so we mask them
              out here. *)
           let val := Z.land val 0x3f in
           p ← setb (pal ppu) addr val;
           let ppu := set_pal p ppu in
           if Z.land addr 3 =? 0 then
             p ← setb (pal ppu) (Z.lxor addr 0x10) val;
             Some (set_pal p ppu, cartMapper)
           else Some (ppu, cartMapper));
      Some (incVRAMAddress ppu, cartMapper)
  | _ => None
  end.

(** *** Rendering *)

(** Is background rendering enabled? *)
Definition shouldRenderBackground (ppu : PPU) : bool :=
  Z.land (ppuMask ppu) 8 =? 8.

(** Is sprite rendering enabled? *)
Definition shouldRenderSprites (ppu : PPU) : bool :=
  Z.land (ppuMask ppu) 0x10 =? 0x10.

(** Does the palette entry 'palIndex' correspond to the background color? *)
Definition isBG (palIndex : Z) : bool := Z.land palIndex 3 =? 0.

(** Given the two bytes that make up the same row in a tile, get the
    'x'-th pixel where x=[0, 8).  [byte(x)] and the subtractions are
    8-bit. *)
Definition getPixel (tileBit0 tileBit1 x : Z) : Z :=
  let out := Z.land (Z.shiftr tileBit0 (u8 (7 - u8 x))) 1 in
  if x =? 7
  then Z.lor out (Z.land 2 (u8 (Z.shiftl tileBit1 1)))
  else Z.lor out (Z.land 2 (Z.shiftr tileBit1 (u8 (6 - u8 x)))).

(** The body of the column loop of [renderBackground]. *)
Definition backgroundColumn (cartMapper : Mapper) (ptBaseAddr i : Z)
    (s : PPU * list Z) : option (PPU * list Z) :=
  let '(ppu, out) := s in
  (* We're rendering this tile. *)
  tileNoToRender ←
    MapperReadPPU (Z.lor 0x2000 (Z.land (loopyV ppu) 0x0fff)) cartMapper;
  (* But we're rendering this line of it. *)
  let tileYOffset := Z.land 7 (Z.shiftr (loopyV ppu) 12) in
  (* So we read these bytes. *)
  let bit0Addr := u16 (ptBaseAddr + u16 (tileNoToRender * 16) + tileYOffset) in
  tileBit0 ← MapperReadPPU bit0Addr cartMapper;
  tileBit1 ← MapperReadPPU (u16 (bit0Addr + 8)) cartMapper;
  (* And calculate the value of the tile. *)
  let val := getPixel tileBit0 tileBit1 (loopyX ppu) in
  let attrAddr := 0x23c0 in
  let attrAddr := Z.lor attrAddr (Z.land (loopyV ppu) 0x0c00) in
  let attrAddr := Z.lor attrAddr (Z.land (Z.shiftr (loopyV ppu) 4) 0x38) in
  let attrAddr := Z.lor attrAddr (Z.land (Z.shiftr (loopyV ppu) 2) 0x07) in
  attrByte ← MapperReadPPU attrAddr cartMapper;
  (* The lower 5 bits of the X scroll. *)
  let attrXOffset := loopyX ppu in
  let attrXOffset :=
    Z.lor attrXOffset (u8 (Z.shiftl (u8 (Z.land (loopyV ppu) 3)) 3)) in
  (* The lower 5 bits of the Y scroll. *)
  let attrYOffset := u8 tileYOffset in
  let attrYOffset :=
    Z.lor attrYOffset (Z.land (u8 (Z.shiftr (loopyV ppu) 2)) 0x18) in
  let attrByte :=
    if attrYOffset <? 16 then Z.land attrByte 0xf else Z.shiftr attrByte 4 in
  let attrByte :=
    if attrXOffset <? 16 then u8 (Z.shiftl attrByte 2) else attrByte in
  (* Add the upper 2 palette lookup bits to val. *)
  let val := Z.lor val (Z.land attrByte 0xC) in
  (* And write to the output buffer. *)
  out ← (if 8 <=? i then setb out i val
         else if Z.land (ppuMask ppu) 2 =? 2 then setb out i val
         else Some out);
  (* Move to the next pixel. *)
  let ppu :=
    if loopyX ppu <? 7 then set_loopyX (u8 (loopyX ppu + 1)) ppu
    else
      let ppu := set_loopyX 0 ppu in
      if Z.land (loopyV ppu) 0x1f =? 0x1f then
        let ppu := set_loopyV (Z.land (loopyV ppu) (not16 0x1f)) ppu in
        set_loopyV (Z.lxor (loopyV ppu) 0x0400) ppu
      else set_loopyV (u16 (loopyV ppu + 1)) ppu in
  Some (ppu, out).

(** Move to the next line by incrementing the fine Y scroll value. *)
Definition incrementFineY (ppu : PPU) : PPU :=
  if negb (Z.land (loopyV ppu) 0x7000 =? 0x7000) then
    set_loopyV (u16 (loopyV ppu + 0x1000)) ppu
  else
    let ppu := set_loopyV (Z.land (loopyV ppu) (not16 0x7000)) ppu in
    let y := Z.shiftr (Z.land (loopyV ppu) 0x03e0) 5 in
    let '(y, ppu) :=
      if y =? 29 then (0, set_loopyV (Z.lxor (loopyV ppu) 0x800) ppu)
      else if y =? 31 then (0, ppu)
      else (u16 (y + 1), ppu) in
    set_loopyV (Z.lor (Z.land (loopyV ppu) (not16 0x03e0))
                  (u16 (Z.shiftl y 5))) ppu.

Definition renderBackground (out : list Z) (ppu : PPU) (cartMapper : Mapper)
  : option (PPU * list Z) :=
  let ptBaseAddr := if Z.land (ppuCtrl ppu) 0x10 =? 0x10 then 0x1000 else 0 in
  '(ppu, out) ←
    forM (backgroundColumn cartMapper ptBaseAddr) (upto 256) (ppu, out);
  Some (incrementFineY ppu, out).

(** The two output rows of [renderSprites] together with the PPU, whose
    status register the loop updates. *)
Record SpriteLine := {
  sl_ppu : PPU;
  sl_out : list Z;
  sl_priorityOut : list bool
}.

(** What the sprite loop has read for one sprite before it enters the
    pixel loop. *)
Record SpriteRow := {
  attr : Z;
  xpos : Z;
  tileBit0 : Z;
  tileBit1 : Z
}.

Definition spriteSize (ppu : PPU) : Z :=
  if Z.land (ppuCtrl ppu) 0x20 =? 0x20 then 16 else 8.

(** The first part of the body of the sprite loop, down to the two pattern
    fetches.  [Some None] is one of the two [continue] statements: the
    sprite is not on this scan line. *)
Definition fetchSprite (cartMapper : Mapper) (ppu : PPU) (i : Z)
  : option (option SpriteRow) :=
  let spriteSize := spriteSize ppu in
  let spriteOffset := i * 4 in
  (* The first byte of the sprite data is the Y coordinate minus one. *)
  y ← getb (oamData ppu) spriteOffset;
  let yCoord := u16 (y + 1) in
  if scanLineCounter ppu <? yCoord then Some None
  else if u16 (yCoord + spriteSize) <=? scanLineCounter ppu then Some None
  else
    tileNoToRender ← getb (oamData ppu) (spriteOffset + 1);
    attr ← getb (oamData ppu) (spriteOffset + 2);
    xpos ← getb (oamData ppu) (spriteOffset + 3);
    let '(ptBaseAddr, tileNoToRender) :=
      if spriteSize =? 8 then
        (if Z.land (ppuCtrl ppu) 8 =? 8 then 0x1000 else 0, tileNoToRender)
      else if Z.land tileNoToRender 1 =? 0 then (0, tileNoToRender)
      else (0x1000, Z.land tileNoToRender 0xfffe) in
    let '(tileNoToRender, tileYOffset) :=
      if Z.land attr 0x80 =? 0x80 then
        if spriteSize =? 8 then
          (tileNoToRender, u16 (7 - u16 (scanLineCounter ppu - yCoord)))
        else
          let yOffset := u16 (scanLineCounter ppu - yCoord) in
          if yOffset <? 8 then (u16 (tileNoToRender + 1), u16 (7 - yOffset))
          else (tileNoToRender, u16 (15 - yOffset))
      else
        let tileYOffset := u16 (scanLineCounter ppu - yCoord) in
        if (spriteSize =? 16) && (7 <? tileYOffset)
        then (u16 (tileNoToRender + 1), u16 (tileYOffset - 8))
        else (tileNoToRender, tileYOffset) in
    let bit0addr := u16 (ptBaseAddr + u16 (tileNoToRender * 16) + tileYOffset) in
    tileBit0 ← MapperReadPPU bit0addr cartMapper;
    tileBit1 ← MapperReadPPU (u16 (bit0addr + 8)) cartMapper;
    Some (Some {| attr := attr; xpos := xpos;
                  tileBit0 := tileBit0; tileBit1 := tileBit1 |}).

(** Where the pixel loop writes pixel [x] of a sprite. *)
Definition spriteXOut (row : SpriteRow) (x : Z) : Z :=
  if Z.land (attr row) 0x40 =? 0x40
  then u16 (xpos row + u16 (7 - x))
  else u16 (xpos row + u16 x).

(** The palette selection the pixel loop stores for pixel [x]. *)
Definition spriteVal (row : SpriteRow) (x : Z) : Z :=
  Z.lor (getPixel (tileBit0 row) (tileBit1 row) x)
        (u8 (Z.shiftl (Z.land (attr row) 3) 2)).

(** The body of the pixel loop of [renderSprites] for sprite [i]. *)
Definition spritePixel (i : Z) (row : SpriteRow) (background : list Z)
    (x : Z) (s : SpriteLine) : option SpriteLine :=
  let xout := spriteXOut row x in
  (* Sprites do not wrap around the screen. *)
  if 256 <=? xout then Some s
  else if (Z.land (ppuMask (sl_ppu s)) 4 =? 0) && (xout <? 8) then Some s
  else
    o ← getb (sl_out s) xout;
    if negb (isBG o) then Some s
    else
      let val := spriteVal row x in
      priorityOut ← setb (sl_priorityOut s) xout (Z.land (attr row) 0x20 =? 0);
      out ← setb (sl_out s) xout val;
      hit ← (if (i =? 0) && (xout <? 255) && negb (isBG val) then
               bg ← getb background xout; Some (negb (isBG bg))
             else Some false);
      let ppu :=
        if hit : bool
        then set_ppuStatus (Z.lor (ppuStatus (sl_ppu s)) 0x40) (sl_ppu s)
        else sl_ppu s in
      Some {| sl_ppu := ppu; sl_out := out; sl_priorityOut := priorityOut |}.

(** The body of the sprite loop. *)
Definition renderSprite (cartMapper : Mapper) (background : list Z) (i : Z)
    (s : SpriteLine) : option SpriteLine :=
  row ← fetchSprite cartMapper (sl_ppu s) i;
  match row with
  | None => Some s
  | Some row => forM (spritePixel i row background) (upto 8) s
  end.

(** Render the sprites for the current scan line. *)
Definition renderSprites (out : list Z) (priorityOut : list bool)
    (background : list Z) (ppu : PPU) (cartMapper : Mapper)
  : option SpriteLine :=
  forM (renderSprite cartMapper background) (upto 64)
    {| sl_ppu := ppu; sl_out := out; sl_priorityOut := priorityOut |}.

(** The reload of [loopyV] at the start of a rendered scan line. *)
Definition reloadLoopyV (ppu : PPU) : PPU :=
  if scanLineCounter ppu =? 0 then
    (* At the start of rendering, loopyV is loaded from loopyT. *)
    set_loopyV (loopyT ppu) ppu
  else
    let ppu := set_loopyV (Z.land (loopyV ppu) (not16 0x041f)) ppu in
    set_loopyV (Z.lor (loopyV ppu) (Z.land (loopyT ppu) 0x041f)) ppu.

(** The palette entry of pixel [i] after background/sprite priority is
    resolved. *)
Definition mergePixel (background sprites : list Z)
    (spriteHasPriority : list bool) (i : Z) : option Z :=
  bg ← getb background i;
  sp ← getb sprites i;
  if isBG bg then
    if isBG sp then Some 0 else Some (u8 (0x10 + sp))
  else if isBG sp then Some bg
  else
    prio ← getb spriteHasPriority i;
    if prio : bool then Some (u8 (0x10 + sp)) else Some bg.

Section WithPalette.

(** The global table [Palette] of the ppu package (the RGB value of each
    NES colour) is declared in a file that is not part of the sources at
    hand; it is a parameter here. *)
Variable Palette : list Color.

(** [ppu.window.SetPixel(i, int(ppu.scanLineCounter), bg.r, bg.g, bg.b)]
    with [bg := &Palette[ppu.pal[palEntry]]]. *)
Definition drawPixel (ppu : PPU) (i palEntry : Z) (w : GraphicsWindow)
  : option GraphicsWindow :=
  c ← getb (pal ppu) palEntry;
  bg ← getb Palette c;
  SetPixel i (scanLineCounter ppu) (r bg) (g bg) (b bg) w.

(** The rest of [RenderScanLine] once [loopyV] is reloaded: the two
    subrenders, the merge and the advance of the scan line counter. *)
Definition renderRows (ppu : PPU) (cartMapper : Mapper) : option PPU :=
  let background := fill 256 0 in
  let sprites := fill 256 0 in
  let spriteHasPriority := fill 256 false in
  '(ppu, background) ←
    (if shouldRenderBackground ppu
     then renderBackground background ppu cartMapper
     else Some (ppu, background));
  sl ← (if shouldRenderSprites ppu
        then renderSprites sprites spriteHasPriority background ppu cartMapper
        else Some {| sl_ppu := ppu; sl_out := sprites;
                     sl_priorityOut := spriteHasPriority |});
  let ppu := sl_ppu sl in
  w ← forM (fun i w =>
              palEntry ← mergePixel background (sl_out sl)
                           (sl_priorityOut sl) i;
              drawPixel ppu i palEntry w)
         (upto 256) (window ppu);
  let ppu := set_window w ppu in
  Some (set_scanLineCounter (u16 (scanLineCounter ppu + 1)) ppu).

(** Render one scan line. *)
Definition RenderScanLine (ppu : PPU) (cartMapper : Mapper) : option PPU :=
  if negb (shouldRenderBackground ppu) && negb (shouldRenderSprites ppu) then
    (* There is no rendering enabled, just show the bg color. *)
    c ← getb (pal ppu) 0;
    bg ← getb Palette c;
    w ← forM (fun i w => SetPixel i (scanLineCounter ppu) (r bg) (g bg) (b bg) w)
           (upto 256) (window ppu);
    let ppu := set_window w ppu in
    Some (set_scanLineCounter (u16 (scanLineCounter ppu + 1)) ppu)
  else
    renderRows (reloadLoopyV ppu) cartMapper.

End WithPalette.

End ppu.

(** ** Package cpu: the 6502 interpreter *)

Module cpu.

(** The 6502 CPU emulation code only requires an implementation of this
    interface.  Both methods may change the state behind the interface
    (reading a PPU register has side effects) and may panic. *)
Class MemoryInterface (M : Type) := {
  (* Read the byte at 'addr'. *)
  Read : Z -> M -> option (Z * M);
  (* Write 'val' at 'addr'.  Returns how many extra CPU cycles the write
     took. *)
  Write : Z -> Z -> M -> option (Z * M)
}.

(** Flags for the status register *)
Definition C : Z := 0x01.
Definition Z_ : Z := 0x02.
Definition I : Z := 0x04.
Definition D : Z := 0x08.
Definition B : Z := 0x10.
Definition ALWAYS_ON : Z := 0x20.
Definition V : Z := 0x40.
Definition N : Z := 0x80.

(** Hardware vectors for interrupts. *)
Definition vectorReset : Z := 0xfffc.
Definition vectorNMI : Z := 0xfffa.
Definition vectorIRQBRK : Z := 0xfffe.

(** All addressing modes. *)
Inductive Addressing :=
| BAD | IMP | IMM | ZP | ZPX | ZPY | ABS | ABSX | ABSY | IND | INDY | INDX.

Section WithMemory.

Context {M : Type} `{MemoryInterface M}.

Record CPU := {
  ac : Z;
  xr : Z;
  yr : Z;
  st : Z;
  sp : Z;
  pc : Z;
  opRawAddr : Z;
  opAddr : Z;
  mem : M;
  clockCycles : Z;
  Debug : bool
}.

Definition set_ac v (p : CPU) : CPU :=
  {| ac := v; xr := xr p; yr := yr p; st := st p; sp := sp p; pc := pc p;
     opRawAddr := opRawAddr p; opAddr := opAddr p; mem := mem p;
     clockCycles := clockCycles p; Debug := Debug p |}.
Definition set_xr v (p : CPU) : CPU :=
  {| ac := ac p; xr := v; yr := yr p; st := st p; sp := sp p; pc := pc p;
     opRawAddr := opRawAddr p; opAddr := opAddr p; mem := mem p;
     clockCycles := clockCycles p; Debug := Debug p |}.
Definition set_yr v (p : CPU) : CPU :=
  {| ac := ac p; xr := xr p; yr := v; st := st p; sp := sp p; pc := pc p;
     opRawAddr := opRawAddr p; opAddr := opAddr p; mem := mem p;
     clockCycles := clockCycles p; Debug := Debug p |}.
Definition set_st v (p : CPU) : CPU :=
  {| ac := ac p; xr := xr p; yr := yr p; st := v; sp := sp p; pc := pc p;
     opRawAddr := opRawAddr p; opAddr := opAddr p; mem := mem p;
     clockCycles := clockCycles p; Debug := Debug p |}.
Definition set_sp v (p : CPU) : CPU :=
  {| ac := ac p; xr := xr p; yr := yr p; st := st p; sp := v; pc := pc p;
     opRawAddr := opRawAddr p; opAddr := opAddr p; mem := mem p;
     clockCycles := clockCycles p; Debug := Debug p |}.
Definition set_pc v (p : CPU) : CPU :=
  {| ac := ac p; xr := xr p; yr := yr p; st := st p; sp := sp p; pc := v;
     opRawAddr := opRawAddr p; opAddr := opAddr p; mem := mem p;
     clockCycles := clockCycles p; Debug := Debug p |}.
Definition set_opRawAddr v (p : CPU) : CPU :=
  {| ac := ac p; xr := xr p; yr := yr p; st := st p; sp := sp p;
     pc := pc p; opRawAddr := v; opAddr := opAddr p; mem := mem p;
     clockCycles := clockCycles p; Debug := Debug p |}.
Definition set_opAddr v (p : CPU) : CPU :=
  {| ac := ac p; xr := xr p; yr := yr p; st := st p; sp := sp p;
     pc := pc p; opRawAddr := opRawAddr p; opAddr := v; mem := mem p;
     clockCycles := clockCycles p; Debug := Debug p |}.
Definition set_mem v (p : CPU) : CPU :=
  {| ac := ac p; xr := xr p; yr := yr p; st := st p; sp := sp p;
     pc := pc p; opRawAddr := opRawAddr p; opAddr := opAddr p; mem := v;
     clockCycles := clockCycles p; Debug := Debug p |}.
Definition set_clockCycles v (p : CPU) : CPU :=
  {| ac := ac p; xr := xr p; yr := yr p; st := st p; sp := sp p;
     pc := pc p; opRawAddr := opRawAddr p; opAddr := opAddr p;
     mem := mem p; clockCycles := v; Debug := Debug p |}.
Definition set_Debug v (p : CPU) : CPU :=
  {| ac := ac p; xr := xr p; yr := yr p; st := st p; sp := sp p;
     pc := pc p; opRawAddr := opRawAddr p; opAddr := opAddr p;
     mem := mem p; clockCycles := clockCycles p; Debug := v |}.

(** A method of [*CPU]: it may read and change the CPU (and, through it,
    the memory behind the interface), and it may panic. *)
Definition Exec (A : Type) : Type := CPU -> option (A * CPU).

#[global] Instance Exec_ret : MRet Exec := fun A a cpu => Some (a, cpu).
#[global] Instance Exec_bind : MBind Exec := fun A B k m cpu =>
  match m cpu with
  | Some (a, cpu') => k a cpu'
  | None => None
  end.

Definition get {A} (f : CPU -> A) : Exec A := fun cpu => Some (f cpu, cpu).
Definition modify (f : CPU -> CPU) : Exec unit := fun cpu => Some (tt, f cpu).
Definition panic {A} : Exec A := fun _ => None.

(** [cpu.mem.Read(addr)] *)
Definition memRead (addr : Z) : Exec Z := fun cpu =>
  '(val, m) ← Read addr (mem cpu); Some (val, set_mem m cpu).

(** [cpu.clockCycles += cpu.mem.Write(addr, val)]: every write of the
    interpreter has this form. *)
Definition memWrite (addr val : Z) : Exec unit := fun cpu =>
  '(cycles, m) ← Write addr val (mem cpu);
  Some (tt, set_clockCycles (u64 (clockCycles cpu + cycles)) (set_mem m cpu)).

Definition addCycles (n : Z) : Exec unit :=
  modify (fun cpu => set_clockCycles (u64 (clockCycles cpu + n)) cpu).

(** Is the flag 'flag' set? *)
Definition isSet (flag : Z) (cpu : CPU) : bool :=
  flag =? Z.land (st cpu) flag.

(** Set the flag 'flag' if 'on' is true, clear it otherwise. *)
Definition set (flag : Z) (on : bool) (cpu : CPU) : CPU :=
  if on then set_st (Z.lor (st cpu) flag) cpu
  else set_st (Z.land (st cpu) (not8 flag)) cpu.

(** Set the Z and N flags from the result. *)
Definition setZN (result : Z) (cpu : CPU) : CPU :=
  let cpu :=
    if result =? 0 then set_st (Z.lor (st cpu) Z_) cpu
    else set_st (Z.land (st cpu) (not8 Z_)) cpu in
  if Z.land result 0x80 =? 0x80 then set_st (Z.lor (st cpu) N) cpu
  else set_st (Z.land (st cpu) (not8 N)) cpu.

(** *** Addressing modes *)

(** Read one byte from *pc and increment pc. *)
Definition readPC8 : Exec Z :=
  a ← get pc;
  out ← memRead a;
  modify (fun cpu => set_pc (u16 (pc cpu + 1)) cpu);;
  mret out.

(** Read a 16-bit word from *pc.  The 6502 is LSB first. *)
Definition readPC16 : Exec Z :=
  lo ← readPC8;
  hi ← readPC8;
  mret (Z.lor lo (u16 (Z.shiftl hi 8))).

Definition addrIMM : Exec unit :=
  modify (fun cpu => set_opAddr (pc cpu) cpu);;
  modify (fun cpu => set_pc (u16 (pc cpu + 1)) cpu).

Definition addrZP : Exec unit :=
  raw ← readPC8;
  modify (set_opRawAddr raw);;
  modify (fun cpu => set_opAddr (opRawAddr cpu) cpu).

Definition addrZPX : Exec unit :=
  raw ← readPC8;
  modify (set_opRawAddr raw);;
  modify (fun cpu => set_opAddr (u16 (opRawAddr cpu + xr cpu)) cpu);;
  modify (fun cpu => set_opAddr (Z.land (opAddr cpu) 0xff) cpu).

Definition addrZPY : Exec unit :=
  raw ← readPC8;
  modify (set_opRawAddr raw);;
  modify (fun cpu => set_opAddr (u16 (opRawAddr cpu + yr cpu)) cpu);;
  modify (fun cpu => set_opAddr (Z.land (opAddr cpu) 0xff) cpu).

Definition addrABS : Exec unit :=
  raw ← readPC16;
  modify (set_opRawAddr raw);;
  modify (fun cpu => set_opAddr (opRawAddr cpu) cpu).

(** Indirect addressing.  This is only used with JMP.  There is a bug in
    the hardware that we recreate. *)
Definition addrIND : Exec unit :=
  tmpAddr ← readPC16;
  modify (set_opRawAddr tmpAddr);;
  lowByte ← memRead tmpAddr;
  (* There isn't a carry from the lower byte to the higher byte, so if
     we'd carry out of the lower-order byte, instead wrap to zero. *)
  let tmpAddr :=
    if Z.land tmpAddr 0xff =? 0xff then Z.land tmpAddr 0xff00
    else u16 (tmpAddr + 1) in
  highByte ← memRead tmpAddr;
  modify (set_opAddr (Z.lor lowByte (u16 (Z.shiftl highByte 8)))).

(** The page-cross penalty shared by the indexed modes. *)
Definition pageCross (a b extraCycles : Z) : Exec unit :=
  if negb (Z.land a 0xff00 =? Z.land b 0xff00)
  then addCycles extraCycles else mret tt.

Definition addrABSX (extraCycles : Z) : Exec unit :=
  raw ← readPC16;
  modify (set_opRawAddr raw);;
  modify (fun cpu => set_opAddr (u16 (opRawAddr cpu + xr cpu)) cpu);;
  raw ← get opRawAddr;
  a ← get opAddr;
  pageCross raw a extraCycles.

Definition addrABSY (extraCycles : Z) : Exec unit :=
  raw ← readPC16;
  modify (set_opRawAddr raw);;
  modify (fun cpu => set_opAddr (u16 (opRawAddr cpu + yr cpu)) cpu);;
  raw ← get opRawAddr;
  a ← get opAddr;
  pageCross raw a extraCycles.

Definition addrINDX : Exec unit :=
  raw ← readPC8;
  modify (set_opRawAddr raw);;
  x ← get xr;
  let zpaddr := Z.land 0xff (u16 (raw + x)) in
  lo ← memRead zpaddr;
  modify (set_opAddr lo);;
  hi ← memRead (Z.land 0xff (u16 (zpaddr + 1)));
  modify (fun cpu => set_opAddr (Z.lor (opAddr cpu) (u16 (Z.shiftl hi 8))) cpu).

Definition addrINDY (extraCycles : Z) : Exec unit :=
  raw ← readPC8;
  modify (set_opRawAddr raw);;
  lo ← memRead raw;
  modify (set_opAddr lo);;
  (* The high byte is located on the zero page as well, so we wrap
     opRawAddr+1. *)
  hi ← memRead (Z.land 0xff (u16 (raw + 1)));
  modify (fun cpu => set_opAddr (Z.lor (opAddr cpu) (u16 (Z.shiftl hi 8))) cpu);;
  addrPreYRegister ← get opAddr;
  modify (fun cpu => set_opAddr (u16 (opAddr cpu + yr cpu)) cpu);;
  a ← get opAddr;
  pageCross a addrPreYRegister extraCycles.

(** *** Helpers of the executors *)

Definition readOpData : Exec Z := a ← get opAddr; memRead a.

(** [cpu.mem.Write(cpu.opAddr, data)] with its cycles. *)
Definition writeOpData (data : Z) : Exec unit :=
  a ← get opAddr; memWrite a data.

(** Push the provided byte on the stack. *)
Definition push (value : Z) : Exec unit :=
  s ← get sp;
  let addr := u16 (0x100 + s) in
  memWrite addr value;;
  modify (fun cpu => set_sp (u8 (sp cpu - 1)) cpu).

(** Pop the top element from the stack and return it. *)
Definition pop : Exec Z :=
  modify (fun cpu => set_sp (u8 (sp cpu + 1)) cpu);;
  s ← get sp;
  let addr := u16 (0x100 + s) in
  memRead addr.

(** Push a two byte word to the stack. *)
Definition pushWord (word : Z) : Exec unit :=
  push (u8 (Z.land 0xff (Z.shiftr word 8)));;
  push (u8 (Z.land 0xff word)).

(** Pop a two byte word from the stack. *)
Definition popWord : Exec Z :=
  lo ← pop;
  hi ← pop;
  mret (Z.lor lo (u16 (Z.shiftl hi 8))).

(** Generic branching routine. *)
Definition genericBranch (should : CPU -> bool) : Exec unit :=
  should ← get should;
  if negb should then mret tt
  else
    offset ← readOpData;
    (* Sign-extend offset from 8 bits to 16 bits. *)
    let offset :=
      if Z.land 0x80 offset =? 0x80 then Z.lor offset 0xff00 else offset in
    p ← get pc;
    let newPC := u16 (p + offset) in
    (if negb (Z.land newPC 0xff00 =? Z.land p 0xff00)
     then addCycles 2 else addCycles 1);;
    modify (set_pc newPC).

(** The arithmetic shared by [opAdc] and [opRra]. *)
Definition adc (opData : Z) (cpu : CPU) : CPU :=
  let result := u16 (ac cpu + opData) in
  let result := if isSet C cpu then u16 (result + 1) else result in
  let cpu :=
    set V (negb (0 =? Z.land (Z.land (Z.lxor (ac cpu) result)
                                  (Z.lxor opData result)) 0x80)) cpu in
  let cpu := set C (0xff <? result) cpu in
  let cpu := set_ac (u8 (Z.land result 0xff)) cpu in
  setZN (ac cpu) cpu.

(** The arithmetic shared by [opSbc] and [opIsc]. *)
Definition sbc (opData : Z) (cpu : CPU) : CPU :=
  let result := u16 (ac cpu - opData) in
  let result := if negb (isSet C cpu) then u16 (result - 1) else result in
  let cpu :=
    set V (negb (0 =? Z.land (Z.land (Z.lxor (ac cpu) result)
                                  (Z.lxor (ac cpu) opData)) 0x80)) cpu in
  let cpu := set C (result <? 0x100) cpu in
  let cpu := set_ac (u8 (Z.land result 0xff)) cpu in
  setZN (ac cpu) cpu.

(** *** Opcodes *)

Definition opAac : Exec unit :=
  d ← readOpData;
  modify (fun cpu =>
    let cpu := set_ac (Z.land (ac cpu) d) cpu in
    let cpu := set C (0x80 =? Z.land (ac cpu) 0x80) cpu in
    setZN (ac cpu) cpu).

Definition opAax : Exec unit :=
  data ← get (fun cpu => Z.land (ac cpu) (xr cpu));
  writeOpData data.

Definition opAdc : Exec unit :=
  opData ← readOpData;
  modify (adc opData).

Definition opAnd : Exec unit :=
  d ← readOpData;
  modify (fun cpu =>
    let cpu := set_ac (Z.land (ac cpu) d) cpu in
    setZN (ac cpu) cpu).

Definition opAslAcc : Exec unit :=
  modify (fun cpu =>
    let cpu := set C (0x80 =? Z.land (ac cpu) 0x80) cpu in
    let cpu := set_ac (u8 (Z.shiftl (ac cpu) 1)) cpu in
    setZN (ac cpu) cpu).

Definition opAsl : Exec unit :=
  data ← readOpData;
  modify (set C (0x80 =? Z.land data 0x80));;
  let data := u8 (Z.shiftl data 1) in
  writeOpData data;;
  modify (setZN data).

Definition opAsr : Exec unit :=
  d ← readOpData;
  modify (fun cpu =>
    let cpu := set_ac (Z.land (ac cpu) d) cpu in
    let cpu := set C (1 =? Z.land (ac cpu) 1) cpu in
    let cpu := set_ac (Z.shiftr (ac cpu) 1) cpu in
    setZN (ac cpu) cpu).

Definition opArr : Exec unit :=
  d ← readOpData;
  modify (fun cpu =>
    let cpu := set_ac (Z.shiftr (Z.land (ac cpu) d) 1) cpu in
    let cpu := if isSet C cpu then set_ac (Z.lor (ac cpu) 0x80) cpu else cpu in
    let cpu := setZN (ac cpu) cpu in
    let cpu := set C (0x40 =? Z.land (ac cpu) 0x40) cpu in
    let bit6IsSet := 0x40 =? Z.land (ac cpu) 0x40 in
    let bit5IsSet := 0x20 =? Z.land (ac cpu) 0x20 in
    set V (negb (eqb bit6IsSet bit5IsSet)) cpu).

Definition opAtx : Exec unit :=
  d ← readOpData;
  modify (fun cpu =>
    let cpu := set_ac d cpu in
    let cpu := set_xr (ac cpu) cpu in
    setZN (xr cpu) cpu).

Definition opAxs : Exec unit :=
  d ← readOpData;
  modify (fun cpu =>
    let result := u16 (Z.land (xr cpu) (ac cpu) - d) in
    let cpu := set C (result <? 0x100) cpu in
    let cpu := set_xr (u8 (Z.land result 0xff)) cpu in
    setZN (xr cpu) cpu).

Definition opBcc : Exec unit := genericBranch (fun cpu => negb (isSet C cpu)).
Definition opBcs : Exec unit := genericBranch (isSet C).
Definition opBeq : Exec unit := genericBranch (isSet Z_).

Definition opBit : Exec unit :=
  data ← readOpData;
  modify (fun cpu =>
    let cpu := set Z_ (0 =? Z.land data (ac cpu)) cpu in
    let cpu := set V (0x40 =? Z.land data 0x40) cpu in
    set N (0x80 =? Z.land data 0x80) cpu).

Definition opBmi : Exec unit := genericBranch (isSet N).
Definition opBne : Exec unit := genericBranch (fun cpu => negb (isSet Z_ cpu)).
Definition opBpl : Exec unit := genericBranch (fun cpu => negb (isSet N cpu)).

Definition opBrk : Exec unit :=
  p ← get pc;
  pushWord (u16 (p + 1));;
  modify (set B true);;
  s ← get st;
  push (Z.lor ALWAYS_ON s);;
  modify (set I true);;
  lo ← memRead vectorIRQBRK;
  hi ← memRead (u16 (vectorIRQBRK + 1));
  modify (set_pc (Z.lor lo (u16 (Z.shiftl hi 8)))).

Definition opBvc : Exec unit := genericBranch (fun cpu => negb (isSet V cpu)).
Definition opBvs : Exec unit := genericBranch (isSet V).

Definition opClc : Exec unit := modify (set C false).
Definition opCld : Exec unit := modify (set D false).
Definition opCli : Exec unit := modify (set I false).
Definition opClv : Exec unit := modify (set V false).

Definition opCmp : Exec unit :=
  data ← readOpData;
  modify (fun cpu =>
    let cpu := set C (data <=? ac cpu) cpu in
    setZN (u8 (ac cpu - data)) cpu).

Definition opCpx : Exec unit :=
  data ← readOpData;
  modify (fun cpu =>
    let cpu := set C (data <=? xr cpu) cpu in
    setZN (u8 (xr cpu - data)) cpu).

Definition opCpy : Exec unit :=
  data ← readOpData;
  modify (fun cpu =>
    let cpu := set C (data <=? yr cpu) cpu in
    setZN (u8 (yr cpu - data)) cpu).

Definition opDcp : Exec unit :=
  d ← readOpData;
  let data := u8 (d - 1) in
  modify (fun cpu =>
    let cpu := set C (data <=? ac cpu) cpu in
    setZN (u8 (ac cpu - data)) cpu);;
  writeOpData data.

Definition opDec : Exec unit :=
  d ← readOpData;
  let data := u8 (d - 1) in
  modify (setZN data);;
  writeOpData data.

Definition opDex : Exec unit :=
  modify (fun cpu =>
    let cpu := set_xr (u8 (xr cpu - 1)) cpu in
    setZN (xr cpu) cpu).

Definition opDey : Exec unit :=
  modify (fun cpu =>
    let cpu := set_yr (u8 (yr cpu - 1)) cpu in
    setZN (yr cpu) cpu).

Definition opEor : Exec unit :=
  d ← readOpData;
  modify (fun cpu =>
    let cpu := set_ac (Z.lxor (ac cpu) d) cpu in
    setZN (ac cpu) cpu).

Definition opInc : Exec unit :=
  d ← readOpData;
  let data := u8 (d + 1) in
  writeOpData data;;
  modify (setZN data).

Definition opInx : Exec unit :=
  modify (fun cpu =>
    let cpu := set_xr (u8 (xr cpu + 1)) cpu in
    setZN (xr cpu) cpu).

Definition opIny : Exec unit :=
  modify (fun cpu =>
    let cpu := set_yr (u8 (yr cpu + 1)) cpu in
    setZN (yr cpu) cpu).

Definition opIsc : Exec unit :=
  opData ← readOpData;
  let opData := Z.land 0xff (u16 (opData + 1)) in
  writeOpData (u8 opData);;
  modify (sbc opData).

Definition opJmp : Exec unit :=
  modify (fun cpu => set_pc (opAddr cpu) cpu).

Definition opJsr : Exec unit :=
  p ← get pc;
  pushWord (u16 (p - 1));;
  modify (fun cpu => set_pc (opAddr cpu) cpu).

Definition opLax : Exec unit :=
  d ← readOpData;
  modify (fun cpu =>
    let cpu := set_ac d cpu in
    let cpu := set_xr (ac cpu) cpu in
    setZN (ac cpu) cpu).

Definition opLda : Exec unit :=
  d ← readOpData;
  modify (fun cpu => let cpu := set_ac d cpu in setZN (ac cpu) cpu).

Definition opLdx : Exec unit :=
  d ← readOpData;
  modify (fun cpu => let cpu := set_xr d cpu in setZN (xr cpu) cpu).

Definition opLdy : Exec unit :=
  d ← readOpData;
  modify (fun cpu => let cpu := set_yr d cpu in setZN (yr cpu) cpu).

Definition opLsrAcc : Exec unit :=
  modify (fun cpu =>
    let cpu := set C (1 =? Z.land (ac cpu) 1) cpu in
    let cpu := set_ac (Z.shiftr (ac cpu) 1) cpu in
    setZN (ac cpu) cpu).

Definition opLsr : Exec unit :=
  data ← readOpData;
  modify (set C (1 =? Z.land data 1));;
  let data := Z.shiftr data 1 in
  modify (setZN data);;
  writeOpData data.

Definition opNop : Exec unit := mret tt.

Definition opOra : Exec unit :=
  d ← readOpData;
  modify (fun cpu =>
    let cpu := set_ac (Z.lor (ac cpu) d) cpu in
    setZN (ac cpu) cpu).

Definition opPha : Exec unit := a ← get ac; push a.

Definition opPhp : Exec unit :=
  s ← get st;
  push (Z.lor (Z.lor ALWAYS_ON s) B).

Definition opPla : Exec unit :=
  v ← pop;
  modify (fun cpu => let cpu := set_ac v cpu in setZN (ac cpu) cpu).

Definition opPlp : Exec unit :=
  v ← pop;
  modify (set_st (Z.lor ALWAYS_ON (Z.land v (not8 B)))).

Definition opRla : Exec unit :=
  data ← readOpData;
  carry ← get (isSet C);
  modify (set C (0x80 =? Z.land data 0x80));;
  let data := u8 (Z.shiftl data 1) in
  let data := if carry : bool then Z.lor data 1 else data in
  writeOpData data;;
  modify (fun cpu =>
    let cpu := set_ac (Z.land (ac cpu) data) cpu in
    setZN (ac cpu) cpu).

Definition opRolAcc : Exec unit :=
  modify (fun cpu =>
    let carry := isSet C cpu in
    let cpu := set C (0x80 =? Z.land (ac cpu) 0x80) cpu in
    let cpu := set_ac (u8 (Z.shiftl (ac cpu) 1)) cpu in
    let cpu := if carry then set_ac (u8 (ac cpu + 1)) cpu else cpu in
    setZN (ac cpu) cpu).

Definition opRol : Exec unit :=
  data ← readOpData;
  carry ← get (isSet C);
  modify (set C (0x80 =? Z.land data 0x80));;
  let data := u8 (Z.shiftl data 1) in
  let data := if carry : bool then u8 (data + 1) else data in
  writeOpData data;;
  modify (setZN data).

Definition opRorAcc : Exec unit :=
  modify (fun cpu =>
    let carry := isSet C cpu in
    let cpu := set C (1 =? Z.land (ac cpu) 1) cpu in
    let cpu := set_ac (Z.shiftr (ac cpu) 1) cpu in
    let cpu := if carry then set_ac (u8 (ac cpu + 0x80)) cpu else cpu in
    setZN (ac cpu) cpu).

Definition opRor : Exec unit :=
  data ← readOpData;
  carry ← get (isSet C);
  modify (set C (1 =? Z.land data 1));;
  let data := Z.shiftr data 1 in
  let data := if carry : bool then u8 (data + 0x80) else data in
  writeOpData data;;
  modify (setZN data).

Definition opRra : Exec unit :=
  opData ← readOpData;
  carry ← get (isSet C);
  modify (set C (1 =? Z.land opData 1));;
  let opData := Z.shiftr opData 1 in
  let opData := if carry : bool then Z.lor opData 0x80 else opData in
  writeOpData (u8 opData);;
  modify (adc opData).

Definition opRti : Exec unit :=
  (* There is no actual BRK flag, only exists in the flag when pushed to
     stack. *)
  v ← pop;
  modify (set_st (Z.lor ALWAYS_ON (Z.land v (not8 B))));;
  w ← popWord;
  modify (set_pc w).

Definition opRts : Exec unit :=
  w ← popWord;
  modify (set_pc w);;
  modify (fun cpu => set_pc (u16 (pc cpu + 1)) cpu).

Definition opSbc : Exec unit :=
  opData ← readOpData;
  modify (sbc opData).

Definition opSec : Exec unit := modify (set C true).
Definition opSed : Exec unit := modify (set D true).
Definition opSei : Exec unit := modify (set I true).

Definition opSlo : Exec unit :=
  data ← readOpData;
  modify (set C (0x80 =? Z.land data 0x80));;
  let data := u8 (Z.shiftl data 1) in
  writeOpData data;;
  modify (fun cpu =>
    let cpu := set_ac (Z.lor (ac cpu) data) cpu in
    setZN (ac cpu) cpu).

Definition opSre : Exec unit :=
  data ← readOpData;
  modify (set C (1 =? Z.land data 1));;
  let data := Z.shiftr data 1 in
  writeOpData data;;
  modify (fun cpu =>
    let cpu := set_ac (Z.lxor (ac cpu) data) cpu in
    setZN (ac cpu) cpu).

Definition opSta : Exec unit := a ← get ac; writeOpData a.
Definition opStx : Exec unit := x ← get xr; writeOpData x.
Definition opSty : Exec unit := y ← get yr; writeOpData y.

(** The address calculation shared by SXA and SYA; [idx] is the index
    register of the addressing mode and [reg] the register stored. *)
Definition sxaAddress (raw idx reg : Z) : Z :=
  let low := Z.land raw 0xff in
  let high := Z.shiftr raw 8 in
  if 0xff <? u16 (low + idx) then
    u16 (u16 (Z.shiftl (Z.land (u16 (high + 1)) reg) 8)
         + Z.land (u16 (idx + low)) 0xff)
  else u16 (u16 (u16 (Z.shiftl high 8) + idx) + low).

Definition opSxa : Exec unit :=
  cpu ← get id;
  let high := Z.shiftr (opRawAddr cpu) 8 in
  memWrite (sxaAddress (opRawAddr cpu) (yr cpu) (xr cpu))
           (Z.land (xr cpu) (u8 (u16 (high + 1)))).

Definition opSya : Exec unit :=
  cpu ← get id;
  let high := Z.shiftr (opRawAddr cpu) 8 in
  memWrite (sxaAddress (opRawAddr cpu) (xr cpu) (yr cpu))
           (Z.land (yr cpu) (u8 (u16 (high + 1)))).

Definition opTax : Exec unit :=
  modify (fun cpu => let cpu := set_xr (ac cpu) cpu in setZN (xr cpu) cpu).
Definition opTay : Exec unit :=
  modify (fun cpu => let cpu := set_yr (ac cpu) cpu in setZN (yr cpu) cpu).
Definition opTsx : Exec unit :=
  modify (fun cpu => let cpu := set_xr (sp cpu) cpu in setZN (xr cpu) cpu).
Definition opTxa : Exec unit :=
  modify (fun cpu => let cpu := set_ac (xr cpu) cpu in setZN (ac cpu) cpu).
Definition opTxs : Exec unit :=
  modify (fun cpu => set_sp (xr cpu) cpu).
Definition opTya : Exec unit :=
  modify (fun cpu => let cpu := set_ac (yr cpu) cpu in setZN (ac cpu) cpu).

(** *** The opcode table *)

(** Each opcode has an OpcodeEntry. *)
Record OpcodeEntry := entry {
  name : string;
  exec : Exec unit;
  cycles : Z;
  extraCycles : Z;
  addressing : Addressing
}.

(** The map literal [opTable]: its keys are distinct, as Go requires of
    a map literal. *)
Definition opEntries : list (Z * OpcodeEntry) :=
  [
    (0x0B, entry "AAC" opAac 2 0 IMM);
    (0x2B, entry "AAC" opAac 2 0 IMM);
    (0x87, entry "AAX" opAax 3 0 ZP);
    (0x97, entry "AAX" opAax 4 0 ZPY);
    (0x83, entry "AAX" opAax 6 0 INDX);
    (0x8F, entry "AAX" opAax 4 0 ABS);
    (0x69, entry "ADC" opAdc 2 0 IMM);
    (0x65, entry "ADC" opAdc 3 0 ZP);
    (0x75, entry "ADC" opAdc 4 0 ZPX);
    (0x6D, entry "ADC" opAdc 4 0 ABS);
    (0x7D, entry "ADC" opAdc 4 1 ABSX);
    (0x79, entry "ADC" opAdc 4 1 ABSY);
    (0x61, entry "ADC" opAdc 6 0 INDX);
    (0x71, entry "ADC" opAdc 5 1 INDY);
    (0x29, entry "AND" opAnd 2 0 IMM);
    (0x25, entry "AND" opAnd 3 0 ZP);
    (0x35, entry "AND" opAnd 4 0 ZPX);
    (0x2D, entry "AND" opAnd 4 0 ABS);
    (0x3D, entry "AND" opAnd 4 1 ABSX);
    (0x39, entry "AND" opAnd 4 1 ABSY);
    (0x21, entry "AND" opAnd 6 0 INDX);
    (0x31, entry "AND" opAnd 5 1 INDY);
    (0x0A, entry "ASL" opAslAcc 2 0 IMP);
    (0x06, entry "ASL" opAsl 5 0 ZP);
    (0x16, entry "ASL" opAsl 6 0 ZPX);
    (0x0E, entry "ASL" opAsl 6 0 ABS);
    (0x1E, entry "ASL" opAsl 7 0 ABSX);
    (0x4B, entry "ASR" opAsr 2 0 IMM);
    (0x6B, entry "ARR" opArr 2 0 IMM);
    (0xAB, entry "ATX" opAtx 2 0 IMM);
    (0xCB, entry "AXS" opAxs 2 0 IMM);
    (0x90, entry "BCC" opBcc 2 0 IMM);
    (0xB0, entry "BCS" opBcs 2 0 IMM);
    (0xF0, entry "BEQ" opBeq 2 0 IMM);
    (0x24, entry "BIT" opBit 3 0 ZP);
    (0x2C, entry "BIT" opBit 4 0 ABS);
    (0x30, entry "BMI" opBmi 2 0 IMM);
    (0xD0, entry "BNE" opBne 2 0 IMM);
    (0x10, entry "BPL" opBpl 2 0 IMM);
    (0x00, entry "BRK" opBrk 7 0 IMP);
    (0x50, entry "BVC" opBvc 2 0 IMM);
    (0x70, entry "BVS" opBvs 2 0 IMM);
    (0x18, entry "CLC" opClc 2 0 IMP);
    (0xD8, entry "CLD" opCld 2 0 IMP);
    (0x58, entry "CLI" opCli 2 0 IMP);
    (0xB8, entry "CLV" opClv 2 0 IMP);
    (0xC9, entry "CMP" opCmp 2 0 IMM);
    (0xC5, entry "CMP" opCmp 3 0 ZP);
    (0xD5, entry "CMP" opCmp 4 0 ZPX);
    (0xCD, entry "CMP" opCmp 4 0 ABS);
    (0xDD, entry "CMP" opCmp 4 1 ABSX);
    (0xD9, entry "CMP" opCmp 4 1 ABSY);
    (0xC1, entry "CMP" opCmp 6 0 INDX);
    (0xD1, entry "CMP" opCmp 5 1 INDY);
    (0xE0, entry "CPX" opCpx 2 0 IMM);
    (0xE4, entry "CPX" opCpx 3 0 ZP);
    (0xEC, entry "CPX" opCpx 4 0 ABS);
    (0xC0, entry "CPY" opCpy 2 0 IMM);
    (0xC4, entry "CPY" opCpy 3 0 ZP);
    (0xCC, entry "CPY" opCpy 4 0 ABS);
    (0xC7, entry "DCP" opDcp 5 0 ZP);
    (0xD7, entry "DCP" opDcp 6 0 ZPX);
    (0xCF, entry "DCP" opDcp 6 0 ABS);
    (0xDF, entry "DCP" opDcp 7 0 ABSX);
    (0xDB, entry "DCP" opDcp 7 0 ABSY);
    (0xC3, entry "DCP" opDcp 8 0 INDX);
    (0xD3, entry "DCP" opDcp 8 0 INDY);
    (0xC6, entry "DEC" opDec 5 0 ZP);
    (0xD6, entry "DEC" opDec 6 0 ZPX);
    (0xCE, entry "DEC" opDec 6 0 ABS);
    (0xDE, entry "DEC" opDec 7 0 ABSX);
    (0xCA, entry "DEX" opDex 2 0 IMP);
    (0x88, entry "DEY" opDey 2 0 IMP);
    (0x04, entry "DOP" opNop 3 0 ZP);
    (0x14, entry "DOP" opNop 4 0 ZPX);
    (0x34, entry "DOP" opNop 4 0 ZPX);
    (0x44, entry "DOP" opNop 3 0 ZP);
    (0x54, entry "DOP" opNop 4 0 ZPX);
    (0x64, entry "DOP" opNop 3 0 ZP);
    (0x74, entry "DOP" opNop 4 0 ZPX);
    (0x80, entry "DOP" opNop 2 0 IMM);
    (0x82, entry "DOP" opNop 2 0 IMM);
    (0x89, entry "DOP" opNop 2 0 IMM);
    (0xC2, entry "DOP" opNop 2 0 IMM);
    (0xD4, entry "DOP" opNop 4 0 ZPX);
    (0xE2, entry "DOP" opNop 2 0 IMM);
    (0xF4, entry "DOP" opNop 4 0 ZPX);
    (0x49, entry "EOR" opEor 2 0 IMM);
    (0x45, entry "EOR" opEor 3 0 ZP);
    (0x55, entry "EOR" opEor 4 0 ZPX);
    (0x4D, entry "EOR" opEor 4 0 ABS);
    (0x5D, entry "EOR" opEor 4 1 ABSX);
    (0x59, entry "EOR" opEor 4 1 ABSY);
    (0x41, entry "EOR" opEor 6 0 INDX);
    (0x51, entry "EOR" opEor 5 1 INDY);
    (0xE6, entry "INC" opInc 5 0 ZP);
    (0xF6, entry "INC" opInc 6 0 ZPX);
    (0xEE, entry "INC" opInc 6 0 ABS);
    (0xFE, entry "INC" opInc 7 0 ABSX);
    (0xE8, entry "INX" opInx 2 0 IMP);
    (0xC8, entry "INY" opIny 2 0 IMP);
    (0xE7, entry "ISC" opIsc 5 0 ZP);
    (0xF7, entry "ISC" opIsc 6 0 ZPX);
    (0xEF, entry "ISC" opIsc 6 0 ABS);
    (0xFF, entry "ISC" opIsc 7 0 ABSX);
    (0xFB, entry "ISC" opIsc 7 0 ABSY);
    (0xE3, entry "ISC" opIsc 8 0 INDX);
    (0xF3, entry "ISC" opIsc 8 0 INDY);
    (0x4C, entry "JMP" opJmp 3 0 ABS);
    (0x6C, entry "JMP" opJmp 5 0 IND);
    (0x20, entry "JSR" opJsr 6 0 ABS);
    (0xA7, entry "LAX" opLax 3 0 ZP);
    (0xB7, entry "LAX" opLax 4 0 ZPY);
    (0xAF, entry "LAX" opLax 4 0 ABS);
    (0xBF, entry "LAX" opLax 4 1 ABSY);
    (0xA3, entry "LAX" opLax 6 0 INDX);
    (0xB3, entry "LAX" opLax 5 1 INDY);
    (0xA9, entry "LDA" opLda 2 0 IMM);
    (0xA5, entry "LDA" opLda 3 0 ZP);
    (0xB5, entry "LDA" opLda 4 0 ZPX);
    (0xAD, entry "LDA" opLda 4 0 ABS);
    (0xBD, entry "LDA" opLda 4 1 ABSX);
    (0xB9, entry "LDA" opLda 4 1 ABSY);
    (0xA1, entry "LDA" opLda 6 0 INDX);
    (0xB1, entry "LDA" opLda 5 1 INDY);
    (0xA2, entry "LDX" opLdx 2 0 IMM);
    (0xA6, entry "LDX" opLdx 3 0 ZP);
    (0xB6, entry "LDX" opLdx 4 0 ZPY);
    (0xAE, entry "LDX" opLdx 4 0 ABS);
    (0xBE, entry "LDX" opLdx 4 1 ABSY);
    (0xA0, entry "LDY" opLdy 2 0 IMM);
    (0xA4, entry "LDY" opLdy 3 0 ZP);
    (0xB4, entry "LDY" opLdy 4 0 ZPX);
    (0xAC, entry "LDY" opLdy 4 0 ABS);
    (0xBC, entry "LDY" opLdy 4 1 ABSX);
    (0x4A, entry "LSR" opLsrAcc 2 0 IMP);
    (0x46, entry "LSR" opLsr 5 0 ZP);
    (0x56, entry "LSR" opLsr 6 0 ZPX);
    (0x4E, entry "LSR" opLsr 6 0 ABS);
    (0x5E, entry "LSR" opLsr 7 0 ABSX);
    (0xEA, entry "NOP" opNop 2 0 IMP);
    (0x1A, entry "NOP" opNop 2 0 IMP);
    (0x3A, entry "NOP" opNop 2 0 IMP);
    (0x5A, entry "NOP" opNop 2 0 IMP);
    (0x7A, entry "NOP" opNop 2 0 IMP);
    (0xDA, entry "NOP" opNop 2 0 IMP);
    (0xFA, entry "NOP" opNop 2 0 IMP);
    (0x09, entry "ORA" opOra 2 0 IMM);
    (0x05, entry "ORA" opOra 3 0 ZP);
    (0x15, entry "ORA" opOra 4 0 ZPX);
    (0x0D, entry "ORA" opOra 4 0 ABS);
    (0x1D, entry "ORA" opOra 4 1 ABSX);
    (0x19, entry "ORA" opOra 4 1 ABSY);
    (0x01, entry "ORA" opOra 6 0 INDX);
    (0x11, entry "ORA" opOra 5 1 INDY);
    (0x48, entry "PHA" opPha 3 0 IMP);
    (0x08, entry "PHP" opPhp 3 0 IMP);
    (0x68, entry "PLA" opPla 4 0 IMP);
    (0x28, entry "PLP" opPlp 4 0 IMP);
    (0x27, entry "RLA" opRla 5 0 ZP);
    (0x37, entry "RLA" opRla 6 0 ZPX);
    (0x2F, entry "RLA" opRla 6 0 ABS);
    (0x3F, entry "RLA" opRla 7 0 ABSX);
    (0x3B, entry "RLA" opRla 7 0 ABSY);
    (0x23, entry "RLA" opRla 8 0 INDX);
    (0x33, entry "RLA" opRla 8 0 INDY);
    (0x2A, entry "ROL" opRolAcc 2 0 IMP);
    (0x26, entry "ROL" opRol 5 0 ZP);
    (0x36, entry "ROL" opRol 6 0 ZPX);
    (0x2E, entry "ROL" opRol 6 0 ABS);
    (0x3E, entry "ROL" opRol 7 0 ABSX);
    (0x6A, entry "ROR" opRorAcc 2 0 IMP);
    (0x66, entry "ROR" opRor 5 0 ZP);
    (0x76, entry "ROR" opRor 6 0 ZPX);
    (0x6E, entry "ROR" opRor 6 0 ABS);
    (0x7E, entry "ROR" opRor 7 0 ABSX);
    (0x67, entry "RRA" opRra 5 0 ZP);
    (0x77, entry "RRA" opRra 6 0 ZPX);
    (0x6F, entry "RRA" opRra 6 0 ABS);
    (0x7F, entry "RRA" opRra 7 0 ABSX);
    (0x7B, entry "RRA" opRra 7 0 ABSY);
    (0x63, entry "RRA" opRra 8 0 INDX);
    (0x73, entry "RRA" opRra 8 0 INDY);
    (0x40, entry "RTI" opRti 6 0 IMP);
    (0x60, entry "RTS" opRts 6 0 IMP);
    (0xE9, entry "SBC" opSbc 2 0 IMM);
    (0xEB, entry "SBC" opSbc 2 0 IMM);
    (0xE5, entry "SBC" opSbc 3 0 ZP);
    (0xF5, entry "SBC" opSbc 4 0 ZPX);
    (0xED, entry "SBC" opSbc 4 0 ABS);
    (0xFD, entry "SBC" opSbc 4 1 ABSX);
    (0xF9, entry "SBC" opSbc 4 1 ABSY);
    (0xE1, entry "SBC" opSbc 6 0 INDX);
    (0xF1, entry "SBC" opSbc 5 1 INDY);
    (0x38, entry "SEC" opSec 2 0 IMP);
    (0xF8, entry "SED" opSed 2 0 IMP);
    (0x78, entry "SEI" opSei 2 0 IMP);
    (0x07, entry "SLO" opSlo 5 0 ZP);
    (0x17, entry "SLO" opSlo 6 0 ZPX);
    (0x0F, entry "SLO" opSlo 6 0 ABS);
    (0x1F, entry "SLO" opSlo 7 0 ABSX);
    (0x1B, entry "SLO" opSlo 7 0 ABSY);
    (0x03, entry "SLO" opSlo 8 0 INDX);
    (0x13, entry "SLO" opSlo 8 0 INDY);
    (0x47, entry "SRE" opSre 5 0 ZP);
    (0x57, entry "SRE" opSre 6 0 ZPX);
    (0x4F, entry "SRE" opSre 6 0 ABS);
    (0x5F, entry "SRE" opSre 7 0 ABSX);
    (0x5B, entry "SRE" opSre 7 0 ABSY);
    (0x43, entry "SRE" opSre 8 0 INDX);
    (0x53, entry "SRE" opSre 8 0 INDY);
    (0x85, entry "STA" opSta 3 0 ZP);
    (0x95, entry "STA" opSta 4 0 ZPX);
    (0x8D, entry "STA" opSta 4 0 ABS);
    (0x9D, entry "STA" opSta 5 0 ABSX);
    (0x99, entry "STA" opSta 5 0 ABSY);
    (0x81, entry "STA" opSta 6 0 INDX);
    (0x91, entry "STA" opSta 6 0 INDY);
    (0x86, entry "STX" opStx 3 0 ZP);
    (0x96, entry "STX" opStx 4 0 ZPY);
    (0x8E, entry "STX" opStx 4 0 ABS);
    (0x84, entry "STY" opSty 3 0 ZP);
    (0x94, entry "STY" opSty 4 0 ZPX);
    (0x8C, entry "STY" opSty 4 0 ABS);
    (0x9E, entry "SXA" opSxa 5 0 ABSY);
    (0x9C, entry "SYA" opSya 5 0 ABSX);
    (0xAA, entry "TAX" opTax 2 0 IMP);
    (0xA8, entry "TAY" opTay 2 0 IMP);
    (0x0C, entry "TOP" opNop 4 0 ABS);
    (0x1C, entry "TOP" opNop 4 1 ABSX);
    (0x3C, entry "TOP" opNop 4 1 ABSX);
    (0x5C, entry "TOP" opNop 4 1 ABSX);
    (0x7C, entry "TOP" opNop 4 1 ABSX);
    (0xDC, entry "TOP" opNop 4 1 ABSX);
    (0xFC, entry "TOP" opNop 4 1 ABSX);
    (0xBA, entry "TSX" opTsx 2 0 IMP);
    (0x8A, entry "TXA" opTxa 2 0 IMP);
    (0x9A, entry "TXS" opTxs 2 0 IMP);
    (0x98, entry "TYA" opTya 2 0 IMP)
  ].

Definition opTable : gmap Z OpcodeEntry := list_to_map opEntries.

(** Calculate the full address that 'op' refers to and store it in
    'cpu.opAddr'. *)
Definition readAddressOfOperand (op : OpcodeEntry) : Exec unit :=
  match addressing op with
  | BAD => mret tt
  | IMP => mret tt
  | IMM => addrIMM
  | ZP => addrZP
  | ZPX => addrZPX
  | ZPY => addrZPY
  | ABS => addrABS
  | ABSX => addrABSX (extraCycles op)
  | ABSY => addrABSY (extraCycles op)
  | IND => addrIND
  | INDY => addrINDY (extraCycles op)
  | INDX => addrINDX
  end.

(** *** The public methods.  The [Debug] logging prints to the console
    and changes nothing; it is left out. *)

(** Allocate a new CPU and initialize its internal state. *)
Definition NewCPU (m : M) : option CPU :=
  '(lo, m) ← Read vectorReset m;
  '(hi, m) ← Read (u16 (vectorReset + 1)) m;
  Some {| ac := 0; xr := 0; yr := 0; st := 0x34; sp := 0xfd;
          pc := Z.lor lo (u16 (Z.shiftl hi 8));
          opRawAddr := 0; opAddr := 0; mem := m; clockCycles := 0;
          Debug := false |}.

(** Reset the CPU. *)
Definition Reset : Exec unit :=
  lo ← memRead vectorReset;
  modify (set_pc lo);;
  hi ← memRead (u16 (vectorReset + 1));
  modify (fun cpu => set_pc (Z.lor (pc cpu) (u16 (Z.shiftl hi 8))) cpu);;
  modify (fun cpu => set_sp (Z.lor (sp cpu) I) cpu);;
  modify (fun cpu => set_sp (u8 (sp cpu - 3)) cpu);;
  (* Reset internal state. *)
  modify (set_opRawAddr 0);;
  modify (set_opAddr 0);;
  modify (set_clockCycles 0).

Definition NMI : Exec Z :=
  modify (set_clockCycles 0);;
  p ← get pc;
  pushWord p;;
  s ← get st;
  push s;;
  modify (set I true);;
  lo ← memRead vectorNMI;
  modify (set_pc lo);;
  hi ← memRead (u16 (vectorNMI + 1));
  modify (fun cpu => set_pc (Z.lor (pc cpu) (u16 (Z.shiftl hi 8))) cpu);;
  mret 7.

Definition Interpret : Exec Z :=
  modify (set_clockCycles 0);;
  opcode ← readPC8;
  match opTable !! opcode with
  | None => panic
  | Some op =>
      readAddressOfOperand op;;
      addCycles (cycles op);;
      exec op;;
      get clockCycles
  end.

End WithMemory.

Arguments CPU M : clear implicits.
Arguments Exec M : clear implicits.
Arguments OpcodeEntry M : clear implicits.

End cpu.

(** ** Package wrapper: the input provider *)

Module input.

(** These are the possible user input events that the InputProvider will
    supply. *)
Definition KEY_UP_1 : Z := 0.
Definition KEY_DOWN_1 : Z := 1.
Definition KEY_LEFT_1 : Z := 2.
Definition KEY_RIGHT_1 : Z := 3.
Definition KEY_SELECT_1 : Z := 4.
Definition KEY_START_1 : Z := 5.
Definition KEY_B_1 : Z := 6.
Definition KEY_A_1 : Z := 7.
Definition KEY_RESET : Z := 8.
Definition KEY_QUIT : Z := 9.

(** A host event as [IsKeyPressed] sees it.  Key events carry the SDL key
    code, which for a letter key is its character code. *)
Inductive Event :=
| KeyUpEvent (sym : Z)
| KeyDownEvent (sym : Z)
| JoyButtonEvent (button : Z) (down : bool)
| OtherEvent.

(** This is where the human-accessible keyboard is mapped to the NES button
    presses. *)
Definition keyMapping : gmap Z Z :=
  list_to_map [(119, KEY_UP_1); (115, KEY_DOWN_1); (97, KEY_LEFT_1);
               (100, KEY_RIGHT_1); (121, KEY_SELECT_1); (117, KEY_START_1);
               (104, KEY_B_1); (106, KEY_A_1); (114, KEY_RESET);
               (113, KEY_QUIT)].

Definition gamepadMapping : gmap Z Z :=
  list_to_map [(4, KEY_UP_1); (6, KEY_DOWN_1); (7, KEY_LEFT_1);
               (5, KEY_RIGHT_1); (0, KEY_SELECT_1); (3, KEY_START_1);
               (14, KEY_B_1); (13, KEY_A_1)].

(** An InputProvider describes what keys are pressed.  [outstanding] is the
    host's event queue as the successive calls of [IsKeyPressed] will find
    it: one batch of events per call. *)
Record InputProvider := {
  pressed : gmap Z bool;
  outstanding : list (list Event)
}.

Definition processEvent (pressed : gmap Z bool) (e : Event) : gmap Z bool :=
  match e with
  | KeyUpEvent sym =>
      match keyMapping !! sym with
      | Some key => <[key := false]> pressed
      | None => pressed
      end
  | KeyDownEvent sym =>
      match keyMapping !! sym with
      | Some key => <[key := true]> pressed
      | None => pressed
      end
  | JoyButtonEvent button down =>
      match gamepadMapping !! button with
      | Some key => <[key := down]> pressed
      | None => pressed
      end
  | OtherEvent => pressed
  end.

(** Returns true if the provided key is pressed, false otherwise. *)
Definition IsKeyPressed (nesKey : Z) (ip : InputProvider) : bool * InputProvider :=
  let batch := hd [] (outstanding ip) in
  let pressed := foldl processEvent (pressed ip) batch in
  (default false (pressed !! nesKey),
   {| pressed := pressed; outstanding := tl (outstanding ip) |}).

End input.

(** ** Package main: the CPU bus *)

Module emu.
Import mapper ppu input.

(** The NES-specific implementation of the CPU memory interface.  The bus
    and the PPU point to the same mapper object; it is held here, once. *)
Record NESMemory := {
  ram : list Z;
  ppu : PPU;
  currentKeyRead : Z;
  input : InputProvider;
  cartMapper : Mapper
}.

Definition set_ram v (m : NESMemory) : NESMemory :=
  {| ram := v; ppu := ppu m; currentKeyRead := currentKeyRead m;
     input := input m; cartMapper := cartMapper m |}.
Definition set_ppu v (m : NESMemory) : NESMemory :=
  {| ram := ram m; ppu := v; currentKeyRead := currentKeyRead m;
     input := input m; cartMapper := cartMapper m |}.
Definition set_currentKeyRead v (m : NESMemory) : NESMemory :=
  {| ram := ram m; ppu := ppu m; currentKeyRead := v;
     input := input m; cartMapper := cartMapper m |}.
Definition set_input v (m : NESMemory) : NESMemory :=
  {| ram := ram m; ppu := ppu m; currentKeyRead := currentKeyRead m;
     input := v; cartMapper := cartMapper m |}.
Definition set_cartMapper v (m : NESMemory) : NESMemory :=
  {| ram := ram m; ppu := ppu m; currentKeyRead := currentKeyRead m;
     input := input m; cartMapper := v |}.

(** Key presses are returned via the controller mmio regs in the following
    order. *)
Definition keyReadOrder : list Z :=
  [KEY_A_1; KEY_B_1; KEY_SELECT_1; KEY_START_1;
   KEY_UP_1; KEY_DOWN_1; KEY_LEFT_1; KEY_RIGHT_1].

(** The CPU is reading from 'addr'.  Dispatch to the correct handler. *)
Definition Read (addr : Z) (mem : NESMemory) : option (Z * NESMemory) :=
  if addr <? 0x2000 then
    (* [0x0000 -> 0x1FFF], but mirrored. *)
    let addr := Z.land addr 0x7ff in
    v ← getb (ram mem) addr; Some (v, mem)
  else if addr <? 0x4000 then
    '(v, p) ← ReadRegister addr (ppu mem) (cartMapper mem);
    Some (v, set_ppu p mem)
  else if addr <? 0x4018 then
    if negb (addr =? 0x4016) then Some (0, mem)
    else if Z.of_nat (length keyReadOrder) <=? currentKeyRead mem then Some (1, mem)
    else
      key ← getb keyReadOrder (currentKeyRead mem);
      let '(pressed, ip) := IsKeyPressed key (input mem) in
      let mem := set_input ip mem in
      let mem := set_currentKeyRead (currentKeyRead mem + 1) mem in
      if pressed then Some (1, mem) else Some (0, mem)
  else
    v ← MapperReadCPU addr (cartMapper mem); Some (v, mem).

(** The CPU is writing 'val' to 'addr'.  Dispatch to the correct handler.
    Returns how many extra cycles the write takes. *)
Definition Write (addr val : Z) (mem : NESMemory) : option (Z * NESMemory) :=
  if addr <? 0x2000 then
    let addr := Z.land addr 0x7ff in
    ram' ← setb (ram mem) addr val;
    Some (0, set_ram ram' mem)
  else if addr <? 0x4000 then
    '(p, cm) ← WriteRegister addr val (ppu mem) (cartMapper mem);
    Some (0, set_cartMapper cm (set_ppu p mem))
  else if addr <? 0x4018 then
    if (0x4000 <=? addr) && (addr <=? 0x4013) then Some (0, mem)
    else if addr =? 0x4014 then
      (* Sprite DMA.  Transfer 256 bytes of memory to SPR-RAM from
         0x100 * val. *)
      let start := 0x100 * val in
      let end_ := start + 256 in
      src ← slice (ram mem) start end_;
      p ← SpriteDMA src (ppu mem);
      Some (513, set_ppu p mem)
    else if addr =? 0x4015 then Some (0, mem)
    else if addr =? 0x4016 then
      if Z.land val 1 =? 0
      then Some (0, set_currentKeyRead 0 mem)
      else Some (0, mem)
    else Some (0, mem)
  else
    '(cycles, cm) ← MapperWriteCPU addr val (cartMapper mem);
    Some (cycles, set_cartMapper cm mem).

Definition NewNESMemory (ppu : PPU) (cartMapper : Mapper) (input : InputProvider)
  : NESMemory :=
  {| ram := fill 0x800 0; ppu := ppu; currentKeyRead := 0;
     input := input; cartMapper := cartMapper |}.

#[global] Instance NESMemory_MemoryInterface : cpu.MemoryInterface NESMemory :=
  {| cpu.Read := Read; cpu.Write := Write |}.

End emu.

(** ** The memory of the CPU unit tests *)

Module cputest.

(** An implementation of the memory interface used in the tests: a map
    whose missing keys read as zero. *)
Record MemoryForTesting := { memory : gmap Z Z }.

Definition NewMemoryForTesting : MemoryForTesting := {| memory := ∅ |}.

Definition Read (addr : Z) (mem : MemoryForTesting) : option (Z * MemoryForTesting) :=
  Some (default 0 (memory mem !! addr), mem).

Definition Write (addr val : Z) (mem : MemoryForTesting)
  : option (Z * MemoryForTesting) :=
  Some (0, {| memory := <[addr := val]> (memory mem) |}).

#[global] Instance MemoryForTesting_MemoryInterface
  : cpu.MemoryInterface MemoryForTesting :=
  {| cpu.Read := Read; cpu.Write := Write |}.

End cputest.

(** ** A memory that records the writes of the CPU *)

Module trace.

(** A memory that records the writes it receives, most recent first, and
    passes every access on to the memory it wraps. *)
Record Traced (M : Type) := { inner : M; writes : list (Z * Z) }.
Arguments inner {M}.
Arguments writes {M}.

Section WithMemory.
Context {M : Type} `{cpu.MemoryInterface M}.

Definition Read (addr : Z) (t : Traced M) : option (Z * Traced M) :=
  '(val, m) ← cpu.Read addr (inner t);
  Some (val, {| inner := m; writes := writes t |}).

Definition Write (addr val : Z) (t : Traced M) : option (Z * Traced M) :=
  '(cycles, m) ← cpu.Write addr val (inner t);
  Some (cycles, {| inner := m; writes := (addr, val) :: writes t |}).

#[global] Instance Traced_MemoryInterface : cpu.MemoryInterface (Traced M) :=
  {| cpu.Read := Read; cpu.Write := Write |}.
End WithMemory.

End trace.

(** ** Runs of operations *)

Module runs.
Import mapper.

(** A sequence of CPU writes [(addr, val)] delivered to a mapper. *)
Fixpoint writeAll (ws : list (Z * Z)) (m : Mapper) : option Mapper :=
  match ws with
  | [] => Some m
  | (addr, val) :: ws' =>
      '(_, m') ← MapperWriteCPU addr val m; writeAll ws' m'
  end.

(** [n] successive CPU reads of one bus address; the values read, oldest
    first. *)
Fixpoint readMany (n : nat) (addr : Z) (mem : emu.NESMemory)
  : option (list Z * emu.NESMemory) :=
  match n with
  | O => Some ([], mem)
  | S n' =>
      '(v, mem') ← emu.Read addr mem;
      '(vs, mem'') ← readMany n' addr mem';
      Some (v :: vs, mem'')
  end.

Definition isMapper1 (m : Mapper) : bool :=
  match m with IsMapper1 _ => true | _ => false end.

Import cpu.

(** [n] instructions in a row. *)
Fixpoint steps {M} `{MemoryInterface M} (n : nat) (c : CPU M) : option (CPU M) :=
  match n with
  | O => Some c
  | S n' => '(_, c') ← Interpret c; steps n' c'
  end.

(** The CPU states a program can be in: [NewCPU] builds the first one, the
    frame loop then calls [Interpret], [NMI] and [Reset], and between the
    calls the world behind the memory interface may change (the PPU
    renders, the host delivers input). *)
Inductive reachable {M} `{MemoryInterface M} : CPU M -> Prop :=
| reach_new m c : NewCPU m = Some c -> reachable c
| reach_interpret c n c' :
    reachable c -> Interpret c = Some (n, c') -> reachable c'
| reach_nmi c n c' : reachable c -> NMI c = Some (n, c') -> reachable c'
| reach_reset c c' : reachable c -> Reset c = Some (tt, c') -> reachable c'
| reach_world c m : reachable c -> reachable (set_mem m c).

End runs.

(** ** Concrete machines used to exercise the statements *)

Module examples.
Import nesfile mapper.

(** A cartridge with one 16 KiB PRG bank of zeroes, no CHR-ROM. *)
Definition nromFile : NesFile :=
  {| Mirroring := Horizontal; SramEnabled := false; nesfile.Mapper := 0;
     PrgRom := [fill 0x4000 0]; ChrRom := [] |}.

(** The same cartridge behind an MMC1. *)
Definition mmc1File : NesFile :=
  {| Mirroring := Horizontal; SramEnabled := true; nesfile.Mapper := 1;
     PrgRom := [fill 0x4000 0]; ChrRom := [] |}.

(** The mappers [GetMapper] builds for them. *)
Definition nromSpace : MapperAddressSpace :=
  {| cpuSram := fill 0x2000 0;
     cpuPages0 := fill 0x4000 0; cpuPages1 := fill 0x4000 0;
     ppuPt0 := PtRam false; ppuPt1 := PtRam true; ppuPtIsROM := false;
     ppuNts := [NtBank0; NtBank0; NtBank1; NtBank1];
     ppuNtBank0 := fill 0x400 0; ppuNtBank1 := fill 0x400 0;
     chrRom := []; chrRam0 := fill 0x1000 0; chrRam1 := fill 0x1000 0;
     debug := false |}.

Definition nromMapper : Mapper := IsMapper0 {| as0 := nromSpace |}.

(** A PPU about to write the palette entry 0x10 through PPUDATA. *)
Definition palettePPU : ppu.PPU :=
  ppu.set_loopyV 0x3f10 (ppu.NewPPU (wrapper.NewWindow 1 256)).

(** Scenario 6 of the specification: scan line 0, background on,
    [loopyT = 0x7BE0] and [loopyV = 0]. *)
Definition scrollPPU : ppu.PPU :=
  ppu.set_ppuMask 0x08
    (ppu.set_loopyT 0x7BE0 (ppu.NewPPU (wrapper.NewWindow 1 256))).

(** A cartridge whose first pattern table has every bit set, so that every
    tile pixel is colour 3, and a PPU on scan line 1 with background and
    sprites enabled (left columns included).  The zeroed OAM puts sprite 0
    at x = 0 on scan lines 1 to 8. *)
Definition solidMapper : Mapper :=
  IsMapper0 {| as0 := set_chrRam0 (fill 0x1000 0xff) nromSpace |}.

Definition hitPPU : ppu.PPU :=
  ppu.set_scanLineCounter 1
    (ppu.set_ppuMask 0x1e (ppu.NewPPU (wrapper.NewWindow 2 256))).

Definition blackPalette : list ppu.Color :=
  fill 64 {| ppu.r := 0; ppu.g := 0; ppu.b := 0 |}.

(** The bus at power-on, no event pending on the host. *)
Definition powerOnBus : emu.NESMemory :=
  emu.NewNESMemory (ppu.NewPPU (wrapper.NewWindow 1 256)) nromMapper
    {| input.pressed := ∅; input.outstanding := [] |}.

(** A test memory holding the given bytes. *)
Definition testMemory (bytes : list (Z * Z)) : cputest.MemoryForTesting :=
  {| cputest.memory := list_to_map bytes |}.

(** Reset vector 0x8000; the program is CLI, PHA, PHA. *)
Definition stackProgram : cputest.MemoryForTesting :=
  testMemory [(0xfffc, 0x00); (0xfffd, 0x80);
              (0x8000, 0x58); (0x8001, 0x48); (0x8002, 0x48)].

(** Scenario 2 of the specification, with JMP ($C0FF) placed at 0xD000. *)
Definition jmpProgram : cputest.MemoryForTesting :=
  testMemory [(0xfffc, 0x00); (0xfffd, 0xd0);
              (0xd000, 0x6c); (0xd001, 0xff); (0xd002, 0xc0);
              (0xc0ff, 0x00); (0xc000, 0x23); (0xc100, 0x80)].

Definition testCPU (a s stack p operand : Z) (m : cputest.MemoryForTesting)
  : cpu.CPU cputest.MemoryForTesting :=
  {| cpu.ac := a; cpu.xr := 0; cpu.yr := 0; cpu.st := s; cpu.sp := stack;
     cpu.pc := p; cpu.opRawAddr := 0; cpu.opAddr := operand; cpu.mem := m;
     cpu.clockCycles := 0; cpu.Debug := false |}.

(** The CPU after CLI, PHA, PHA, and what [Reset] makes of it. *)
Definition stackCPU : cpu.CPU cputest.MemoryForTesting :=
  cpu.set_clockCycles 3
    (testCPU 0 0x30 0xfb 0x8003 0
       {| cputest.memory :=
            <[0x1fc := 0]> (<[0x1fd := 0]> (cputest.memory stackProgram)) |}).

Definition resetCPU : cpu.CPU cputest.MemoryForTesting :=
  cpu.set_clockCycles 0 (cpu.set_sp 0xfc (cpu.set_pc 0x8000 stackCPU)).

(** The CPU about to fetch the JMP of [jmpProgram]. *)
Definition jmpCPU : cpu.CPU cputest.MemoryForTesting :=
  testCPU 0 0x34 0xfd 0xd000 0 jmpProgram.

(** Scenario 1 of the specification: ADC #$50 at 0x8000 with A = 0x50 and
    the carry clear, the operand address already resolved. *)
Definition adcProgram : cputest.MemoryForTesting :=
  testMemory [(0xfffc, 0x00); (0xfffd, 0x80); (0x8000, 0x69); (0x8001, 0x50)].

Definition adcCPU : cpu.CPU cputest.MemoryForTesting :=
  testCPU 0x50 0x34 0xfd 0x8002 0x8001 adcProgram.

(** Reset vector 0x8000, NMI vector 0x9000; the program is PHP. *)
Definition nmiProgram : cputest.MemoryForTesting :=
  testMemory [(0xfffc, 0x00); (0xfffd, 0x80); (0xfffa, 0x00); (0xfffb, 0x90);
              (0x8000, 0x08)].

(** The CPU [NewCPU] builds on [nmiProgram] behind a write log. *)
Definition nmiCPU : cpu.CPU (trace.Traced cputest.MemoryForTesting) :=
  {| cpu.ac := 0; cpu.xr := 0; cpu.yr := 0; cpu.st := 0x34; cpu.sp := 0xfd;
     cpu.pc := 0x8000; cpu.opRawAddr := 0; cpu.opAddr := 0;
     cpu.mem := {| trace.inner := nmiProgram; trace.writes := [] |};
     cpu.clockCycles := 0; cpu.Debug := false |}.

(** Scenario 4 of the specification: only A and Start are held. *)
Definition heldBus : emu.NESMemory :=
  emu.NewNESMemory (ppu.NewPPU (wrapper.NewWindow 1 256)) nromMapper
    {| input.pressed := {[input.KEY_A_1 := true; input.KEY_START_1 := true]};
       input.outstanding := [] |}.

(** Scenario 3 of the specification: RAM[0x0200..0x02FF] = 0..255. *)
Definition dmaBus : emu.NESMemory :=
  emu.set_ram (fill 0x200 0 ++ upto 256 ++ fill 0x500 0) powerOnBus.

Definition mmc1 (sram : list Z) : Mapper1 :=
  {| as1 := set_cpuSram sram nromSpace; prgRom := [fill 0x4000 0];
     shiftReg := 0; whichBit := 0; controlReg := 0 |}.

Definition mmc1Mapper (sram : list Z) : Mapper := IsMapper1 (mmc1 sram).

End examples.

(** ** Properties of states the statements refer to *)

Module props.

(** The four "colour 0" entries of the sprite palette mirror those of the
    background palette. *)
Definition mirrored (pal : list Z) : Prop :=
  forall j, 0 <= j < 0x20 -> Z.land j 3 = 0 ->
            getb pal j = getb pal (Z.lxor j 0x10).

Import mapper ppu.

(** The row of background palette indices that a call of [RenderScanLine]
    hands to [renderSprites]: the output of [renderBackground] on the
    reloaded scroll state, or the zeroed array when the background is
    off. *)
Definition backgroundRow (ppu : PPU) (cartMapper : Mapper) : option (list Z) :=
  if shouldRenderBackground ppu
  then snd <$> renderBackground (fill 256 0) (reloadLoopyV ppu) cartMapper
  else Some (fill 256 0).

(** On the current scan line, sprite 0 (OAM entry 0) has a pixel [x] whose
    palette selection is not a background colour, at an output position
    left of 255 where the background row is not a background colour
    either. *)
Definition sprite0Overlap (ppu : PPU) (cartMapper : Mapper)
    (background : list Z) : Prop :=
  exists row x bg,
    fetchSprite cartMapper ppu 0 = Some (Some row) /\
    0 <= x < 8 /\
    spriteXOut row x < 255 /\
    isBG (spriteVal row x) = false /\
    getb background (spriteXOut row x) = Some bg /\
    isBG bg = false.

(** The fields that the sprite loop reads besides the status register. *)
Definition sameSprites (p q : PPU) : Prop :=
  oamData p = oamData q /\ scanLineCounter p = scanLineCounter q /\
  ppuCtrl p = ppuCtrl q /\ ppuMask p = ppuMask q.

(** The operations of the PPU: its public methods. *)
Inductive PPUOp :=
| OpReadRegister (mmioreg : Z)
| OpWriteRegister (mmioreg val : Z)
| OpSpriteDMA (src : list Z)
| OpEnterVBlankShouldNMI
| OpExitVBlank
| OpRenderScanLine.

Definition stepPPU (Palette : list Color) (op : PPUOp) (ppu : PPU)
    (cartMapper : Mapper) : option (PPU * Mapper) :=
  match op with
  | OpReadRegister mmioreg =>
      '(_, ppu') ← ReadRegister mmioreg ppu cartMapper; Some (ppu', cartMapper)
  | OpWriteRegister mmioreg val => WriteRegister mmioreg val ppu cartMapper
  | OpSpriteDMA src => ppu' ← SpriteDMA src ppu; Some (ppu', cartMapper)
  | OpEnterVBlankShouldNMI => Some (snd (EnterVBlankShouldNMI ppu), cartMapper)
  | OpExitVBlank => Some (ExitVBlank ppu, cartMapper)
  | OpRenderScanLine =>
      ppu' ← RenderScanLine Palette ppu cartMapper; Some (ppu', cartMapper)
  end.

Import emu.

(** The 0x4016 strobe as the specification words it, over two successive
    writes [v1] and [v2] to 0x4016 with one controller read in between:
    the second write resets the read cursor if the first had bit 0 set and
    the second has it clear, and leaves the cursor alone otherwise. *)
Definition resetsOnFallingEdgeOnly : Prop :=
  forall (mem mem1 mem2 mem3 : NESMemory) (v1 v2 c1 r c2 : Z),
    Write 0x4016 v1 mem = Some (c1, mem1) ->
    Read 0x4016 mem1 = Some (r, mem2) ->
    Write 0x4016 v2 mem2 = Some (c2, mem3) ->
    currentKeyRead mem3
      = if (Z.land v1 1 =? 1) && (Z.land v2 1 =? 0) then 0
        else currentKeyRead mem2.

(** The value of a byte read as a two's-complement number. *)
Definition signed8 (a : Z) : Z := if a <? 0x80 then a else a - 0x100.

(** Signed overflow of [A + M + C] and of [A - M - (1 - C)]: the exact
    result does not fit a signed byte. *)
Definition overflowAdd (a m : Z) (c : bool) : bool :=
  let s := signed8 a + signed8 m + (if c then 1 else 0) in
  (s <? -128) || (127 <? s).

(** The 16-bit sum of [opAdc] and difference of [opSbc], and the values
    they give the V flag, as functions of the accumulator, the operand and
    the carry. *)
Definition adcSum (a m : Z) (c : bool) : Z :=
  let result := u16 (a + m) in if c then u16 (result + 1) else result.

Definition sbcDiff (a m : Z) (c : bool) : Z :=
  let result := u16 (a - m) in if negb c then u16 (result - 1) else result.

Definition adcV (a m : Z) (c : bool) : bool :=
  let result := adcSum a m c in
  negb (0 =? Z.land (Z.land (Z.lxor a result) (Z.lxor m result)) 0x80).

Definition sbcV (a m : Z) (c : bool) : bool :=
  let result := sbcDiff a m c in
  negb (0 =? Z.land (Z.land (Z.lxor a result) (Z.lxor a m)) 0x80).

Definition overflowSub (a m : Z) (c : bool) : bool :=
  let s := signed8 a - signed8 m - (if c then 0 else 1) in
  (s <? -128) || (127 <? s).

(** Preservation of a property of the CPU by a method, and the property
    that bit 5 of the status register is set. *)
Section WithMemory.
Import cpu trace.
Context {M : Type} `{MemoryInterface M}.

Definition bit5 (c : CPU M) : Prop := Z.testbit (st c) 5 = true.

Definition keeps (P : CPU M -> Prop) {A} (m : Exec M A) : Prop :=
  forall c a c', P c -> m c = Some (a, c') -> P c'.

(** A step that wrote nothing and left [st], [sp] and [pc] alone. *)
Definition quiet (c c' : CPU (Traced M)) : Prop :=
  writes (mem c') = writes (mem c) /\ st c' = st c /\
  sp c' = sp c /\ pc c' = pc c.
End WithMemory.

End props.

(** ** Further notions the later statements refer to *)

Module notions.
Import nesfile mapper.

(** What a read of 0x4016 reports for a button. *)
Definition report (ip : input.InputProvider) (key : Z) : Z :=
  if default false (input.pressed ip !! key) then 1 else 0.

(** Two nametable addresses that show the same byte of the same physical
    bank under a mirroring mode: the same offset within the 1 KiB table,
    and with horizontal mirroring the same pair of tables (0x2000/0x2400
    or 0x2800/0x2C00), with vertical mirroring the same column of tables
    (0x2000/0x2800 or 0x2400/0x2C00). *)
Definition sameNametableByte (mode : MirroringMode) (addr addr' : Z) : bool :=
  let i := Z.land addr 0xfff in
  let j := Z.land addr' 0xfff in
  (i mod 0x400 =? j mod 0x400) &&
  match mode with
  | Horizontal => i / 0x800 =? j / 0x800
  | Vertical => (i / 0x400) mod 2 =? (j / 0x400) mod 2
  | FourScreen => false
  end.

#[global] Instance NtRef_eq_dec : EqDecision NtRef.
Proof. solve_decision. Defined.

(** The value that serial writes shift in, the first write in bit 0. *)
Definition serialValue (vals : list Z) : Z :=
  foldr (fun v acc => Z.land v 1 + 2 * acc) 0 vals.

(** The shift register of the MMC1 holds [whichBit] bits, fewer than
    five. *)
Definition shiftInv (m : Mapper1) : Prop :=
  0 <= whichBit m < 5 /\ 0 <= shiftReg m < 2 ^ whichBit m.

(** The scroll fields of a VRAM address. *)
Definition coarseX (v : Z) : Z := Z.land v 0x1f.
Definition coarseY (v : Z) : Z := Z.land (Z.shiftr v 5) 0x1f.
Definition nametableSelect (v : Z) : Z := Z.land (Z.shiftr v 10) 3.
Definition fineY (v : Z) : Z := Z.land (Z.shiftr v 12) 7.

(** A VRAM address put together from its scroll fields. *)
Definition scrollAddress (fy nt cy cx : Z) : Z :=
  fy * 0x1000 + nt * 0x400 + cy * 0x20 + cx.

(** The registers a scan line leaves alone. *)
Definition sameRegisters (p q : ppu.PPU) : Prop :=
  ppu.Debug p = ppu.Debug q /\ ppu.pal p = ppu.pal q /\
  ppu.oamData p = ppu.oamData q /\ ppu.ppuCtrl p = ppu.ppuCtrl q /\
  ppu.ppuMask p = ppu.ppuMask q /\ ppu.oamAddr p = ppu.oamAddr q /\
  ppu.loopyT p = ppu.loopyT q /\ ppu.addressLatch p = ppu.addressLatch q /\
  ppu.bufferedReadData p = ppu.bufferedReadData q.

(** What the two subrenders may change: the scroll counters and bit 6 of
    the status register. *)
Definition withinLine (p q : ppu.PPU) : Prop :=
  sameRegisters p q /\ ppu.scanLineCounter p = ppu.scanLineCounter q /\
  ppu.window p = ppu.window q /\
  forall k, k <> 6 ->
    Z.testbit (ppu.ppuStatus p) k = Z.testbit (ppu.ppuStatus q) k.

(** Bit [k] of a byte as a number. *)
Definition bit (b k : Z) : Z := Z.b2z (Z.testbit b k).

(** A PPU whose only content is [loopyV]. *)
Definition barePPU (v : Z) : ppu.PPU :=
  {| ppu.Debug := false; ppu.pal := []; ppu.oamData := []; ppu.ppuCtrl := 0;
     ppu.ppuMask := 0; ppu.ppuStatus := 0; ppu.oamAddr := 0; ppu.loopyT := 0;
     ppu.loopyV := v; ppu.loopyX := 0; ppu.addressLatch := 0;
     ppu.bufferedReadData := 0;
     ppu.window := {| wrapper.Height := 0; wrapper.Width := 0;
                      wrapper.lockedPixels := [] |};
     ppu.scanLineCounter := 0 |}.

(** The byte of the test memory at an address, and the memory after a
    write. *)
Definition byteAt (m : cputest.MemoryForTesting) (a : Z) : Z :=
  default 0 (cputest.memory m !! a).
Definition store (a v : Z) (m : cputest.MemoryForTesting)
  : cputest.MemoryForTesting :=
  {| cputest.memory := <[a := v]> (cputest.memory m) |}.

(** The opcode bytes without an entry in [opTable]. *)
Definition missingOpcodes : list Z :=
  [0x02; 0x12; 0x22; 0x32; 0x42; 0x52; 0x62; 0x72; 0x8b; 0x92; 0x93; 0x9b;
   0x9f; 0xb2; 0xbb; 0xd2; 0xf2].

(** An iNES image: the 16-byte header, the 512-byte trainer when flag bit 2
    asks for one, then the PRG and the CHR banks. *)
Definition image (flags6 flags7 : Z) (reserved trainer : list Z)
    (prg chr : list (list Z)) : list Z :=
  canonicalHeader
    ++ [Z.of_nat (length prg); Z.of_nat (length chr); flags6; flags7]
    ++ reserved ++ trainer ++ concat prg ++ concat chr.

End notions.

(** ** Further concrete machines *)

Module inputs.
Import nesfile mapper examples.

(** A cartridge that asks for four-screen mirroring. *)
Definition fourScreenFile : NesFile :=
  {| Mirroring := FourScreen; SramEnabled := false; nesfile.Mapper := 0;
     PrgRom := [fill 0x4000 0]; ChrRom := [] |}.

(** Five serial writes to the control register of the MMC1: the bits
    1, 1, 0, 0, 1 give 0x13. *)
Definition controlWrites : list (Z * Z) :=
  [(0x8000, 1); (0x8000, 1); (0x8000, 0); (0x8000, 0)].
Definition lastControlWrite : Z * Z := (0x9fff, 1).

(** A sprite row whose pixel 0 an earlier sprite has drawn. *)
Definition claimedLine : ppu.SpriteLine :=
  {| ppu.sl_ppu := hitPPU; ppu.sl_out := 3 :: fill 255 0;
     ppu.sl_priorityOut := fill 256 false |}.

(** A PPU whose address counter is at the first nametable byte. *)
Definition vramPPU : ppu.PPU :=
  ppu.set_loopyV 0x2000 (ppu.NewPPU (wrapper.NewWindow 1 256)).

(** The CPU about to run the PHP of [nmiProgram]. *)
Definition interruptedCPU : cpu.CPU cputest.MemoryForTesting :=
  testCPU 0 0x34 0xfd 0x8000 0 nmiProgram.

(** JSR $9000 at 0x8000, RTS at 0x9000. *)
Definition jsrProgram : cputest.MemoryForTesting :=
  testMemory [(0x8000, 0x20); (0x8001, 0x00); (0x8002, 0x90); (0x9000, 0x60)].
Definition jsrCPU : cpu.CPU cputest.MemoryForTesting :=
  testCPU 0 0x34 0xfd 0x8000 0 jsrProgram.

(** BEQ -2 at 0x8000 with the Z flag set, the operand address resolved. *)
Definition branchProgram : cputest.MemoryForTesting :=
  testMemory [(0x8000, 0xf0); (0x8001, 0xfe)].
Definition branchCPU : cpu.CPU cputest.MemoryForTesting :=
  testCPU 0 0x36 0xfd 0x8002 0x8001 branchProgram.

(** The opcode 0x02 at 0x8000. *)
Definition jamProgram : cputest.MemoryForTesting := testMemory [(0x8000, 0x02)].
Definition jamCPU : cpu.CPU cputest.MemoryForTesting :=
  testCPU 0 0x34 0xfd 0x8000 0 jamProgram.

(** LDA $20FF,X at 0x8000 with X = 0x0F; the byte at 0x210E is 0x80. *)
Definition ldaProgram : cputest.MemoryForTesting :=
  testMemory [(0x8000, 0xbd); (0x8001, 0xff); (0x8002, 0x20); (0x210e, 0x80)].
Definition ldaCPU : cpu.CPU cputest.MemoryForTesting :=
  cpu.set_xr 0x0f (testCPU 0 0x34 0xfd 0x8000 0 ldaProgram).

(** A disk with an iNES image (vertical mirroring, mapper 1, one PRG and
    one CHR bank, eight bytes after the image) and a file that is not
    one. *)
Definition romImage : list Z :=
  notions.image 0x11 0x00 (fill 8 0) [] [fill 0x4000 1] [fill 0x2000 2].
Definition disk : gmap string (list Z) :=
  {[ "game.nes"%string := romImage ++ fill 8 0xff;
     "junk.nes"%string := [0; 1; 2; 3] ]}.

End inputs.

(** * Verification *)

(** ** Bounded quantification and bit facts *)

Lemma upto_elem (n j : Z) : 0 <= j < n -> j ∈ upto n.
Proof.
  intros Hj. unfold upto. apply list_elem_of_fmap.
  exists (Z.to_nat j). split; [lia|].
  apply elem_of_seq. lia.
Qed.

Lemma forallb_upto (n : Z) (P : Z -> bool) :
  forallb P (upto n) = true -> forall j, 0 <= j < n -> P j = true.
Proof.
  intros HP j Hj. rewrite forallb_forall in HP.
  apply HP. apply list_elem_of_In. by apply upto_elem.
Qed.

Lemma land_ones_range (a : Z) (n : Z) :
  0 <= n -> 0 <= Z.land a (Z.ones n) < 2 ^ n.
Proof.
  intros Hn. rewrite Z.land_ones by done. apply Z.mod_pos_bound. lia.
Qed.

Lemma getb_Some {A} (l : list A) (i : Z) :
  0 <= i < Z.of_nat (length l) -> is_Some (getb l i).
Proof.
  intros Hi. unfold getb.
  destruct (Z.ltb_spec i 0); [lia|]. apply lookup_lt_is_Some. lia.
Qed.

Lemma getb_setb_eq {A} (l l' : list A) (i : Z) (v : A) :
  setb l i v = Some l' -> getb l' i = Some v.
Proof.
  unfold setb, getb. intros Hs.
  destruct (Z.leb_spec 0 i), (Z.ltb_spec i (Z.of_nat (length l)));
    simplify_eq/=.
  destruct (Z.ltb_spec i 0); [lia|].
  apply list_lookup_insert_eq. lia.
Qed.

Lemma getb_setb_ne {A} (l l' : list A) (i j : Z) (v : A) :
  setb l i v = Some l' -> 0 <= j -> i <> j -> getb l' j = getb l j.
Proof.
  unfold setb, getb. intros Hs Hj Hne.
  destruct (Z.leb_spec 0 i), (Z.ltb_spec i (Z.of_nat (length l)));
    simplify_eq/=.
  destruct (Z.ltb_spec j 0); [done|].
  apply list_lookup_insert_ne. lia.
Qed.

Lemma setb_length {A} (l l' : list A) (i : Z) (v : A) :
  setb l i v = Some l' -> length l' = length l.
Proof.
  unfold setb. intros Hs. case_match; simplify_eq. apply length_insert.
Qed.

Lemma setb_Some {A} (l : list A) (i : Z) (v : A) :
  0 <= i < Z.of_nat (length l) -> setb l i v = Some (<[Z.to_nat i := v]> l).
Proof.
  intros Hi. unfold setb.
  destruct (Z.leb_spec 0 i), (Z.ltb_spec i (Z.of_nat (length l))); done || lia.
Qed.

(** One step through a computation that did not panic. *)
Ltac option_step H :=
  match type of H with
  | mbind _ ?o = Some _ =>
      let E := fresh "E" in
      destruct o eqn:E; cbn [mbind option_bind] in H; [|discriminate H]
  end.

(** ** The scenarios of the specification, run on the model *)

Section Scenarios.
Import mapper ppu emu runs.

(** Scenario 1: A = 0x50, C = 0, ADC #$50 gives A = 0xA0 with N and V set,
    Z and C clear (status 0x34 becomes 0xF4), in 2 cycles. *)
Example scenario_adc_immediate :
  (fun r => (fst r, cpu.ac (snd r), cpu.st (snd r))) <$>
    cpu.Interpret (examples.testCPU 0x50 0x34 0xfd 0x8000 0 examples.adcProgram)
  = Some (2, 0xa0, 0xf4).
Proof. vm_compute. reflexivity. Qed.

(** Scenario 3: sprite DMA from page 2. *)
Example scenario_sprite_dma :
  (fun r => (fst r, oamData (emu.ppu (snd r)))) <$> Write 0x4014 0x02 examples.dmaBus
  = Some (513, upto 256).
Proof. vm_compute. reflexivity. Qed.

(** Scenario 4: the controller readout after a strobe. *)
Example scenario_controller_readout :
  fst <$> ('(_, mem) ← Write 0x4016 1 examples.heldBus;
           '(_, mem) ← Write 0x4016 0 mem;
           readMany 9 0x4016 mem)
  = Some [1; 0; 0; 1; 0; 0; 0; 0; 1].
Proof. vm_compute. reflexivity. Qed.

(** Scenario 5: horizontal mirroring of the nametables. *)
Example scenario_horizontal_mirroring :
  ('(_, m) ← MapperWritePPU 0x2000 0x11 examples.nromMapper;
   '(_, m) ← MapperWritePPU 0x2800 0x22 m;
   a ← MapperReadPPU 0x2400 m;
   b ← MapperReadPPU 0x2800 m;
   c ← MapperReadPPU 0x2c00 m;
   Some [a; b; c])
  = Some [0x11; 0x22; 0x22].
Proof. vm_compute. reflexivity. Qed.

End Scenarios.

(** ** Mappers: the SRAM frame *)

Section MapperSram.
Import mapper runs.

Lemma WriteCPU_not1_sram (m m' : Mapper) (addr val c : Z) :
  isMapper1 m = false ->
  MapperWriteCPU addr val m = Some (c, m') ->
  cpuSram (addressSpace m') = cpuSram (addressSpace m) /\ isMapper1 m' = false.
Proof.
  intros Hk Hw. destruct m as [m|m|m|m]; [|done| |]; simpl in Hw.
  - by simplify_eq.
  - unfold WriteCPU2 in Hw. simplify_option_eq. done.
  - unfold WriteCPU3 in Hw. simplify_option_eq. done.
Qed.

Lemma writeAll_not1_sram (ws : list (Z * Z)) (m m' : Mapper) :
  isMapper1 m = false ->
  writeAll ws m = Some m' ->
  cpuSram (addressSpace m') = cpuSram (addressSpace m).
Proof.
  revert m. induction ws as [|[addr val] ws IH]; intros m Hk Hw; simpl in Hw.
  - by simplify_eq.
  - destruct (MapperWriteCPU addr val m) as [[c m1]|] eqn:E; [|done].
    simpl in Hw. apply WriteCPU_not1_sram in E as [E1 E2]; [|done].
    rewrite <- E1. by apply IH.
Qed.

Lemma ReadCPU_sram (a : MapperAddressSpace) (addr : Z) :
  0x6000 <= addr < 0x8000 ->
  ReadCPU addr a = getb (cpuSram a) (Z.land addr 0x1fff).
Proof.
  intros Ha. unfold ReadCPU.
  repeat (case_match; try lia); done.
Qed.

Lemma GetMapper_sram_zero (nf : nesfile.NesFile) (m : Mapper) :
  GetMapper nf = Some m -> cpuSram (addressSpace m) = fill 0x2000 0.
Proof.
  unfold GetMapper, NewMapper0, NewMapper1, NewMapper2, NewMapper3,
    setupNametables.
  intros Hg. repeat case_match; simplify_option_eq; done.
Qed.

Lemma GetMapper_kind (nf : nesfile.NesFile) (m : Mapper) :
  GetMapper nf = Some m ->
  isMapper1 m = (nesfile.Mapper nf =? 1).
Proof.
  unfold GetMapper. intros Hg.
  repeat case_match; simplify_option_eq; done.
Qed.

End MapperSram.

Section MapperSramClaim.
Import mapper runs.

(** C10.  For mappers 0, 2 and 3, [WriteCPU] leaves the 8 KiB SRAM as it
    is, so a read of 0x6000-0x7FFF returns the same byte before and after
    any write, and that byte is the initial zero after any sequence of
    writes; a Mapper 1 write below 0x8000 stores the value in the SRAM,
    where a read of 0x6000-0x7FFF finds it. *)
Theorem C10_sram_written_by_mapper1_only :
  (forall (m m' : Mapper) (addr val c : Z),
      isMapper1 m = false ->
      MapperWriteCPU addr val m = Some (c, m') ->
      cpuSram (addressSpace m') = cpuSram (addressSpace m) /\
      forall a, 0x6000 <= a < 0x8000 ->
                MapperReadCPU a m' = MapperReadCPU a m) /\
  (forall (nf : nesfile.NesFile) (m m' : Mapper) (ws : list (Z * Z)) (a : Z),
      nesfile.Mapper nf <> 1 ->
      GetMapper nf = Some m ->
      writeAll ws m = Some m' ->
      0x6000 <= a < 0x8000 ->
      MapperReadCPU a m' = Some 0) /\
  (forall (m1 : Mapper1) (addr val : Z),
      length (cpuSram (as1 m1)) = Z.to_nat 0x2000 ->
      0 <= addr < 0x8000 ->
      exists m',
        MapperWriteCPU addr val (IsMapper1 m1) = Some (0, m') /\
        getb (cpuSram (addressSpace m')) (Z.land addr 0x1fff) = Some val /\
        (0x6000 <= addr -> MapperReadCPU addr m' = Some val)).
Proof.
  split; [|split].
  - intros m m' addr val c Hk Hw.
    apply WriteCPU_not1_sram in Hw as [Hs _]; [|done].
    split; [done|]. intros a Ha.
    unfold MapperReadCPU. rewrite !ReadCPU_sram by done. by rewrite Hs.
  - intros nf m m' ws a Hid Hg Hw Ha.
    assert (isMapper1 m = false) as Hk.
    { rewrite (GetMapper_kind _ _ Hg). by apply Z.eqb_neq. }
    unfold MapperReadCPU. rewrite ReadCPU_sram by done.
    rewrite (writeAll_not1_sram _ _ _ Hk Hw), (GetMapper_sram_zero _ _ Hg).
    pose proof (land_ones_range a 13 ltac:(lia)) as Hr.
    change (Z.ones 13) with 0x1fff in Hr. change (2 ^ 13) with 0x2000 in Hr.
    unfold getb, fill. destruct (Z.ltb_spec (Z.land a 0x1fff) 0); [lia|].
    apply lookup_replicate_2. lia.
  - intros m addr val Hlen Ha.
    pose proof (land_ones_range addr 13 ltac:(lia)) as Hr.
    change (Z.ones 13) with 0x1fff in Hr. change (2 ^ 13) with 0x2000 in Hr.
    simpl. unfold WriteCPU1.
    destruct (Z.ltb_spec addr 0x8000); [|lia].
    rewrite setb_Some by lia. simpl.
    eexists. split; [done|]. simpl.
    assert (getb (<[Z.to_nat (Z.land addr 0x1fff) := val]> (cpuSram (as1 m)))
              (Z.land addr 0x1fff) = Some val) as Hget.
    { unfold getb. destruct (Z.ltb_spec (Z.land addr 0x1fff) 0); [lia|].
      apply list_lookup_insert_eq. lia. }
    split; [done|]. intros Hlo.
    unfold MapperReadCPU. rewrite ReadCPU_sram by lia. done.
Qed.

Lemma C10_sram_written_by_mapper1_only_witness :
  (GetMapper examples.nromFile = Some examples.nromMapper /\
   writeAll [(0x6000, 0x55); (0x7fff, 0xaa)] examples.nromMapper
     = Some examples.nromMapper /\
   MapperReadCPU 0x6000 examples.nromMapper = Some 0) /\
  (GetMapper examples.mmc1File = Some (examples.mmc1Mapper (fill 0x2000 0)) /\
   exists m',
     MapperWriteCPU 0x6000 0x55 (examples.mmc1Mapper (fill 0x2000 0))
       = Some (0, m') /\
     MapperReadCPU 0x6000 m' = Some 0x55).
Proof.
  destruct C10_sram_written_by_mapper1_only as (_ & Hzero & Hstore).
  assert (GetMapper examples.nromFile = Some examples.nromMapper) as Hm
    by (vm_compute; reflexivity).
  assert (writeAll [(0x6000, 0x55); (0x7fff, 0xaa)] examples.nromMapper
          = Some examples.nromMapper) as Hw by reflexivity.
  assert (GetMapper examples.mmc1File
          = Some (examples.mmc1Mapper (fill 0x2000 0))) as Hm1
    by (vm_compute; reflexivity).
  split.
  - split; [exact Hm|]. split; [exact Hw|].
    apply (Hzero examples.nromFile _ _ _ 0x6000 ltac:(discriminate) Hm Hw).
    lia.
  - split; [exact Hm1|].
    assert (length (cpuSram (as1 (examples.mmc1 (fill 0x2000 0))))
            = Z.to_nat 0x2000) as Hlen by (vm_compute; reflexivity).
    destruct (Hstore (examples.mmc1 (fill 0x2000 0)) 0x6000 0x55 Hlen
                ltac:(lia)) as (m' & H1 & _ & H3).
    exists m'. split; [exact H1|]. apply H3. lia.
Defined.

End MapperSramClaim.

(** ** PPU: palette writes *)

Section PaletteWrites.
Import mapper ppu props.

Lemma lxor_0x10 (i : Z) :
  0 <= i < 0x20 -> Z.lxor i 0x10 = if i <? 0x10 then i + 0x10 else i - 0x10.
Proof.
  intros Hi.
  apply (forallb_upto 0x20
           (fun i => Z.lxor i 0x10 =? if i <? 0x10 then i + 0x10 else i - 0x10))
    in Hi; [by apply Z.eqb_eq|].
  by vm_compute.
Qed.

Lemma lxor_0x10_cases (i : Z) :
  0 <= i < 0x20 ->
  (i < 0x10 /\ Z.lxor i 0x10 = i + 0x10) \/
  (0x10 <= i /\ Z.lxor i 0x10 = i - 0x10).
Proof.
  intros Hi. rewrite (lxor_0x10 i Hi).
  destruct (Z.ltb_spec i 0x10); [left|right]; done.
Qed.

Lemma land_3 (i : Z) : Z.land i 3 = i mod 4.
Proof. change 3 with (Z.ones 2). by rewrite Z.land_ones. Qed.

Lemma palette_index_range (v : Z) : 0 <= Z.land v 0x1f < 0x20.
Proof. apply (land_ones_range v 5). lia. Qed.

(** A PPUDATA read at a palette address returns the palette entry itself. *)
Lemma ReadRegister_palette (ppu : PPU) (cartMapper : Mapper) (mmioreg : Z) :
  Z.land mmioreg 0x2007 = PPUDATA ->
  0x3f00 <= loopyV ppu ->
  fst <$> ReadRegister mmioreg ppu cartMapper
    = getb (pal ppu) (Z.land (loopyV ppu) 0x1f).
Proof.
  intros Hreg Hv. unfold ReadRegister. rewrite Hreg. cbv [PPUDATA]. cbv iota.
  destruct (Z.ltb_spec (loopyV ppu) 0x3f00) as [|_]; [lia|].
  by destruct (getb (pal ppu) _).
Qed.

(** C5.  A PPUDATA write with [loopyV >= 0x3F00] stores the value masked to
    six bits at palette index [loopyV & 0x1f]; when that index is a
    multiple of four the same byte is stored at the index with bit 4
    flipped; and a palette whose colour-0 entries mirror each other still
    does so after the write. *)
Theorem C5_palette_write_masks_and_mirrors
    (ppu : PPU) (cartMapper : Mapper) (mmioreg val : Z) :
  Z.land mmioreg 0x2007 = PPUDATA ->
  length (pal ppu) = 0x20%nat ->
  0x3f00 <= loopyV ppu ->
  exists ppu',
    WriteRegister mmioreg val ppu cartMapper = Some (ppu', cartMapper) /\
    let i := Z.land (loopyV ppu) 0x1f in
    getb (pal ppu') i = Some (Z.land val 0x3f) /\
    (Z.land i 3 = 0 ->
     getb (pal ppu') (Z.lxor i 0x10) = Some (Z.land val 0x3f)) /\
    (mirrored (pal ppu) -> mirrored (pal ppu')).
Proof.
  intros Hreg Hlen Hv.
  pose proof (palette_index_range (loopyV ppu)) as Hi.
  unfold WriteRegister. rewrite Hreg. cbv [PPUDATA]. cbv iota.
  destruct (Z.ltb_spec (loopyV ppu) 0x3f00) as [|_]; [lia|].
  set (i := Z.land (loopyV ppu) 0x1f) in *.
  set (v := Z.land val 0x3f).
  destruct (setb (pal ppu) i v) as [p1|] eqn:Hp1.
  2:{ rewrite setb_Some in Hp1 by lia. done. }
  pose proof (setb_length _ _ _ _ Hp1) as Hlen1.
  pose proof (lxor_0x10_cases i Hi) as Hx.
  cbn [mbind option_bind set_pal pal].
  destruct (Z.eqb_spec (Z.land i 3) 0) as [H3|H3].
  - destruct (setb p1 (Z.lxor i 0x10) v) as [p2|] eqn:Hp2.
    2:{ rewrite setb_Some in Hp2; [done|]. lia. }
    cbn [mbind option_bind set_pal pal].
    eexists. split; [reflexivity|]. unfold incVRAMAddress.
    cbn zeta. split; [|split].
    + case_match; cbn [pal set_loopyV set_pal];
        (rewrite (getb_setb_ne _ _ _ _ _ Hp2) by lia);
        apply (getb_setb_eq _ _ _ _ Hp1).
    + intros _. case_match; cbn [pal set_loopyV set_pal];
        apply (getb_setb_eq _ _ _ _ Hp2).
    + intros Hm.
      assert (mirrored p2) as Hm2.
      { intros j Hj Hj3. pose proof (lxor_0x10_cases j Hj) as Hxj.
        destruct (decide (j = i)) as [->|Hji].
        { rewrite (getb_setb_eq _ _ _ _ Hp2).
          rewrite (getb_setb_ne _ _ _ _ _ Hp2) by lia.
          apply (getb_setb_eq _ _ _ _ Hp1). }
        destruct (decide (j = Z.lxor i 0x10)) as [->|Hjx].
        { rewrite (getb_setb_eq _ _ _ _ Hp2).
          assert (Z.lxor (Z.lxor i 0x10) 0x10 = i) as ->.
          { rewrite Z.lxor_assoc. change (Z.lxor 0x10 0x10) with 0.
            apply Z.lxor_0_r. }
          rewrite (getb_setb_ne _ _ _ _ _ Hp2) by lia.
          symmetry. apply (getb_setb_eq _ _ _ _ Hp1). }
        rewrite !(getb_setb_ne _ _ _ _ _ Hp2) by lia.
        rewrite !(getb_setb_ne _ _ _ _ _ Hp1) by lia.
        by apply Hm. }
      case_match; exact Hm2.
  - eexists. split; [reflexivity|]. unfold incVRAMAddress.
    cbn zeta. split; [|split].
    + case_match; cbn [pal set_loopyV set_pal];
        apply (getb_setb_eq _ _ _ _ Hp1).
    + intros H0. done.
    + intros Hm.
      assert (mirrored p1) as Hm1.
      { intros j Hj Hj3. pose proof (lxor_0x10_cases j Hj) as Hxj.
        rewrite land_3 in H3, Hj3.
        assert (j <> i) by (intros ->; done).
        assert (Z.lxor j 0x10 <> i).
        { intros <-. apply H3.
          destruct Hxj as [[_ ->]|[_ ->]].
          - rewrite <- Hj3, <- (Z.add_mod_idemp_r j 0x10 4) by lia.
            change (0x10 mod 4) with 0. by rewrite Z.add_0_r.
          - rewrite <- Hj3.
            replace (j - 0x10) with (j + (-4) * 4) by lia.
            by rewrite Z.mod_add. }
        rewrite !(getb_setb_ne _ _ _ _ _ Hp1) by lia.
        apply Hm; [done|]. by rewrite land_3. }
      case_match; exact Hm1.
Qed.

Lemma C5_palette_write_masks_and_mirrors_witness :
  exists ppu',
    WriteRegister PPUDATA 0xff examples.palettePPU examples.nromMapper
      = Some (ppu', examples.nromMapper) /\
    getb (pal ppu') 0x10 = Some 0x3f /\
    getb (pal ppu') 0x00 = Some 0x3f.
Proof.
  destruct (C5_palette_write_masks_and_mirrors examples.palettePPU
              examples.nromMapper PPUDATA 0xff eq_refl eq_refl
              ltac:(cbn; lia))
    as (ppu' & Hw & Hi & Hx & _).
  exists ppu'. split; [exact Hw|]. split; [exact Hi|].
  exact (Hx eq_refl).
Defined.

End PaletteWrites.

(** ** PPU: the reload of loopyV at the start of a scan line *)

Section ScanLineReload.
Import mapper ppu.

Lemma not16_testbit (x n : Z) :
  0 <= n < 16 -> Z.testbit (not16 x) n = negb (Z.testbit x n).
Proof.
  intros Hn. unfold not16. rewrite Z.lxor_spec.
  change 0xffff with (Z.ones 16). rewrite Z.ones_spec_low by done.
  apply xorb_true_r.
Qed.

(** C4.  With background or sprite rendering enabled, [RenderScanLine] is
    the two subrenders and the merge run on the PPU in which [loopyV] has
    already been reloaded, so every nametable and pattern fetch sees the
    reloaded value.  On scan line 0 the reload assigns all of [loopyT]; on
    a later scan line it is
    [loopyV = (loopyV & ~0x041F) | (loopyT & 0x041F)]: the bits of 0x041F
    come from [loopyT] and each other bit of [loopyV] is as before.  The
    reload changes nothing but [loopyV]. *)
Theorem C4_loopyV_reloaded_before_fetch
    (Palette : list Color) (ppu : PPU) (cartMapper : Mapper) :
  shouldRenderBackground ppu = true \/ shouldRenderSprites ppu = true ->
  RenderScanLine Palette ppu cartMapper
    = renderRows Palette (reloadLoopyV ppu) cartMapper /\
  reloadLoopyV ppu = set_loopyV (loopyV (reloadLoopyV ppu)) ppu /\
  (scanLineCounter ppu = 0 -> loopyV (reloadLoopyV ppu) = loopyT ppu) /\
  (scanLineCounter ppu <> 0 ->
   loopyV (reloadLoopyV ppu)
     = Z.lor (Z.land (loopyV ppu) (not16 0x041f)) (Z.land (loopyT ppu) 0x041f) /\
   forall n, 0 <= n < 16 ->
     Z.testbit (loopyV (reloadLoopyV ppu)) n
       = if Z.testbit 0x041f n then Z.testbit (loopyT ppu) n
         else Z.testbit (loopyV ppu) n).
Proof.
  intros Hon. split; [|split; [|split]].
  - unfold RenderScanLine.
    destruct Hon as [-> | ->]; [done|]. by rewrite andb_false_r.
  - unfold reloadLoopyV. by case_match.
  - intros Hz. unfold reloadLoopyV. by rewrite Hz.
  - intros Hnz. unfold reloadLoopyV.
    destruct (Z.eqb_spec (scanLineCounter ppu) 0) as [|_]; [done|].
    split; [done|]. intros n Hn. cbn [loopyV loopyT set_loopyV].
    rewrite Z.lor_spec, !Z.land_spec, not16_testbit by done.
    destruct (Z.testbit 0x041f n);
      [by rewrite andb_false_r, andb_true_r | by rewrite andb_false_r, andb_true_r, orb_false_r].
Qed.

Lemma C4_loopyV_reloaded_before_fetch_witness :
  shouldRenderBackground examples.scrollPPU = true /\
  loopyV examples.scrollPPU = 0 /\
  loopyV (reloadLoopyV examples.scrollPPU) = 0x7BE0.
Proof.
  split; [reflexivity|]. split; [reflexivity|].
  destruct (C4_loopyV_reloaded_before_fetch [] examples.scrollPPU
              examples.nromMapper (or_introl eq_refl)) as (_ & _ & H0 & _).
  exact (H0 eq_refl).
Defined.

End ScanLineReload.

(** ** PPU: the sprite-0 hit flag *)

Section SpriteZeroHit.
Import mapper ppu props.

Lemma forM_inv {S} (Inv : S -> Prop) (body : Z -> S -> option S)
    (l : list Z) (s s' : S) :
  (forall i x x', i ∈ l -> Inv x -> body i x = Some x' -> Inv x') ->
  Inv s -> forM body l s = Some s' -> Inv s'.
Proof.
  revert s. induction l as [|i l IH]; intros s Hbody Hs Hrun; simpl in Hrun.
  - by simplify_eq.
  - destruct (body i s) as [s1|] eqn:E; [|done]. simpl in Hrun.
    apply (IH s1); [|by eapply Hbody; [left| |] |done].
    intros j x x' Hj. apply Hbody. by right.
Qed.

Lemma upto_range (n i : Z) : i ∈ upto n -> 0 <= i < n.
Proof.
  unfold upto. intros (k & -> & Hk)%list_elem_of_fmap.
  apply elem_of_seq in Hk. lia.
Qed.

Lemma fetchSprite_ext (cartMapper : Mapper) (p q : PPU) (i : Z) :
  sameSprites p q -> fetchSprite cartMapper p i = fetchSprite cartMapper q i.
Proof.
  intros (H1 & H2 & H3 & H4). unfold fetchSprite, spriteSize.
  by rewrite H1, H2, H3.
Qed.

Lemma backgroundColumn_frame (cartMapper : Mapper) (base i : Z)
    (p p' : PPU) (out out' : list Z) :
  backgroundColumn cartMapper base i (p, out) = Some (p', out') ->
  ppuStatus p' = ppuStatus p /\ sameSprites p' p.
Proof.
  unfold backgroundColumn, sameSprites. intros Hc.
  repeat option_step Hc.
  injection Hc as <- <-. repeat case_match; done.
Qed.

Lemma renderBackground_frame (cartMapper : Mapper) (p p' : PPU)
    (out out' : list Z) :
  renderBackground out p cartMapper = Some (p', out') ->
  ppuStatus p' = ppuStatus p /\ sameSprites p' p.
Proof.
  unfold renderBackground. intros Hr.
  match type of Hr with
  | context [forM ?body ?l ?s] => destruct (forM body l s) as [[p1 o1]|] eqn:E
  end; [|done].
  simpl in Hr. simplify_eq.
  apply (forM_inv (fun s => ppuStatus (fst s) = ppuStatus p /\ sameSprites (fst s) p))
    in E; [| |done].
  - simpl in E. destruct E as (E1 & E2 & E3 & E4 & E5).
    unfold incrementFineY, sameSprites.
    repeat case_match; simplify_eq; done.
  - intros i [x o] [x' o'] _ (I1 & I2) Hb. simpl in *.
    apply backgroundColumn_frame in Hb as (B1 & B2 & B3 & B4 & B5).
    destruct I2 as (I2 & I3 & I4 & I5).
    unfold sameSprites. by rewrite B1, B2, B3, B4, B5.
Qed.

Lemma reloadLoopyV_frame (p : PPU) :
  ppuStatus (reloadLoopyV p) = ppuStatus p /\ sameSprites (reloadLoopyV p) p.
Proof. unfold reloadLoopyV, sameSprites. by case_match. Qed.

Lemma testbit6_lor_0x40 (x : Z) : Z.testbit (Z.lor x 0x40) 6 = true.
Proof. rewrite Z.lor_spec. apply orb_true_r. Qed.

(** What one step of the pixel loop may do to the PPU. *)
Lemma spritePixel_frame (i : Z) (row : SpriteRow) (background : list Z)
    (x : Z) (s s' : SpriteLine) :
  spritePixel i row background x s = Some s' ->
  sameSprites (sl_ppu s') (sl_ppu s) /\
  (ppuStatus (sl_ppu s') = ppuStatus (sl_ppu s) \/
   i = 0 /\ spriteXOut row x < 255 /\ isBG (spriteVal row x) = false /\
   exists bg, getb background (spriteXOut row x) = Some bg /\ isBG bg = false).
Proof.
  unfold spritePixel. intros Hp.
  assert (forall P : Prop,
             sameSprites (sl_ppu s) (sl_ppu s) /\
             (ppuStatus (sl_ppu s) = ppuStatus (sl_ppu s) \/ P)) as Hsame.
  { intros P. split; [done|by left]. }
  destruct (256 <=? spriteXOut row x); [by simplify_eq|].
  destruct (_ && _) in Hp; [by simplify_eq|].
  destruct (getb (sl_out s) _) as [o|]; cbn [mbind option_bind] in Hp; [|done].
  destruct (negb (isBG o)); [by simplify_eq|].
  destruct (setb (sl_priorityOut s) _ _); cbn [mbind option_bind] in Hp; [|done].
  destruct (setb (sl_out s) _ _); cbn [mbind option_bind] in Hp; [|done].
  destruct (Z.eqb_spec i 0) as [Hi|Hi]; cbn [andb mbind option_bind] in Hp.
  2:{ injection Hp as <-. apply Hsame. }
  destruct (Z.ltb_spec (spriteXOut row x) 255) as [Hx|Hx];
    cbn [andb mbind option_bind] in Hp.
  2:{ injection Hp as <-. apply Hsame. }
  destruct (isBG (spriteVal row x)) eqn:Hv;
    cbn [andb negb mbind option_bind] in Hp.
  { injection Hp as <-. apply Hsame. }
  destruct (getb background _) as [bg|] eqn:Hbg;
    cbn [mbind option_bind] in Hp; [|done].
  destruct (isBG bg) eqn:Hb; cbn [negb] in Hp; injection Hp as <-.
  - apply Hsame.
  - split; [done|]. right. eauto 10.
Qed.

Lemma sameSprites_trans (p q r : PPU) :
  sameSprites p q -> sameSprites q r -> sameSprites p r.
Proof.
  intros (A1 & A2 & A3 & A4) (B1 & B2 & B3 & B4).
  unfold sameSprites. by rewrite A1, A2, A3, A4.
Qed.

Lemma sprite0Overlap_ext (cartMapper : Mapper) (background : list Z)
    (p q : PPU) :
  sameSprites p q ->
  sprite0Overlap p cartMapper background ->
  sprite0Overlap q cartMapper background.
Proof.
  intros Hs (row & x & bg & Hf & Hrest).
  exists row, x, bg. split; [|done].
  by rewrite <- (fetchSprite_ext _ _ _ _ Hs).
Qed.

(** One sprite: only sprite 0 can change the status register, and only
    when it overlaps the background as [sprite0Overlap] says. *)
Lemma renderSprite_frame (cartMapper : Mapper) (background : list Z)
    (i : Z) (s s' : SpriteLine) :
  renderSprite cartMapper background i s = Some s' ->
  sameSprites (sl_ppu s') (sl_ppu s) /\
  (ppuStatus (sl_ppu s') = ppuStatus (sl_ppu s) \/
   sprite0Overlap (sl_ppu s) cartMapper background).
Proof.
  unfold renderSprite. intros Hr.
  destruct (fetchSprite cartMapper (sl_ppu s) i) as [[row|]|] eqn:Hf;
    cbn [mbind option_bind] in Hr; [| |done].
  2:{ injection Hr as <-. split; [done|by left]. }
  apply (forM_inv (fun t =>
           sameSprites (sl_ppu t) (sl_ppu s) /\
           (ppuStatus (sl_ppu t) = ppuStatus (sl_ppu s) \/
            sprite0Overlap (sl_ppu s) cartMapper background))) in Hr;
    [done| |by split; [|left]].
  intros x t t' Hx%upto_range (Hs & Hst) Hp.
  apply spritePixel_frame in Hp as (Hs' & Hst').
  split; [by eapply sameSprites_trans|].
  destruct Hst' as [Heq | (-> & Hxo & Hv & bg & Hbg & Hb)].
  - rewrite Heq. exact Hst.
  - right. exists row, x, bg. done.
Qed.

Lemma renderSprites_frame (cartMapper : Mapper) (out : list Z)
    (priorityOut : list bool) (background : list Z) (p : PPU)
    (sl : SpriteLine) :
  renderSprites out priorityOut background p cartMapper = Some sl ->
  sameSprites (sl_ppu sl) p /\
  (ppuStatus (sl_ppu sl) = ppuStatus p \/
   sprite0Overlap p cartMapper background).
Proof.
  unfold renderSprites. intros Hr.
  apply (forM_inv (fun t =>
           sameSprites (sl_ppu t) p /\
           (ppuStatus (sl_ppu t) = ppuStatus p \/
            sprite0Overlap p cartMapper background))) in Hr;
    [done| |by split; [|left]].
  intros i t t' _ (Hs & Hst) Hp.
  apply renderSprite_frame in Hp as (Hs' & Hst').
  split; [by eapply sameSprites_trans|].
  destruct Hst' as [Heq | Hov].
  - rewrite Heq. exact Hst.
  - right. by eapply sprite0Overlap_ext.
Qed.

(** A scan line: the status register changes only through a sprite-0
    overlap found by the sprite subrender. *)
Lemma RenderScanLine_status (Palette : list Color) (cartMapper : Mapper)
    (p p' : PPU) :
  RenderScanLine Palette p cartMapper = Some p' ->
  ppuStatus p' = ppuStatus p \/
  shouldRenderSprites p = true /\
  exists background,
    backgroundRow p cartMapper = Some background /\
    sprite0Overlap p cartMapper background.
Proof.
  unfold RenderScanLine. intros Hr.
  destruct (negb (shouldRenderBackground p) && negb (shouldRenderSprites p)).
  { repeat option_step Hr. injection Hr as <-. by left. }
  unfold renderRows in Hr.
  pose proof (reloadLoopyV_frame p) as (Hst0 & Hs0).
  assert (shouldRenderBackground (reloadLoopyV p) = shouldRenderBackground p)
    as Hbgon.
  { unfold shouldRenderBackground. destruct Hs0 as (_ & _ & _ & ->). done. }
  rewrite Hbgon in Hr. unfold backgroundRow.
  destruct (shouldRenderBackground p).
  - destruct (renderBackground (fill 256 0) (reloadLoopyV p) cartMapper)
      as [[p1 background]|] eqn:Hbg; cbn [mbind option_bind] in Hr; [|done].
    apply renderBackground_frame in Hbg as (Hst1 & Hs1).
    assert (shouldRenderSprites p1 = shouldRenderSprites p) as Hspon.
    { unfold shouldRenderSprites.
      destruct Hs1 as (_ & _ & _ & ->), Hs0 as (_ & _ & _ & ->). done. }
    rewrite Hspon in Hr.
    destruct (shouldRenderSprites p).
    + option_step Hr. apply renderSprites_frame in E as (Hs2 & Hst2).
      option_step Hr. injection Hr as <-. cbn [ppuStatus set_scanLineCounter set_window].
      destruct Hst2 as [Heq | Hov].
      * left. by rewrite Heq, Hst1.
      * right. split; [done|]. exists background. split; [done|].
        eapply sprite0Overlap_ext; [|exact Hov].
        by eapply sameSprites_trans.
    + cbn [mbind option_bind sl_ppu] in Hr.
      option_step Hr. injection Hr as <-. left.
      cbn [ppuStatus set_scanLineCounter set_window]. by rewrite Hst1.
  - cbn [mbind option_bind] in Hr.
    assert (shouldRenderSprites (reloadLoopyV p) = shouldRenderSprites p)
      as Hspon.
    { unfold shouldRenderSprites. destruct Hs0 as (_ & _ & _ & ->). done. }
    rewrite Hspon in Hr.
    destruct (shouldRenderSprites p).
    + option_step Hr. apply renderSprites_frame in E as (Hs2 & Hst2).
      option_step Hr. injection Hr as <-. cbn [ppuStatus set_scanLineCounter set_window].
      destruct Hst2 as [Heq | Hov].
      * left. by rewrite Heq.
      * right. split; [done|]. exists (fill 256 0). split; [done|].
        by eapply sprite0Overlap_ext.
    + cbn [mbind option_bind sl_ppu] in Hr.
      option_step Hr. injection Hr as <-. left.
      cbn [ppuStatus set_scanLineCounter set_window]. done.
Qed.

Lemma incVRAMAddress_status (p : PPU) :
  ppuStatus (incVRAMAddress p) = ppuStatus p.
Proof. unfold incVRAMAddress. by case_match. Qed.

Lemma ReadRegister_status (mmioreg val : Z) (cartMapper : Mapper) (p p' : PPU) :
  ReadRegister mmioreg p cartMapper = Some (val, p') ->
  ppuStatus p' = ppuStatus p \/ ppuStatus p' = Z.land (ppuStatus p) 0x7f.
Proof.
  unfold ReadRegister. intros Hr.
  repeat case_match; simplify_option_eq;
    rewrite ?incVRAMAddress_status; (by left) || (by right).
Qed.

Lemma WriteRegister_status (mmioreg val : Z) (cartMapper cartMapper' : Mapper)
    (p p' : PPU) :
  WriteRegister mmioreg val p cartMapper = Some (p', cartMapper') ->
  ppuStatus p' = ppuStatus p.
Proof.
  unfold WriteRegister. intros Hw.
  repeat case_match; simplify_option_eq;
    repeat (match goal with x : (_ * _)%type |- _ => destruct x end);
    simplify_eq; rewrite ?incVRAMAddress_status; done.
Qed.

(** C8.  An operation of the PPU that finds bit 6 of PPUSTATUS clear and
    leaves it set is a [RenderScanLine] with sprite rendering enabled in
    which sprite 0 has, at an output position x < 255, a pixel that is not
    a background colour on a background pixel that is not a background
    colour either. *)
Theorem C8_sprite0_hit_needs_overlap
    (Palette : list Color) (op : PPUOp) (p p' : PPU)
    (cartMapper cartMapper' : Mapper) :
  stepPPU Palette op p cartMapper = Some (p', cartMapper') ->
  Z.testbit (ppuStatus p) 6 = false ->
  Z.testbit (ppuStatus p') 6 = true ->
  op = OpRenderScanLine /\
  shouldRenderSprites p = true /\
  exists background,
    backgroundRow p cartMapper = Some background /\
    sprite0Overlap p cartMapper background.
Proof.
  intros Hstep Hclear Hset.
  destruct op as [mmioreg|mmioreg val|src| | |]; cbn [stepPPU] in Hstep.
  - option_step Hstep. destruct p0 as [v p1]. injection Hstep as <- <-.
    apply ReadRegister_status in E as [E|E]; rewrite E in Hset.
    + congruence.
    + rewrite Z.land_spec, Hclear in Hset. done.
  - apply WriteRegister_status in Hstep. congruence.
  - option_step Hstep. injection Hstep as <- <-.
    unfold SpriteDMA in E. case_match; simplify_eq.
    cbn [ppuStatus set_oamData] in Hset. congruence.
  - injection Hstep as <- <-.
    cbn [EnterVBlankShouldNMI snd ppuStatus set_ppuStatus] in Hset.
    rewrite Z.lor_spec, Hclear in Hset. done.
  - injection Hstep as <- <-.
    cbn [ExitVBlank ppuStatus set_ppuStatus set_scanLineCounter] in Hset.
    rewrite Z.land_spec, Hclear in Hset. done.
  - option_step Hstep. injection Hstep as <- <-.
    apply RenderScanLine_status in E as [E|E]; [congruence|].
    split; [done|]. exact E.
Qed.

Lemma C8_sprite0_hit_needs_overlap_witness :
  exists p',
    stepPPU examples.blackPalette OpRenderScanLine examples.hitPPU
      examples.solidMapper = Some (p', examples.solidMapper) /\
    Z.testbit (ppuStatus examples.hitPPU) 6 = false /\
    Z.testbit (ppuStatus p') 6 = true /\
    exists background,
      backgroundRow examples.hitPPU examples.solidMapper = Some background /\
      sprite0Overlap examples.hitPPU examples.solidMapper background.
Proof.
  assert ((fun r => (ppuStatus (fst r), snd r)) <$>
            stepPPU examples.blackPalette OpRenderScanLine examples.hitPPU
              examples.solidMapper
          = Some (0x40, examples.solidMapper)) as Hrun
    by (vm_compute; reflexivity).
  destruct (stepPPU examples.blackPalette OpRenderScanLine examples.hitPPU
              examples.solidMapper) as [[p' m']|] eqn:Hstep; [|discriminate Hrun].
  injection Hrun as Hst Hm. cbn [fst snd] in Hst, Hm. subst m'.
  assert (Z.testbit (ppuStatus p') 6 = true) as Hset by (by rewrite Hst).
  exists p'. split; [reflexivity|]. split; [reflexivity|]. split; [exact Hset|].
  exact (proj2 (proj2 (C8_sprite0_hit_needs_overlap _ _ _ _ _ _ Hstep
                         eq_refl Hset))).
Defined.

End SpriteZeroHit.

(** ** The bus: controller strobe and sprite DMA *)

Section Bus.
Import mapper ppu emu props.

(** C3, as stated, fails: after a write of 0 and one controller read, a
    second write of 0 resets the cursor from 1 to 0 although bit 0 did not
    go from 1 to 0. *)
Lemma C3_strobe_counterexample : ~ resetsOnFallingEdgeOnly.
Proof.
  intros Hclaim.
  specialize (Hclaim examples.powerOnBus
                examples.powerOnBus
                (set_currentKeyRead 1 examples.powerOnBus)
                examples.powerOnBus
                0 0 0 0 0 eq_refl eq_refl eq_refl).
  discriminate Hclaim.
Qed.

(** C3, amended.  A write to 0x4016 takes no extra cycles and resets the
    controller read cursor exactly when bit 0 of the written value is 0,
    whatever was written before; it changes nothing else. *)
Theorem C3_strobe_resets_on_low_bit (mem : NESMemory) (val : Z) :
  Write 0x4016 val mem
    = Some (0, if Z.land val 1 =? 0 then set_currentKeyRead 0 mem else mem).
Proof. unfold Write. cbn. by case_match. Qed.

(** Sprite DMA from one of the eight pages of the on-board RAM: the page
    is copied to OAM and the write reports 513 cycles. *)
Lemma Write_4014_ram_page (mem : NESMemory) (val : Z) :
  length (ram mem) = Z.to_nat 0x800 ->
  length (oamData (ppu mem)) = 256%nat ->
  0 <= val < 8 ->
  exists mem',
    Write 0x4014 val mem = Some (513, mem') /\
    forall k, 0 <= k < 256 ->
      getb (oamData (ppu mem')) k = getb (ram mem) (val * 0x100 + k) /\
      Read (val * 0x100 + k) mem = (fun b => (b, mem)) <$> getb (ram mem) (val * 0x100 + k).
Proof.
  intros Hram Hoam Hval. unfold Write. cbn -[slice SpriteDMA Z.mul].
  unfold slice.
  destruct (Z.leb_spec 0 (0x100 * val)); [|lia].
  destruct (Z.leb_spec (0x100 * val) (0x100 * val + 256)); [|lia].
  destruct (Z.leb_spec (0x100 * val + 256) (Z.of_nat (length (ram mem)))); [|lia].
  cbn [andb mbind option_bind].
  replace (0x100 * val + 256 - 0x100 * val) with 256 by lia.
  set (src := take (Z.to_nat 256) (drop (Z.to_nat (0x100 * val)) (ram mem))).
  assert (length src = 256%nat) as Hsrc.
  { unfold src. rewrite length_take, length_drop. lia. }
  unfold SpriteDMA. rewrite Hoam, Hsrc.
  cbn [Nat.min Nat.eqb mbind option_bind].
  change (256 `min` 256)%nat with 256%nat. cbn [Nat.eqb].
  eexists. split; [reflexivity|]. intros k Hk.
  cbn [ppu set_ppu oamData set_oamData]. split.
  - rewrite take_ge by lia. rewrite drop_ge by lia. rewrite app_nil_r.
    unfold getb.
    destruct (Z.ltb_spec k 0); [lia|].
    destruct (Z.ltb_spec (val * 0x100 + k) 0); [lia|].
    unfold src. rewrite lookup_take_lt by lia. rewrite lookup_drop.
    f_equal. lia.
  - unfold Read.
    destruct (Z.ltb_spec (val * 0x100 + k) 0x2000); [|lia].
    replace (Z.land (val * 0x100 + k) 0x7ff) with (val * 0x100 + k).
    2:{ change 0x7ff with (Z.ones 11). rewrite Z.land_ones by lia.
        symmetry. apply Z.mod_small. lia. }
    by destruct (getb (ram mem) _).
Qed.

(** C2 at the failing inputs: a sprite DMA from page 8 or above slices the
    2 KiB RAM array out of bounds, and the write panics. *)
Theorem C2_sprite_dma_panics_above_ram (mem : NESMemory) (val : Z) :
  length (ram mem) = Z.to_nat 0x800 ->
  8 <= val ->
  Write 0x4014 val mem = None.
Proof.
  intros Hram Hval. unfold Write. cbn -[slice SpriteDMA Z.mul].
  unfold slice.
  destruct (Z.leb_spec (0x100 * val + 256) (Z.of_nat (length (ram mem)))) as [Hle|_].
  - lia.
  - by rewrite andb_false_r.
Qed.

Lemma C2_sprite_dma_panics_above_ram_witness :
  length (ram examples.powerOnBus) = Z.to_nat 0x800 /\
  8 <= 0x08 /\
  Write 0x4014 0x08 examples.powerOnBus = None.
Proof.
  assert (length (ram examples.powerOnBus) = Z.to_nat 0x800) as Hlen
    by (vm_compute; reflexivity).
  split; [exact Hlen|]. split; [lia|].
  apply (C2_sprite_dma_panics_above_ram _ _ Hlen). lia.
Defined.

End Bus.

(** ** CPU: status flags as bits *)

Section Flags.
Import cpu.
Context {M : Type} `{MemoryInterface M}.

Lemma land_pow2 (x k : Z) :
  0 <= k -> Z.land x (2 ^ k) = if Z.testbit x k then 2 ^ k else 0.
Proof.
  intros Hk. apply Z.bits_inj'. intros n Hn.
  rewrite Z.land_spec, Z.pow2_bits_eqb by done.
  destruct (Z.eqb_spec k n) as [->|Hne].
  - destruct (Z.testbit x n); [|by rewrite Z.bits_0].
    by rewrite Z.pow2_bits_true.
  - rewrite andb_false_r.
    destruct (Z.testbit x k); [|by rewrite Z.bits_0].
    by rewrite Z.pow2_bits_false.
Qed.

Lemma isSet_testbit (k : Z) (c : CPU M) :
  0 <= k -> isSet (2 ^ k) c = Z.testbit (st c) k.
Proof.
  intros Hk. unfold isSet. rewrite land_pow2 by done.
  assert (0 < 2 ^ k) by (apply Z.pow_pos_nonneg; lia).
  destruct (Z.testbit (st c) k); [apply Z.eqb_refl|].
  apply Z.eqb_neq. lia.
Qed.

Lemma lor_pow2_testbit (x j k : Z) :
  0 <= j -> 0 <= k ->
  Z.testbit (Z.lor x (2 ^ j)) k = if k =? j then true else Z.testbit x k.
Proof.
  intros Hj Hk. rewrite Z.lor_spec, Z.pow2_bits_eqb by done.
  rewrite (Z.eqb_sym k j). destruct (j =? k); [apply orb_true_r|apply orb_false_r].
Qed.

Lemma land_not8_pow2_testbit (x j k : Z) :
  0 <= j -> 0 <= k < 8 ->
  Z.testbit (Z.land x (not8 (2 ^ j))) k
    = if k =? j then false else Z.testbit x k.
Proof.
  intros Hj Hk. unfold not8.
  rewrite Z.land_spec, Z.lxor_spec, Z.pow2_bits_eqb by done.
  change 0xff with (Z.ones 8). rewrite Z.ones_spec_low by done.
  rewrite (Z.eqb_sym k j).
  destruct (j =? k); [apply andb_false_r|]. apply andb_true_r.
Qed.

Lemma set_testbit (j k : Z) (on : bool) (c : CPU M) :
  0 <= j -> 0 <= k < 8 ->
  Z.testbit (st (set (2 ^ j) on c)) k
    = if k =? j then on else Z.testbit (st c) k.
Proof.
  intros Hj Hk. unfold set. destruct on; cbn [st set_st].
  - apply lor_pow2_testbit; lia.
  - by apply land_not8_pow2_testbit.
Qed.

Lemma setZN_testbit (k r : Z) (c : CPU M) :
  0 <= k < 8 -> k <> 1 -> k <> 7 ->
  Z.testbit (st (setZN r c)) k = Z.testbit (st c) k.
Proof.
  intros Hk H1 H7. unfold setZN.
  change Z_ with (2 ^ 1). change N with (2 ^ 7).
  repeat case_match; cbn [st set_st];
    repeat (rewrite ?lor_pow2_testbit, ?land_not8_pow2_testbit by lia;
            match goal with
            | |- context [?a =? ?b] => destruct (Z.eqb_spec a b); [lia|]
            end);
    done.
Qed.

(** Bit 5 of the status register survives every flag update. *)
Lemma set_bit5 (flag : Z) (on : bool) (c : CPU M) :
  Z.testbit flag 5 = false -> 0 <= flag < 0x100 ->
  Z.testbit (st (set flag on c)) 5 = Z.testbit (st c) 5.
Proof.
  intros Hf Hr. unfold set, not8. destruct on; cbn [st set_st].
  - by rewrite Z.lor_spec, Hf, orb_false_r.
  - rewrite Z.land_spec, Z.lxor_spec, Hf. apply andb_true_r.
Qed.

End Flags.

(** ** CPU: ADC and SBC *)

Section AdcSbc.
Import cpu props.
Context {M : Type} `{MemoryInterface M}.

Lemma adc_sbc_bytes (a m : Z) (c : bool) :
  0 <= a < 0x100 -> 0 <= m < 0x100 ->
  u8 (Z.land (sbcDiff (u8 (Z.land (adcSum a m c) 0xff)) m (negb c)) 0xff) = a /\
  adcV a m c = overflowAdd a m c /\
  sbcV a m c = overflowSub a m c.
Proof.
  intros Ha Hm.
  set (ok := fun a m c =>
    (u8 (Z.land (sbcDiff (u8 (Z.land (adcSum a m c) 0xff)) m (negb c)) 0xff) =? a)
    && eqb (adcV a m c) (overflowAdd a m c)
    && eqb (sbcV a m c) (overflowSub a m c)).
  assert (forallb (fun a => forallb (fun m => ok a m true && ok a m false)
                               (upto 0x100)) (upto 0x100) = true) as Hall
    by (vm_compute; reflexivity).
  pose proof (forallb_upto _ _ (forallb_upto _ _ Hall a Ha) m Hm) as Hok.
  cbv beta in Hok. apply andb_prop in Hok as [Ht Hf].
  assert (ok a m c = true) as Hc by (by destruct c).
  unfold ok in Hc. apply andb_prop in Hc as [Hc Hv2].
  apply andb_prop in Hc as [Hr Hv1].
  split; [by apply Z.eqb_eq|]. split; by apply eqb_prop.
Qed.

Lemma adc_spec (m : Z) (c : CPU M) :
  ac (adc m c) = u8 (Z.land (adcSum (ac c) m (isSet C c)) 0xff) /\
  isSet V (adc m c) = adcV (ac c) m (isSet C c) /\
  mem (adc m c) = mem c /\ opAddr (adc m c) = opAddr c.
Proof.
  unfold adc, adcV, adcSum.
  set (r := if isSet C c then _ else _).
  split; [|split; [|split]].
  - unfold setZN, set. repeat case_match; done.
  - change V with (2 ^ 6). rewrite isSet_testbit by lia.
    rewrite setZN_testbit by lia. cbn [st set_ac].
    change C with (2 ^ 0). rewrite set_testbit by lia.
    change (6 =? 0) with false. cbv iota.
    by rewrite set_testbit by lia.
  - unfold setZN, set. repeat case_match; done.
  - unfold setZN, set. repeat case_match; done.
Qed.

Lemma sbc_spec (m : Z) (c : CPU M) :
  ac (sbc m c) = u8 (Z.land (sbcDiff (ac c) m (isSet C c)) 0xff) /\
  isSet V (sbc m c) = sbcV (ac c) m (isSet C c) /\
  mem (sbc m c) = mem c /\ opAddr (sbc m c) = opAddr c.
Proof.
  unfold sbc, sbcV, sbcDiff.
  set (r := if negb (isSet C c) then _ else _).
  split; [|split; [|split]].
  - unfold setZN, set. repeat case_match; done.
  - change V with (2 ^ 6). rewrite isSet_testbit by lia.
    rewrite setZN_testbit by lia. cbn [st set_ac].
    change C with (2 ^ 0). rewrite set_testbit by lia.
    change (6 =? 0) with false. cbv iota.
    by rewrite set_testbit by lia.
  - unfold setZN, set. repeat case_match; done.
  - unfold setZN, set. repeat case_match; done.
Qed.

Lemma set_C_spec (on : bool) (c : CPU M) :
  isSet C (set C on c) = on /\ ac (set C on c) = ac c /\
  mem (set C on c) = mem c /\ opAddr (set C on c) = opAddr c.
Proof.
  split.
  - change C with (2 ^ 0). rewrite isSet_testbit, set_testbit by lia. done.
  - unfold set. by destruct on.
Qed.

Lemma opAdc_run (c : CPU M) (m : Z) (mem1 : M) :
  Read (opAddr c) (mem c) = Some (m, mem1) ->
  opAdc c = Some (tt, adc m (set_mem mem1 c)).
Proof.
  intros Hr. unfold opAdc, readOpData, memRead, get, modify.
  cbv [mbind Exec_bind]. by rewrite Hr.
Qed.

Lemma opSbc_run (c : CPU M) (m : Z) (mem1 : M) :
  Read (opAddr c) (mem c) = Some (m, mem1) ->
  opSbc c = Some (tt, sbc m (set_mem mem1 c)).
Proof.
  intros Hr. unfold opSbc, readOpData, memRead, get, modify.
  cbv [mbind Exec_bind]. by rewrite Hr.
Qed.

(** C6.  Let ADC run on accumulator A with carry C and read the operand
    M, let the carry then be set to the inverse of C, and let SBC run and
    read the same operand M: the accumulator is A again.  After ADC the V
    flag is set exactly when [A + M + C], taken on signed bytes, overflows;
    after SBC (on any accumulator and carry) exactly when
    [A - M - (1 - C)] does. *)
Theorem C6_adc_then_sbc_restores_accumulator
    (c : CPU M) (m : Z) (mem1 mem2 : M) :
  0 <= ac c < 0x100 -> 0 <= m < 0x100 ->
  Read (opAddr c) (mem c) = Some (m, mem1) ->
  Read (opAddr c) mem1 = Some (m, mem2) ->
  exists c1 c2 c3,
    opAdc c = Some (tt, c1) /\
    opSbc (set C (negb (isSet C c)) c1) = Some (tt, c2) /\
    ac c2 = ac c /\
    isSet V c1 = overflowAdd (ac c) m (isSet C c) /\
    opSbc c = Some (tt, c3) /\
    isSet V c3 = overflowSub (ac c) m (isSet C c).
Proof.
  intros Ha Hm Hr1 Hr2.
  pose proof (adc_sbc_bytes (ac c) m (isSet C c) Ha Hm) as (Hback & Hv1 & Hv2).
  pose proof (adc_spec m (set_mem mem1 c)) as (Hac1 & HV1 & Hmem1 & Hop1).
  set (c1 := adc m (set_mem mem1 c)) in *.
  pose proof (set_C_spec (negb (isSet C c)) c1) as (HC & Hac & Hmem & Hop).
  set (c1' := set C (negb (isSet C c)) c1) in *.
  assert (Read (opAddr c1') (mem c1') = Some (m, mem2)) as Hr2'.
  { rewrite Hop, Hmem, Hop1, Hmem1. exact Hr2. }
  pose proof (sbc_spec m (set_mem mem2 c1')) as (Hac2 & _).
  pose proof (sbc_spec m (set_mem mem1 c)) as (_ & HV3 & _).
  exists c1, (sbc m (set_mem mem2 c1')), (sbc m (set_mem mem1 c)).
  split; [by apply opAdc_run|]. split; [by apply opSbc_run|].
  split; [|split; [|split; [by apply opSbc_run|]]].
  - rewrite Hac2. change (ac (set_mem mem2 c1')) with (ac c1').
    change (isSet C (set_mem mem2 c1')) with (isSet C c1').
    rewrite Hac, HC, Hac1. exact Hback.
  - rewrite HV1. exact Hv1.
  - rewrite HV3. exact Hv2.
Qed.

End AdcSbc.

Section AdcSbcWitness.
Import cpu props.

Lemma C6_adc_then_sbc_restores_accumulator_witness :
  exists c1 c2,
    opAdc examples.adcCPU = Some (tt, c1) /\
    opSbc (set C true c1) = Some (tt, c2) /\
    ac c1 = 0xa0 /\ isSet V c1 = true /\ ac c2 = 0x50.
Proof.
  assert (Read (opAddr examples.adcCPU) (mem examples.adcCPU)
          = Some (0x50, examples.adcProgram)) as Hr1
    by (vm_compute; reflexivity).
  assert (Read (opAddr examples.adcCPU) examples.adcProgram
          = Some (0x50, examples.adcProgram)) as Hr2
    by (vm_compute; reflexivity).
  destruct (C6_adc_then_sbc_restores_accumulator examples.adcCPU 0x50
              examples.adcProgram examples.adcProgram
              ltac:(cbn; lia) ltac:(lia) Hr1 Hr2)
    as (c1 & c2 & c3 & Hadc & Hsbc & Hac & HV & _).
  exists c1, c2. split; [exact Hadc|]. split; [exact Hsbc|].
  split; [|split; [exact HV|exact Hac]].
  rewrite (opAdc_run examples.adcCPU 0x50 examples.adcProgram Hr1) in Hadc.
  injection Hadc as <-. reflexivity.
Defined.

End AdcSbcWitness.

(** ** CPU: the indirect JMP *)

Section IndirectJmp.
Import cpu.
Context {M : Type} `{MemoryInterface M}.

Lemma opTable_JMP_IND : opTable !! 0x6c = Some (entry "JMP" opJmp 5 0 IND).
Proof. reflexivity. Qed.

(** C7.  [Interpret] on the indirect JMP (opcode 0x6C) whose pointer [p]
    has low byte 0xFF reads the opcode and the two pointer bytes, then the
    low byte of the target at [p] and the high byte at [p & 0xFF00], the
    start of the same page; it reads nothing else, takes 5 cycles and
    leaves PC at the target so assembled. *)
Theorem C7_indirect_jmp_wraps_within_page
    (c : CPU M) (lo hi l h : Z) (m1 m2 m3 m4 m5 : M) :
  let p := Z.lor lo (u16 (Z.shiftl hi 8)) in
  Read (pc c) (mem c) = Some (0x6c, m1) ->
  Read (u16 (pc c + 1)) m1 = Some (lo, m2) ->
  Read (u16 (u16 (pc c + 1) + 1)) m2 = Some (hi, m3) ->
  Z.land p 0xff = 0xff ->
  Read p m3 = Some (l, m4) ->
  Read (Z.land p 0xff00) m4 = Some (h, m5) ->
  exists c',
    Interpret c = Some (5, c') /\
    pc c' = Z.lor l (u16 (Z.shiftl h 8)) /\
    mem c' = m5.
Proof.
  intros p H1 H2 H3 Hp H4 H5.
  unfold Interpret, readPC8, memRead, get, modify.
  cbv [mbind Exec_bind mret Exec_ret].
  cbn [pc mem set_clockCycles set_mem set_pc].
  rewrite H1. cbn [mbind option_bind pc mem set_clockCycles set_mem set_pc].
  rewrite opTable_JMP_IND.
  cbn [readAddressOfOperand addressing exec cycles].
  unfold addrIND, readPC16, readPC8, memRead, get, modify, addCycles, opJmp.
  cbv [mbind Exec_bind mret Exec_ret].
  cbn [pc mem set_clockCycles set_mem set_pc].
  rewrite H2. cbn [mbind option_bind pc mem set_clockCycles set_mem set_pc].
  rewrite H3. cbn [mbind option_bind pc mem set_clockCycles set_mem set_pc set_opRawAddr].
  fold p. rewrite H4.
  cbn [mbind option_bind pc mem set_clockCycles set_mem set_pc set_opRawAddr].
  rewrite Hp. change (0xff =? 0xff) with true. cbv iota.
  rewrite H5.
  cbn [mbind option_bind pc mem set_clockCycles set_mem set_pc set_opRawAddr set_opAddr opAddr clockCycles].
  eexists. split; [reflexivity|]. split; reflexivity.
Qed.
End IndirectJmp.

Section IndirectJmpWitness.
Import cpu.

(** Scenario 2 of the specification: 0xC0FF = 0x00, 0xC000 = 0x23,
    0xC100 = 0x80; JMP ($C0FF) sets PC to 0x2300 in 5 cycles. *)
Lemma C7_indirect_jmp_wraps_within_page_witness :
  exists c',
    Interpret examples.jmpCPU = Some (5, c') /\ pc c' = 0x2300.
Proof.
  pose (m := examples.jmpProgram).
  assert (Read 0xd000 m = Some (0x6c, m)) as H1 by (vm_compute; reflexivity).
  assert (Read 0xd001 m = Some (0xff, m)) as H2 by (vm_compute; reflexivity).
  assert (Read 0xd002 m = Some (0xc0, m)) as H3 by (vm_compute; reflexivity).
  assert (Read 0xc0ff m = Some (0x00, m)) as H4 by (vm_compute; reflexivity).
  assert (Read 0xc000 m = Some (0x23, m)) as H5 by (vm_compute; reflexivity).
  destruct (C7_indirect_jmp_wraps_within_page examples.jmpCPU
              0xff 0xc0 0x00 0x23 m m m m m H1 H2 H3 eq_refl H4 H5)
    as (c' & Hrun & Hpc & _).
  exists c'. split; [exact Hrun|exact Hpc].
Defined.

End IndirectJmpWitness.

(** ** CPU: bit 5 of the status register *)

Section StatusBit5.
Import cpu runs props.
Context {M : Type} `{MemoryInterface M}.

Lemma bind_inv {A B} (m : Exec M A) (k : A -> Exec M B) (c c' : CPU M) (b : B) :
  (m ≫= k) c = Some (b, c') ->
  exists a c1, m c = Some (a, c1) /\ k a c1 = Some (b, c').
Proof.
  unfold mbind, Exec_bind. intros Hb.
  destruct (m c) as [[a c1]|]; [|done]. eauto.
Qed.

Lemma keeps_bind {A B} (P : CPU M -> Prop) (m : Exec M A) (k : A -> Exec M B) :
  keeps P m -> (forall a, keeps P (k a)) -> keeps P (m ≫= k).
Proof.
  intros Hm Hk c b c' Hc (a & c1 & H1 & H2)%bind_inv.
  eapply Hk; [|exact H2]. eapply Hm; [exact Hc|exact H1].
Qed.

Lemma keeps_ret {A} (P : CPU M -> Prop) (a : A) : keeps P (mret a).
Proof. intros c b c' Hc Hr. injection Hr as <- <-. exact Hc. Qed.

Lemma keeps_get {A} (P : CPU M -> Prop) (f : CPU M -> A) : keeps P (get f).
Proof. intros c b c' Hc Hr. injection Hr as <- <-. exact Hc. Qed.

Lemma keeps_panic {A} (P : CPU M -> Prop) : keeps P (@panic M A).
Proof. intros c b c' Hc Hr. discriminate Hr. Qed.

Lemma keeps_modify (P : CPU M -> Prop) (f : CPU M -> CPU M) :
  (forall c, P c -> P (f c)) -> keeps P (modify f).
Proof. intros Hf c b c' Hc Hr. injection Hr as <- <-. by apply Hf. Qed.

Lemma keeps_memRead (addr : Z) : keeps bit5 (memRead addr).
Proof.
  intros c b c' Hc Hr. unfold memRead in Hr.
  option_step Hr. destruct p. injection Hr as <- <-. exact Hc.
Qed.

Lemma keeps_memWrite (addr val : Z) : keeps bit5 (memWrite addr val).
Proof.
  intros c b c' Hc Hr. unfold memWrite in Hr.
  option_step Hr. destruct p. injection Hr as <- <-. exact Hc.
Qed.

Lemma bit5_set (flag : Z) (on : bool) (c : CPU M) :
  Z.testbit flag 5 = false -> bit5 c -> bit5 (set flag on c).
Proof.
  unfold bit5, set, not8. intros Hf Hc. destruct on; cbn [st set_st].
  - by rewrite Z.lor_spec, Hc.
  - by rewrite Z.land_spec, Z.lxor_spec, Hf, Hc.
Qed.

Lemma bit5_setZN (r : Z) (c : CPU M) : bit5 c -> bit5 (setZN r c).
Proof.
  intros Hc. unfold setZN.
  change (bit5 (set N (Z.land r 0x80 =? 0x80) (set Z_ (r =? 0) c))).
  by repeat apply bit5_set.
Qed.

Lemma bit5_adc (m : Z) (c : CPU M) : bit5 c -> bit5 (adc m c).
Proof.
  intros Hc. unfold adc. cbv zeta. apply bit5_setZN.
  change (bit5 ?x) with (Z.testbit (st x) 5 = true). cbn [st set_ac].
  by repeat apply bit5_set.
Qed.

Lemma bit5_sbc (m : Z) (c : CPU M) : bit5 c -> bit5 (sbc m c).
Proof.
  intros Hc. unfold sbc. cbv zeta. apply bit5_setZN.
  change (bit5 ?x) with (Z.testbit (st x) 5 = true). cbn [st set_ac].
  by repeat apply bit5_set.
Qed.

Lemma bit5_ALWAYS_ON (v : Z) (c : CPU M) :
  bit5 (set_st (Z.lor ALWAYS_ON v) c).
Proof. unfold bit5. cbn [st set_st]. by rewrite Z.lor_spec. Qed.

(** A register update that leaves the status register alone. *)
Ltac bit5_step :=
  match goal with
  | |- bit5 (setZN _ _) => apply bit5_setZN
  | |- bit5 (set _ _ _) => apply bit5_set; [reflexivity|]
  | |- bit5 (adc _ _) => apply bit5_adc
  | |- bit5 (sbc _ _) => apply bit5_sbc
  | |- bit5 (set_st (Z.lor ALWAYS_ON _) _) => apply bit5_ALWAYS_ON
  | |- bit5 (if ?b then _ else _) => destruct b
  | |- bit5 (?f _ ?c) =>
      first [ is_var c; assumption
            | change (bit5 c) ]
  end.

Ltac keeps_step :=
  match goal with
  | |- keeps _ (_ ≫= _) => apply keeps_bind; [|intros ?]
  | |- keeps _ (mret _) => apply keeps_ret
  | |- keeps _ (get _) => apply keeps_get
  | |- keeps _ panic => apply keeps_panic
  | |- keeps _ (memRead _) => apply keeps_memRead
  | |- keeps _ (memWrite _ _) => apply keeps_memWrite
  | |- keeps _ (modify _) =>
      apply keeps_modify; intros ? ?; cbv zeta; repeat bit5_step; try assumption
  | |- keeps _ (if ?b then _ else _) => destruct b
  | |- keeps _ (let _ := _ in _) => cbv zeta
  end.

Ltac keeps_auto :=
  repeat first
    [ keeps_step
    | progress unfold readOpData, writeOpData, push, pop, pushWord, popWord,
        readPC8, readPC16, addCycles, pageCross, genericBranch ].

Create HintDb ops.
#[local] Hint Unfold opAac opAax opAdc opAnd opArr opAsl opAslAcc opAsr opAtx opAxs opBcc opBcs opBeq opBit opBmi opBne opBpl opBrk opBvc opBvs opClc opCld opCli opClv opCmp opCpx opCpy opDcp opDec opDex opDey opEor opInc opInx opIny opIsc opJmp opJsr opLax opLda opLdx opLdy opLsr opLsrAcc opNop opOra opPha opPhp opPla opPlp opRla opRol opRolAcc opRor opRorAcc opRra opRti opRts opSbc opSec opSed opSei opSlo opSre opSta opStx opSty opSxa opSya opTax opTay opTsx opTxa opTxs opTya
  addrIMM addrZP addrZPX addrZPY addrABS addrABSX addrABSY addrIND addrINDX
  addrINDY : ops.

Lemma opEntries_keep_bit5 :
  Forall (fun e => keeps bit5 (exec (snd e)) /\
                   keeps bit5 (readAddressOfOperand (snd e))) opEntries.
Proof.
  unfold opEntries.
  repeat (constructor;
          [split; cbn [snd exec readAddressOfOperand addressing extraCycles];
           autounfold with ops; keeps_auto|]).
  constructor.
Qed.

Lemma Interpret_keeps_bit5 : keeps bit5 Interpret.
Proof.
  unfold Interpret. keeps_auto.
  match goal with
  | |- context [opTable !! ?o] =>
      destruct (opTable (M:=M) !! o) as [op|] eqn:Hop; [|keeps_auto]
  end.
  apply elem_of_list_to_map_2 in Hop.
  pose proof opEntries_keep_bit5 as Hall.
  rewrite Forall_forall in Hall. destruct (Hall _ Hop) as [He Ha].
  cbn [snd] in He, Ha. keeps_auto; assumption.
Qed.

Lemma NMI_keeps_bit5 : keeps bit5 NMI.
Proof. unfold NMI. keeps_auto. Qed.

Lemma Reset_keeps_bit5 : keeps bit5 Reset.
Proof. unfold Reset. keeps_auto. Qed.

Lemma reachable_bit5 (c : CPU M) : reachable c -> bit5 c.
Proof.
  induction 1 as [m c Hnew|c n c' _ IH Hi|c n c' _ IH Hn|c c' _ IH Hr|c m _ IH].
  - unfold NewCPU in Hnew. option_step Hnew. destruct p as [lo m1].
    option_step Hnew. destruct p as [hi m2].
    injection Hnew as <-. reflexivity.
  - by eapply Interpret_keeps_bit5.
  - by eapply NMI_keeps_bit5.
  - by eapply Reset_keeps_bit5.
  - exact IH.
Qed.

End StatusBit5.

Section StatusPushes.
Import cpu runs props trace.
Context {M : Type} `{MemoryInterface M}.

Lemma push_traced (v : Z) (c c' : CPU (Traced M)) :
  push v c = Some (tt, c') ->
  writes (mem c') = (u16 (0x100 + sp c), v) :: writes (mem c) /\
  st c' = st c /\ sp c' = u8 (sp c - 1) /\ pc c' = pc c.
Proof.
  unfold push, memWrite, get, modify. cbv [mbind Exec_bind].
  cbn [cpu.Write Traced_MemoryInterface]. unfold Write. intros Hp.
  destruct (cpu.Write _ _ (inner (mem c))) as [[k m]|]; [|done].
  cbn [mbind option_bind] in Hp. injection Hp as <-. done.
Qed.

Lemma memRead_traced (a v : Z) (c c' : CPU (Traced M)) :
  memRead a c = Some (v, c') -> quiet c c'.
Proof.
  unfold memRead, quiet. cbn [cpu.Read Traced_MemoryInterface]. unfold Read.
  intros Hr. destruct (cpu.Read _ (inner (mem c))) as [[k m]|]; [|done].
  cbn [mbind option_bind] in Hr. injection Hr as <- <-. done.
Qed.

Lemma pushWord_traced (w : Z) (c c' : CPU (Traced M)) :
  pushWord w c = Some (tt, c') ->
  exists a1 v1 a2 v2,
    writes (mem c') = (a2, v2) :: (a1, v1) :: writes (mem c) /\
    st c' = st c /\ sp c' = u8 (u8 (sp c - 1) - 1) /\ pc c' = pc c.
Proof.
  unfold pushWord. intros ([] & c1 & H1 & H2)%bind_inv.
  apply push_traced in H1 as (W1 & S1 & P1 & Q1).
  apply push_traced in H2 as (W2 & S2 & P2 & Q2).
  do 4 eexists. rewrite W2, W1, S2, S1, P2, P1, Q2, Q1. done.
Qed.

Lemma bit5_lor_ALWAYS_ON (x : Z) : Z.testbit (Z.lor ALWAYS_ON x) 5 = true.
Proof. by rewrite Z.lor_spec. Qed.

(** C9.  The status byte that NMI pushes from a reachable CPU state is the
    status register, whose bit 5 is set in every reachable state; the
    bytes that PHP and BRK push are the status register with bit 5 (and
    bit 4) set.  Each is the last write of its routine, at the stack
    address the stack pointer had come to. *)
Theorem C9_pushed_status_has_bit5 :
  (forall (c c' : CPU (Traced M)) (n : Z),
      reachable c -> NMI c = Some (n, c') ->
      exists a1 v1 a2 v2,
        writes (mem c')
          = (u16 (0x100 + u8 (u8 (sp c - 1) - 1)), st c)
              :: (a2, v2) :: (a1, v1) :: writes (mem c) /\
        Z.testbit (st c) 5 = true) /\
  (forall (c c' : CPU (Traced M)),
      opPhp c = Some (tt, c') ->
      exists v,
        writes (mem c') = (u16 (0x100 + sp c), v) :: writes (mem c) /\
        Z.lor v 0x30 = Z.lor (st c) 0x30 /\
        Z.testbit v 5 = true) /\
  (forall (c c' : CPU (Traced M)),
      opBrk c = Some (tt, c') ->
      exists v a1 v1 a2 v2,
        writes (mem c')
          = (u16 (0x100 + u8 (u8 (sp c - 1) - 1)), v)
              :: (a2, v2) :: (a1, v1) :: writes (mem c) /\
        Z.lor v 0x30 = Z.lor (st c) 0x30 /\
        Z.testbit v 5 = true).
Proof.
  split; [|split].
  - intros c c' n Hreach Hn.
    pose proof (reachable_bit5 c Hreach) as Hb.
    unfold NMI in Hn.
    apply bind_inv in Hn as ([] & c0 & H0 & Hn). injection H0 as <-.
    apply bind_inv in Hn as (p & c1 & H1 & Hn). injection H1 as <- <-.
    apply bind_inv in Hn as ([] & c2 & H2 & Hn).
    apply pushWord_traced in H2 as (a1 & v1 & a2 & v2 & W2 & S2 & P2 & Q2).
    apply bind_inv in Hn as (s & c3 & H3 & Hn). injection H3 as <- <-.
    apply bind_inv in Hn as ([] & c4 & H4 & Hn).
    apply push_traced in H4 as (W4 & S4 & P4 & Q4).
    apply bind_inv in Hn as ([] & c5 & H5 & Hn). injection H5 as <-.
    apply bind_inv in Hn as (lo & c6 & H6 & Hn).
    apply memRead_traced in H6 as (W6 & _).
    apply bind_inv in Hn as ([] & c7 & H7 & Hn). injection H7 as <-.
    apply bind_inv in Hn as (hi & c8 & H8 & Hn).
    apply memRead_traced in H8 as (W8 & _).
    apply bind_inv in Hn as ([] & c9 & H9 & Hn). injection H9 as <-.
    injection Hn as <- <-.
    exists a1, v1, a2, v2. split; [|exact Hb].
    cbn [mem set_pc] in *. rewrite W8. cbn [mem set_pc]. rewrite W6.
    unfold set. cbn [mem set_st]. rewrite W4, W2, S2, P2. done.
  - intros c c' Hp. unfold opPhp in Hp.
    apply bind_inv in Hp as (s & c1 & H1 & Hp). injection H1 as <- <-.
    apply push_traced in Hp as (W & _).
    eexists. split; [exact W|]. split.
    + unfold ALWAYS_ON, B. change 0x30 with (Z.lor 0x20 0x10).
      apply Z.bits_inj'. intros n _. rewrite !Z.lor_spec.
      by destruct (Z.testbit 0x20 n), (Z.testbit 0x10 n), (Z.testbit (st c) n).
    + by rewrite !Z.lor_spec.
  - intros c c' Hb. unfold opBrk in Hb.
    apply bind_inv in Hb as (p & c1 & H1 & Hb). injection H1 as <- <-.
    apply bind_inv in Hb as ([] & c2 & H2 & Hb).
    apply pushWord_traced in H2 as (a1 & v1 & a2 & v2 & W2 & S2 & P2 & Q2).
    apply bind_inv in Hb as ([] & c3 & H3 & Hb). injection H3 as <-.
    apply bind_inv in Hb as (s & c4 & H4 & Hb). injection H4 as <- <-.
    apply bind_inv in Hb as ([] & c5 & H5 & Hb).
    apply push_traced in H5 as (W5 & _).
    apply bind_inv in Hb as ([] & c6 & H6 & Hb). injection H6 as <-.
    apply bind_inv in Hb as (lo & c7 & H7 & Hb).
    apply memRead_traced in H7 as (W7 & _).
    apply bind_inv in Hb as (hi & c8 & H8 & Hb).
    apply memRead_traced in H8 as (W8 & _).
    injection Hb as <-.
    exists (Z.lor ALWAYS_ON (st (set B true c2))), a1, v1, a2, v2.
    split; [|split].
    + cbn [mem set_pc]. rewrite W8, W7. cbn [mem set_st]. rewrite W5.
      cbn [sp mem set_st]. by rewrite W2, P2.
    + unfold set, ALWAYS_ON, B. cbn [st set_st]. rewrite S2.
      change 0x30 with (Z.lor 0x20 0x10).
      apply Z.bits_inj'. intros n _. rewrite !Z.lor_spec.
      by destruct (Z.testbit 0x20 n), (Z.testbit 0x10 n), (Z.testbit (st c) n).
    + apply bit5_lor_ALWAYS_ON.
Qed.
End StatusPushes.

Section StatusPushesWitness.
Import cpu runs trace.

Lemma C9_pushed_status_has_bit5_witness :
  reachable examples.nmiCPU /\
  exists c',
    NMI examples.nmiCPU = Some (7, c') /\
    exists a1 v1 a2 v2,
      writes (mem c') = (0x1fb, 0x34) :: (a2, v2) :: (a1, v1) :: [] /\
      Z.testbit 0x34 5 = true.
Proof.
  assert (reachable examples.nmiCPU) as Hreach.
  { apply (reach_new (mem examples.nmiCPU)). vm_compute. reflexivity. }
  split; [exact Hreach|].
  assert (fst <$> NMI examples.nmiCPU = Some 7) as Hrun
    by (vm_compute; reflexivity).
  destruct (NMI examples.nmiCPU) as [[n c']|] eqn:Hn; [|discriminate Hrun].
  injection Hrun as ->.
  exists c'. split; [reflexivity|].
  exact (proj1 C9_pushed_status_has_bit5 _ _ _ Hreach Hn).
Defined.

End StatusPushesWitness.

(** ** CPU: Reset *)

Section ResetAnyMemory.
Import cpu.
Context {M : Type} `{MemoryInterface M}.

(** What [Reset] does to the registers, in any state and over any memory:
    the status register is untouched and the I mask goes into SP. *)
Lemma Reset_registers (c c' : CPU M) :
  Reset c = Some (tt, c') ->
  st c' = st c /\ sp c' = u8 (Z.lor (sp c) I - 3) /\
  ac c' = ac c /\ xr c' = xr c /\ yr c' = yr c.
Proof.
  unfold Reset, memRead, modify. cbv [mbind Exec_bind]. intros Hr.
  destruct (Read vectorReset (mem c)) as [[lo m1]|]; [|done].
  cbn [mbind option_bind mem set_mem set_pc] in Hr.
  destruct (Read (u16 (vectorReset + 1)) m1) as [[hi m2]|]; [|done].
  cbn [mbind option_bind] in Hr. injection Hr as <-. done.
Qed.

End ResetAnyMemory.

Section ResetRegisters.
Import cpu runs.

(** C1 at a reachable state.  After CLI, PHA, PHA the status register is
    0x30 (I clear) and SP is 0xFB.  [Reset] reloads PC from the vector, but
    it ORs the I mask into SP instead of the status register: the status
    register is still 0x30, and SP is (0xFB | 0x04) - 3 = 0xFC, not
    0xFB - 3 = 0xF8. *)
Theorem C1_reset_ors_I_into_sp :
  (NewCPU examples.stackProgram ≫= steps 3) = Some examples.stackCPU /\
  st examples.stackCPU = 0x30 /\ sp examples.stackCPU = 0xfb /\
  Reset examples.stackCPU = Some (tt, examples.resetCPU) /\
  pc examples.resetCPU = 0x8000 /\
  st examples.resetCPU = 0x30 /\ sp examples.resetCPU = 0xfc.
Proof.
  split; [vm_compute; reflexivity|].
  split; [reflexivity|]. split; [reflexivity|].
  split; [vm_compute; reflexivity|].
  split; [reflexivity|]. split; reflexivity.
Qed.

End ResetRegisters.

(** * Further properties of the code *)

(** ** Enumeration and bit facts *)

Section MoreBitFacts.

Lemma forallb_upto2 (P : Z -> bool) (n : Z) :
  (let r := upto 0x100 in
   forallb (fun h => forallb (fun l => P (0x100 * h + l)) r) (upto n)) = true ->
  forall v, 0 <= v < 0x100 * n -> P v = true.
Proof.
  cbv zeta. intros Hall v Hv.
  pose proof (forallb_upto _ _ Hall (v / 0x100)) as F1. cbv beta in F1.
  pose proof (Z.div_pos v 0x100 ltac:(lia) ltac:(lia)).
  pose proof (Z.div_lt_upper_bound v 0x100 n ltac:(lia) ltac:(lia)).
  specialize (F1 ltac:(lia)).
  pose proof (forallb_upto _ _ F1 (v mod 0x100)
                (Z.mod_pos_bound v 0x100 ltac:(lia))) as F2.
  cbv beta in F2. by rewrite <-Z.div_mod in F2 by lia.
Qed.

Lemma divmod_256 (h l : Z) :
  0 <= l < 0x100 -> (0x100 * h + l) / 0x100 = h /\ (0x100 * h + l) mod 0x100 = l.
Proof.
  intros Hl. split; symmetry.
  - apply Z.div_unique with l; lia.
  - apply Z.mod_unique with h; lia.
Qed.

Lemma land_window (base k n : Z) :
  0 <= n -> 0 <= k < 2 ^ n -> base mod 2 ^ n = 0 ->
  Z.land (base + k) (Z.ones n) = k.
Proof.
  intros Hn Hk Hb. rewrite Z.land_ones by done.
  rewrite Z.add_mod, Hb, Z.add_0_l, Z.mod_mod by lia. apply Z.mod_small. lia.
Qed.

Lemma land_1_cases (v : Z) : Z.land v 1 = 0 \/ Z.land v 1 = 1.
Proof.
  change (Z.land v 1) with (Z.land v (Z.ones 1)). rewrite Z.land_ones by lia.
  change (2 ^ 1) with 2. pose proof (Z.mod_pos_bound v 2 ltac:(lia)). lia.
Qed.

Lemma land_0xff00 (x : Z) :
  0 <= x < 0x10000 -> Z.land x 0xff00 = 0x100 * (x / 0x100).
Proof.
  intros Hx. apply Z.eqb_eq.
  apply (forallb_upto2 (fun x => Z.land x 0xff00 =? 0x100 * (x / 0x100)) 0x100);
    [|done].
  vm_compute. reflexivity.
Qed.

Lemma word_bytes (w : Z) :
  0 <= w < 0x10000 ->
  Z.lor (u8 (Z.land 0xff w)) (u16 (Z.shiftl (u8 (Z.land 0xff (Z.shiftr w 8))) 8)) = w.
Proof.
  intros Hw. apply Z.eqb_eq.
  apply (forallb_upto2 (fun w =>
    Z.lor (u8 (Z.land 0xff w))
          (u16 (Z.shiftl (u8 (Z.land 0xff (Z.shiftr w 8))) 8)) =? w) 0x100);
    [|done].
  vm_compute. reflexivity.
Qed.

Lemma word_of_bytes (lo hi : Z) :
  0 <= lo < 0x100 -> 0 <= hi < 0x100 ->
  Z.lor lo (u16 (Z.shiftl hi 8)) = 0x100 * hi + lo.
Proof.
  intros Hlo Hhi.
  pose proof (forallb_upto2 (fun v =>
    Z.lor (v mod 0x100) (u16 (Z.shiftl (v / 0x100) 8)) =? v) 0x100) as F.
  specialize (F ltac:(vm_compute; reflexivity) (0x100 * hi + lo) ltac:(lia)).
  cbv beta in F.
  replace ((0x100 * hi + lo) mod 0x100) with lo in F
    by (apply Z.mod_unique with hi; lia).
  replace ((0x100 * hi + lo) / 0x100) with hi in F
    by (apply Z.div_unique with lo; lia).
  lia.
Qed.

End MoreBitFacts.

(** ** The bus *)

Section BusExtras.
Import mapper ppu input emu runs notions.

(** X1.  A CPU write below 0x2000 succeeds with no extra cycles and is read back at every address below 0x2000 that is equal modulo 0x800; reads at the other addresses are unchanged. *)
Theorem ram_write_read_mirrored (mem : NESMemory) (addr addr' val : Z) :
  length (ram mem) = Z.to_nat 0x800 ->
  0 <= addr < 0x2000 -> 0 <= addr' < 0x2000 ->
  exists mem',
    Write addr val mem = Some (0, mem') /\
    fst <$> Read addr' mem'
      = if addr' mod 0x800 =? addr mod 0x800 then Some val
        else fst <$> Read addr' mem.
Proof.
  intros Hlen Ha Ha'. unfold Write, Read.
  destruct (Z.ltb_spec addr 0x2000); [|lia].
  destruct (Z.ltb_spec addr' 0x2000); [|lia].
  change 0x7ff with (Z.ones 11). rewrite !Z.land_ones by lia.
  change (2 ^ 11) with 0x800.
  pose proof (Z.mod_pos_bound addr 0x800 ltac:(lia)).
  pose proof (Z.mod_pos_bound addr' 0x800 ltac:(lia)).
  rewrite setb_Some by lia. cbn [mbind option_bind ram set_ram].
  eexists. split; [reflexivity|]. cbn [ram set_ram].
  unfold getb. destruct (Z.ltb_spec (addr' mod 0x800) 0); [lia|].
  destruct (Z.eqb_spec (addr' mod 0x800) (addr mod 0x800)) as [->|Hne].
  - rewrite list_lookup_insert_eq by lia. done.
  - rewrite list_lookup_insert_ne by lia.
    by destruct (ram mem !! _).
Qed.

Lemma ram_write_read_mirrored_witness :
  exists mem',
    Write 0x0001 7 examples.powerOnBus = Some (0, mem') /\
    fst <$> Read 0x1801 mem' = Some 7.
Proof.
  assert (length (ram examples.powerOnBus) = Z.to_nat 0x800) as Hlen
    by (vm_compute; reflexivity).
  destruct (ram_write_read_mirrored examples.powerOnBus 0x0001 0x1801 7 Hlen)
    as (mem' & Hw & Hr); [lia|lia|].
  exists mem'. split; [exact Hw|exact Hr].
Defined.

(** X2.  A bus write that returns reports 513 extra cycles when the address is 0x4014 and none otherwise, whatever the mapper. *)
Theorem Write_extra_cycles (mem mem' : NESMemory) (addr val c : Z) :
  Write addr val mem = Some (c, mem') ->
  c = if addr =? 0x4014 then 513 else 0.
Proof.
  unfold Write. intros Hw.
  repeat case_match; simplify_option_eq; try done; try lia.
  all: unfold MapperWriteCPU, WriteCPU0, WriteCPU1, WriteCPU2, WriteCPU3 in *.
  all: repeat case_match; simplify_option_eq; done.
Qed.

Lemma Write_extra_cycles_witness :
  exists mem', Write 0x4014 2 examples.dmaBus = Some (513, mem').
Proof.
  assert (fst <$> Write 0x4014 2 examples.dmaBus = Some 513) as Hrun
    by (vm_compute; reflexivity).
  destruct (Write 0x4014 2 examples.dmaBus) as [[c mem']|] eqn:Hw;
    [|discriminate Hrun].
  exists mem'. by rewrite (Write_extra_cycles _ _ _ _ _ Hw).
Defined.

Lemma land_0x2007 (addr : Z) :
  0x2000 <= addr < 0x4000 ->
  Z.land addr 0x2007 = 0x2000 + addr mod 8.
Proof.
  intros Ha.
  assert (forallb (fun a => Z.land (0x2000 + a) 0x2007 =? 0x2000 + (0x2000 + a) mod 8)
            (upto 0x2000) = true) as Hall by (vm_compute; reflexivity).
  pose proof (forallb_upto _ _ Hall (addr - 0x2000) ltac:(lia)) as Hj.
  cbv beta in Hj. replace (0x2000 + (addr - 0x2000)) with addr in Hj by lia.
  lia.
Qed.

(** X3.  In 0x2000-0x3FFF the bus decodes only the low three address bits: a read or write at [addr] is the read or write at [0x2000 + addr mod 8]. *)
Theorem ppu_registers_repeat_every_8 (mem : NESMemory) (addr val : Z) :
  0x2000 <= addr < 0x4000 ->
  Read addr mem = Read (0x2000 + addr mod 8) mem /\
  Write addr val mem = Write (0x2000 + addr mod 8) val mem.
Proof.
  intros Ha.
  pose proof (Z.mod_pos_bound addr 8 ltac:(lia)) as Hm.
  assert (Z.land (0x2000 + addr mod 8) 0x2007 = Z.land addr 0x2007) as Hl.
  { rewrite !land_0x2007 by lia.
    f_equal. replace (0x2000 + addr mod 8) with (addr mod 8 + 1024 * 8) by lia.
    rewrite Z.mod_add by lia. apply Z.mod_mod. lia. }
  unfold Read, Write, ReadRegister, WriteRegister. rewrite Hl.
  destruct (Z.ltb_spec addr 0x2000); [lia|].
  destruct (Z.ltb_spec addr 0x4000); [|lia].
  destruct (Z.ltb_spec (0x2000 + addr mod 8) 0x2000); [lia|].
  destruct (Z.ltb_spec (0x2000 + addr mod 8) 0x4000); [|lia].
  done.
Qed.

Lemma ppu_registers_repeat_every_8_witness :
  Read 0x3456 examples.powerOnBus = Read 0x2006 examples.powerOnBus /\
  Write 0x3456 1 examples.powerOnBus = Write 0x2006 1 examples.powerOnBus.
Proof.
  assert (0x2000 <= 0x3456 < 0x4000) as Ha by lia.
  exact (ppu_registers_repeat_every_8 examples.powerOnBus 0x3456 1 Ha).
Defined.

Lemma Read_4016_done (mem : NESMemory) (n : nat) :
  8 <= currentKeyRead mem ->
  readMany n 0x4016 mem = Some (replicate n 1, mem).
Proof.
  intros Hk. induction n as [|n IH]; [done|].
  cbn [readMany]. unfold Read at 1.
  change (0x4016 <? 0x2000) with false. change (0x4016 <? 0x4000) with false.
  change (0x4016 <? 0x4018) with true. change (negb (0x4016 =? 0x4016)) with false.
  cbv iota.
  change (Z.of_nat (length keyReadOrder)) with 8.
  destruct (Z.leb_spec 8 (currentKeyRead mem)); [|lia].
  cbn [mbind option_bind]. rewrite IH. done.
Qed.

Lemma Read_4016_next (mem : NESMemory) (key : Z) :
  getb keyReadOrder (currentKeyRead mem) = Some key ->
  outstanding (input mem) = [] ->
  Read 0x4016 mem
    = Some (report (input mem) key,
            set_currentKeyRead (currentKeyRead mem + 1) mem).
Proof.
  intros Hkey Hout. unfold Read.
  change (0x4016 <? 0x2000) with false. change (0x4016 <? 0x4000) with false.
  change (0x4016 <? 0x4018) with true. change (negb (0x4016 =? 0x4016)) with false.
  cbv iota. change (Z.of_nat (length keyReadOrder)) with 8.
  destruct (Z.leb_spec 8 (currentKeyRead mem)) as [Hk|Hk].
  { unfold getb in Hkey. case_match; [done|].
    apply lookup_lt_Some in Hkey. cbn in Hkey. lia. }
  rewrite Hkey. cbn [mbind option_bind].
  destruct mem as [ram p k [pr out] cm]. cbn in Hout. subst out.
  unfold IsKeyPressed, report, set_currentKeyRead, set_input. cbn.
  by destruct (default false (pr !! key)).
Qed.

Lemma readMany_keys (keys : list Z) (mem : NESMemory) (n : nat) :
  0 <= currentKeyRead mem ->
  drop (Z.to_nat (currentKeyRead mem)) keyReadOrder = keys ->
  outstanding (input mem) = [] ->
  fst <$> readMany (length keys + n) 0x4016 mem
    = Some ((report (input mem) <$> keys) ++ replicate n 1).
Proof.
  revert mem. induction keys as [|key keys IH]; intros mem Hk Hdrop Hout.
  - cbn [length Nat.add]. rewrite Read_4016_done; [done|].
    apply (f_equal length) in Hdrop. rewrite length_drop in Hdrop.
    cbn in Hdrop. lia.
  - cbn [length Nat.add readMany].
    assert (getb keyReadOrder (currentKeyRead mem) = Some key) as Hkey.
    { unfold getb. destruct (Z.ltb_spec (currentKeyRead mem) 0); [lia|].
      rewrite <-(Nat.add_0_r (Z.to_nat _)), <-lookup_drop, Hdrop. done. }
    rewrite (Read_4016_next _ key) by done. cbn [mbind option_bind].
    specialize (IH (set_currentKeyRead (currentKeyRead mem + 1) mem)).
    cbn [currentKeyRead set_currentKeyRead input] in IH.
    assert (forall (x : option (list Z * NESMemory)) v,
      fst <$> ('(vs, m) ← x; Some (v :: vs, m)) = (v ::.) <$> (fst <$> x)) as Hfst.
    { by intros [[??]|] ?. }
    rewrite Hfst, IH; [done|lia| |done].
    replace (Z.to_nat (currentKeyRead mem + 1)) with (Z.to_nat (currentKeyRead mem) + 1)%nat by lia.
    rewrite <-drop_drop, Hdrop. done.
Qed.

(** X4.  After a write to 0x4016 with bit 0 clear, and with no host event pending, the next eight reads of 0x4016 report A, B, Select, Start, Up, Down, Left, Right in this order, and every further read returns 1. *)
Theorem controller_reports_buttons_in_order (mem : NESMemory) (val : Z) (n : nat) :
  Z.land val 1 = 0 ->
  outstanding (input mem) = [] ->
  exists mem0,
    Write 0x4016 val mem = Some (0, mem0) /\
    fst <$> readMany (8 + n) 0x4016 mem0
      = Some ((report (input mem) <$> keyReadOrder) ++ replicate n 1).
Proof.
  intros Hv Hout. unfold Write.
  change (0x4016 <? 0x2000) with false. change (0x4016 <? 0x4000) with false.
  change (0x4016 <? 0x4018) with true. cbn -[Z.land].
  rewrite Hv. cbn. eexists. split; [reflexivity|].
  apply (readMany_keys keyReadOrder (set_currentKeyRead 0 mem) n); done.
Qed.

Lemma controller_reports_buttons_in_order_witness :
  exists mem0,
    Write 0x4016 0 examples.heldBus = Some (0, mem0) /\
    fst <$> readMany 10 0x4016 mem0 = Some [1; 0; 0; 1; 0; 0; 0; 0; 1; 1].
Proof.
  assert (Z.land 0 1 = 0) as Hv by reflexivity.
  assert (outstanding (input examples.heldBus) = []) as Hout by reflexivity.
  destruct (controller_reports_buttons_in_order examples.heldBus 0 2 Hv Hout)
    as (mem0 & Hw & Hr).
  exists mem0. split; [exact Hw|exact Hr].
Defined.

End BusExtras.

(** ** Mappers *)

Section MapperExtras.
Import nesfile mapper runs notions.

Lemma GetMapper_pages (nf : NesFile) (m : Mapper) :
  GetMapper nf = Some m ->
  exists first last,
    getb (PrgRom nf) 0 = Some first /\ last_bank (PrgRom nf) = Some last /\
    cpuPages0 (addressSpace m) = first /\ cpuPages1 (addressSpace m) = last.
Proof.
  unfold GetMapper, NewMapper0, NewMapper1, NewMapper2, NewMapper3, setupNametables.
  intros Hg.
  destruct (getb (PrgRom nf) 0) as [first|] eqn:E0;
    [|repeat case_match; simplify_option_eq; done].
  destruct (last_bank (PrgRom nf)) as [last|] eqn:E1;
    [|repeat case_match; simplify_option_eq; done].
  exists first, last. split; [done|]. split; [done|].
  repeat case_match; simplify_option_eq; try done.
  all: unfold chrSlice in *; simplify_option_eq; done.
Qed.

(** X5.  Every mapper that [GetMapper] builds shows the first PRG bank at 0x8000-0xBFFF and the last one at 0xC000-0xFFFF (the same bank twice for a 16 KiB cartridge). *)
Theorem power_on_prg_windows (nf : NesFile) (m : Mapper) :
  GetMapper nf = Some m ->
  exists first last,
    getb (PrgRom nf) 0 = Some first /\
    last_bank (PrgRom nf) = Some last /\
    forall k, 0 <= k < 0x4000 ->
      MapperReadCPU (0x8000 + k) m = getb first k /\
      MapperReadCPU (0xc000 + k) m = getb last k.
Proof.
  intros Hg. destruct (GetMapper_pages _ _ Hg) as (first & last & H0 & H1 & Hp0 & Hp1).
  exists first, last. split; [done|]. split; [done|].
  intros k Hk. unfold MapperReadCPU, ReadCPU.
  destruct (Z.ltb_spec (0x8000 + k) 0x4018); [lia|].
  destruct (Z.ltb_spec (0x8000 + k) 0x6000); [lia|].
  destruct (Z.ltb_spec (0x8000 + k) 0x8000); [lia|].
  destruct (Z.ltb_spec (0x8000 + k) 0xc000); [|lia].
  destruct (Z.ltb_spec (0xc000 + k) 0x4018); [lia|].
  destruct (Z.ltb_spec (0xc000 + k) 0x6000); [lia|].
  destruct (Z.ltb_spec (0xc000 + k) 0x8000); [lia|].
  destruct (Z.ltb_spec (0xc000 + k) 0xc000); [lia|].
  change 0x3fff with (Z.ones 14).
  rewrite !land_window by (done || lia). by rewrite Hp0, Hp1.
Qed.

Lemma power_on_prg_windows_witness :
  MapperReadCPU 0x8123 examples.nromMapper
    = MapperReadCPU 0xc123 examples.nromMapper.
Proof.
  assert (GetMapper examples.nromFile = Some examples.nromMapper) as Hg
    by (vm_compute; reflexivity).
  destruct (power_on_prg_windows _ _ Hg) as (first & last & H0 & H1 & Hk).
  assert (first = last) as <- by (vm_compute in H0, H1; congruence).
  assert (0 <= 0x123 < 0x4000) as Hr by lia.
  destruct (Hk 0x123 Hr) as [E1 E2].
  change (0x8000 + 0x123) with 0x8123 in E1.
  change (0xc000 + 0x123) with 0xc123 in E2.
  by rewrite E1, E2.
Defined.

Lemma writePt_readPt (r : PtRef) (i val : Z) (a a' : MapperAddressSpace) :
  writePt r i val a = Some a' -> readPt r i a' = Some val.
Proof.
  unfold writePt, readPt. intros Hw.
  destruct r as [[]|bank off]; simplify_option_eq.
  - eapply getb_setb_eq; eauto.
  - eapply getb_setb_eq; eauto.
  - rewrite list_lookup_insert_eq by (by eapply lookup_lt_Some).
    cbn. eapply getb_setb_eq; eauto.
Qed.

Lemma writePt_frame (r : PtRef) (i val : Z) (a a' : MapperAddressSpace) :
  writePt r i val a = Some a' ->
  ppuPt0 a' = ppuPt0 a /\ ppuPt1 a' = ppuPt1 a /\ ppuNts a' = ppuNts a /\
  ppuNtBank0 a' = ppuNtBank0 a /\ ppuNtBank1 a' = ppuNtBank1 a.
Proof.
  unfold writePt. intros Hw.
  destruct r as [[]|bank off]; simplify_option_eq; done.
Qed.

Lemma writeNt_frame (r : NtRef) (i val : Z) (a a' : MapperAddressSpace) :
  writeNt r i val a = Some a' ->
  ppuPt0 a' = ppuPt0 a /\ ppuPt1 a' = ppuPt1 a /\ ppuNts a' = ppuNts a /\
  chrRom a' = chrRom a /\ chrRam0 a' = chrRam0 a /\ chrRam1 a' = chrRam1 a.
Proof.
  unfold writeNt. intros Hw. destruct r; simplify_option_eq; done.
Qed.

Lemma writeNt_readNt (r r' : NtRef) (i j val : Z) (a a' : MapperAddressSpace) :
  0 <= j ->
  writeNt r i val a = Some a' ->
  readNt r' j a' = if bool_decide (r' = r) && (j =? i) then Some val else readNt r' j a.
Proof.
  unfold writeNt, readNt. intros Hj Hw.
  destruct r, r'; simplify_option_eq; cbn;
    try done; destruct (Z.eqb_spec j i) as [->|Hne];
    (eapply getb_setb_eq; eauto) || (eapply getb_setb_ne; eauto).
Qed.

Lemma addressSpace_with (a : MapperAddressSpace) (m : Mapper) :
  addressSpace (with_addressSpace a m) = a.
Proof. by destruct m. Qed.

(** X6.  A PPU write below 0x3F00 that returns takes no extra cycles and is read back at the same address, for each of the four mappers, also when the pattern tables are CHR-ROM: [ppuPtIsROM] protects nothing. *)
Theorem vram_write_reads_back (m m' : Mapper) (addr val c : Z) :
  0 <= addr ->
  MapperWritePPU addr val m = Some (c, m') ->
  c = 0 /\ MapperReadPPU addr m' = Some val.
Proof.
  unfold MapperWritePPU, MapperReadPPU. intros Ha Hw.
  destruct (WritePPU addr val (addressSpace m)) as [[c0 a']|] eqn:E; [|done].
  cbn in Hw. simplify_eq. rewrite addressSpace_with.
  revert E. generalize (addressSpace m). intros a. unfold WritePPU, ReadPPU.
  destruct (addr <? 0x1000); [|destruct (addr <? 0x2000); [|destruct (addr <? 0x3f00)]];
    intros E; [| | |done].
  - destruct (writePt _ _ _ _) as [a1|] eqn:Hw; [|done]. cbn in E. simplify_eq.
    pose proof (writePt_frame _ _ _ _ _ Hw) as (-> & _). split; [done|].
    by eapply writePt_readPt.
  - destruct (writePt _ _ _ _) as [a1|] eqn:Hw; [|done]. cbn in E. simplify_eq.
    pose proof (writePt_frame _ _ _ _ _ Hw) as (_ & -> & _). split; [done|].
    by eapply writePt_readPt.
  - cbv zeta in E |- *.
    destruct (getb (ppuNts a) _) as [r|] eqn:Hr; [|done]. cbn in E.
    destruct (writeNt _ _ _ _) as [a1|] eqn:Hw; [|done]. cbn in E. simplify_eq.
    pose proof (writeNt_frame _ _ _ _ _ Hw) as (_ & _ & -> & _). split; [done|].
    rewrite Hr. cbn.
    rewrite (writeNt_readNt _ _ _ _ _ _ _ (proj1 (land_ones_range (Z.land addr 0xfff) 10 ltac:(lia))) Hw).
    by rewrite Z.eqb_refl, bool_decide_eq_true_2.
Qed.

Lemma vram_write_reads_back_witness :
  exists m',
    MapperWritePPU 0x2005 9 examples.nromMapper = Some (0, m') /\
    MapperReadPPU 0x2005 m' = Some 9.
Proof.
  assert (fst <$> MapperWritePPU 0x2005 9 examples.nromMapper = Some 0) as Hrun
    by (vm_compute; reflexivity).
  destruct (MapperWritePPU 0x2005 9 examples.nromMapper) as [[c m']|] eqn:Hw;
    [|discriminate Hrun].
  assert (0 <= 0x2005) as Ha by lia.
  destruct (vram_write_reads_back _ _ _ _ _ Ha Hw) as [-> Hr].
  exists m'. split; [reflexivity|exact Hr].
Defined.

(** X7.  With the nametable arrangement that [setupNametables] installs, a nametable write is seen at exactly the addresses that mirror it: the other table of the same pair for horizontal mirroring, of the same column for vertical mirroring, and their copies from 0x3000 on; the other nametable bytes are unchanged. *)
Theorem nametable_mirroring (nf : NesFile) (a0 a1 a a' : MapperAddressSpace)
    (addr addr' val c : Z) :
  setupNametables nf a0 = Some a1 -> ppuNts a = ppuNts a1 ->
  0x2000 <= addr < 0x3f00 -> 0x2000 <= addr' < 0x3f00 ->
  WritePPU addr val a = Some (c, a') ->
  ReadPPU addr' a'
    = if sameNametableByte (Mirroring nf) addr addr' then Some val
      else ReadPPU addr' a.
Proof.
  intros Hs Hnts Ha Ha' Hw. unfold WritePPU, ReadPPU in *.
  destruct (Z.ltb_spec addr 0x1000); [lia|].
  destruct (Z.ltb_spec addr 0x2000); [lia|].
  destruct (Z.ltb_spec addr 0x3f00); [|lia].
  destruct (Z.ltb_spec addr' 0x1000); [lia|].
  destruct (Z.ltb_spec addr' 0x2000); [lia|].
  destruct (Z.ltb_spec addr' 0x3f00); [|lia].
  cbv zeta in *.
  destruct (getb (ppuNts a) _) as [r|] eqn:Hr; [|done]. cbn in Hw.
  destruct (writeNt _ _ _ _) as [a2|] eqn:Hwn; [|done]. cbn in Hw. simplify_eq.
  pose proof (writeNt_frame _ _ _ _ _ Hwn) as (_ & _ & -> & _).
  unfold sameNametableByte.
  change 0xfff with (Z.ones 12) in *. change 0x3ff with (Z.ones 10) in *.
  pose proof (land_ones_range addr 12 ltac:(lia)) as Hi.
  pose proof (land_ones_range addr' 12 ltac:(lia)) as Hj.
  change (2 ^ 12) with 0x1000 in *.
  set (i := Z.land addr (Z.ones 12)) in *.
  set (j := Z.land addr' (Z.ones 12)) in *.
  rewrite !(Z.land_ones _ 10) in * by lia. change (2 ^ 10) with 0x400 in *.
  pose proof (Z.mod_pos_bound i 0x400 ltac:(lia)) as Hi4.
  pose proof (Z.mod_pos_bound j 0x400 ltac:(lia)) as Hj4.
  assert (ppuNts a = [NtBank0; NtBank0; NtBank1; NtBank1] /\ Mirroring nf = Horizontal \/
          ppuNts a = [NtBank0; NtBank1; NtBank0; NtBank1] /\ Mirroring nf = Vertical)
    as Hmode.
  { unfold setupNametables in Hs. rewrite Hnts.
    destruct (Mirroring nf); simplify_eq; [by left|by right]. }
  assert (i / 0x400 = 0 \/ i / 0x400 = 1 \/ i / 0x400 = 2 \/ i / 0x400 = 3) as Hqi.
  { pose proof (Z.div_lt_upper_bound i 0x400 4 ltac:(lia) ltac:(lia)).
    pose proof (Z.div_pos i 0x400 ltac:(lia) ltac:(lia)). lia. }
  assert (j / 0x400 = 0 \/ j / 0x400 = 1 \/ j / 0x400 = 2 \/ j / 0x400 = 3) as Hqj.
  { pose proof (Z.div_lt_upper_bound j 0x400 4 ltac:(lia) ltac:(lia)).
    pose proof (Z.div_pos j 0x400 ltac:(lia) ltac:(lia)). lia. }
  assert (i / 0x800 = (i / 0x400) / 2) as Hi8 by (rewrite Z.div_div by lia; done).
  assert (j / 0x800 = (j / 0x400) / 2) as Hj8 by (rewrite Z.div_div by lia; done).
  rewrite Hi8, Hj8.
  destruct Hmode as [[Hn ->]|[Hn ->]]; rewrite Hn in Hr |- *;
    destruct Hqi as [Ei|[Ei|[Ei|Ei]]], Hqj as [Ej|[Ej|[Ej|Ej]]];
    rewrite Ei in Hr |- *; rewrite Ej; cbn -[readNt Z.modulo] in Hr |- *; simplify_eq.
    all: change (Z.to_nat 0) with 0%nat in *; change (Z.to_nat 1) with 1%nat in *;
      change (Z.to_nat 2) with 2%nat in *; change (Z.to_nat 3) with 3%nat in *;
      change (0 `div` 2) with 0; change (1 `div` 2) with 0;
      change (2 `div` 2) with 1; change (3 `div` 2) with 1;
      change (0 `mod` 2) with 0; change (1 `mod` 2) with 1;
      change (2 `mod` 2) with 0; change (3 `mod` 2) with 1;
      cbn [lookup list_lookup mbind option_bind] in Hr |- *; simplify_eq.
    all: rewrite (writeNt_readNt _ _ _ _ _ _ _ (proj1 Hj4) Hwn).
    all: rewrite (Z.eqb_sym (i mod 1024)).
    all: destruct (j mod 1024 =? i mod 1024); done.
Qed.

Lemma nametable_mirroring_witness :
  exists a',
    WritePPU 0x2005 9 examples.nromSpace = Some (0, a') /\
    ReadPPU 0x2405 a' = Some 9 /\
    ReadPPU 0x3405 a' = Some 9 /\
    ReadPPU 0x2805 a' = ReadPPU 0x2805 examples.nromSpace.
Proof.
  assert (setupNametables examples.nromFile examples.nromSpace
          = Some examples.nromSpace) as Hs by reflexivity.
  assert (fst <$> WritePPU 0x2005 9 examples.nromSpace = Some 0) as Hrun
    by (vm_compute; reflexivity).
  destruct (WritePPU 0x2005 9 examples.nromSpace) as [[c a']|] eqn:Hw;
    [|discriminate Hrun].
  injection Hrun as ->.
  assert (0x2000 <= 0x2005 < 0x3f00) as Ha by lia.
  assert (0x2000 <= 0x2405 < 0x3f00) as H1 by lia.
  assert (0x2000 <= 0x3405 < 0x3f00) as H2 by lia.
  assert (0x2000 <= 0x2805 < 0x3f00) as H3 by lia.
  exists a'. split; [reflexivity|]. split; [|split].
  - exact (nametable_mirroring _ _ _ _ _ _ _ _ _ Hs eq_refl Ha H1 Hw).
  - exact (nametable_mirroring _ _ _ _ _ _ _ _ _ Hs eq_refl Ha H2 Hw).
  - exact (nametable_mirroring _ _ _ _ _ _ _ _ _ Hs eq_refl Ha H3 Hw).
Defined.

(** X8.  A CPU write to mapper 2 at any address swaps the PRG bank numbered by the whole value into 0x8000-0xBFFF and leaves 0xC000-0xFFFF alone; it panics when there is no such bank. *)
Theorem mapper2_any_write_switches_bank (m : Mapper2) (addr val : Z) :
  match getb (prgRom2 m) val with
  | Some bank =>
      exists m',
        WriteCPU2 addr val m = Some (0, m') /\
        prgRom2 m' = prgRom2 m /\
        forall k, 0 <= k < 0x4000 ->
          ReadCPU (0x8000 + k) (as2 m') = getb bank k /\
          ReadCPU (0xc000 + k) (as2 m') = ReadCPU (0xc000 + k) (as2 m)
  | None => WriteCPU2 addr val m = None
  end.
Proof.
  unfold WriteCPU2. destruct (getb (prgRom2 m) val) as [bank|]; [|done].
  cbn. eexists. split; [done|]. split; [done|].
  intros k Hk. unfold ReadCPU. cbn.
  destruct (Z.ltb_spec (0x8000 + k) 0x4018); [lia|].
  destruct (Z.ltb_spec (0x8000 + k) 0x6000); [lia|].
  destruct (Z.ltb_spec (0x8000 + k) 0x8000); [lia|].
  destruct (Z.ltb_spec (0x8000 + k) 0xc000); [|lia].
  destruct (Z.ltb_spec (0xc000 + k) 0x4018); [lia|].
  destruct (Z.ltb_spec (0xc000 + k) 0x6000); [lia|].
  destruct (Z.ltb_spec (0xc000 + k) 0x8000); [lia|].
  destruct (Z.ltb_spec (0xc000 + k) 0xc000); [lia|].
  change 0x3fff with (Z.ones 14). by rewrite land_window by (done || lia).
Qed.

(** X9.  A CPU write to mapper 3 at any address swaps the CHR bank numbered by the low two bits of the value into both pattern tables; it panics when that bank is missing or shorter than 8 KiB. *)
Theorem mapper3_any_write_switches_chr (m : Mapper3) (addr val : Z) :
  match chrRom (as3 m) !! Z.to_nat (Z.land val 3) with
  | Some bank =>
      if 0x2000 <=? Z.of_nat (length bank) then
        exists m',
          WriteCPU3 addr val m = Some (0, m') /\
          forall k, 0 <= k < 0x2000 -> ReadPPU k (as3 m') = getb bank k
      else WriteCPU3 addr val m = None
  | None => WriteCPU3 addr val m = None
  end.
Proof.
  unfold WriteCPU3, chrSlice. cbn [mbind option_bind as3 set_ppuPt0 set_ppuPt1 chrRom ppuPt0 ppuPt1 readPt].
  destruct (chrRom (as3 m) !! _) as [bank|] eqn:Hb; [|done]. cbn [mbind option_bind as3 set_ppuPt0 set_ppuPt1 chrRom ppuPt0 ppuPt1 readPt].
  unfold slice.
  destruct (Z.leb_spec 0x2000 (Z.of_nat (length bank))) as [Hl|Hl].
  - destruct (Z.leb_spec (0 + 0x1000) (Z.of_nat (length bank))); [|lia].
    destruct (Z.leb_spec (0x1000 + 0x1000) (Z.of_nat (length bank))); [|lia].
    change ((0 <=? 0) && (0 <=? 0 + 4096)) with true.
    change ((0 <=? 4096) && (4096 <=? 4096 + 4096)) with true.
    cbn [mbind option_bind andb].
    eexists. split; [done|].
    intros k Hk. unfold ReadPPU.
    cbn [as3 set_ppuPt0 set_ppuPt1 chrRom ppuPt0 ppuPt1 readPt].
    rewrite Hb. cbn [mbind option_bind].
    destruct (Z.ltb_spec k 0x1000); [done|].
    destruct (Z.ltb_spec k 0x2000); [|lia].
    replace k with (0x1000 + (k - 0x1000)) at 1 by lia.
    change 0xfff with (Z.ones 12). rewrite land_window by (done || lia).
    f_equal. lia.
  - destruct (Z.leb_spec (0 + 0x1000) (Z.of_nat (length bank)));
      destruct (Z.leb_spec (0x1000 + 0x1000) (Z.of_nat (length bank))); try lia;
      rewrite ?andb_false_r; done.
Qed.

(** X10.  [GetMapper] panics on four-screen mirroring, on a mapper number outside 0-3, on a cartridge without PRG-ROM and on a mapper 3 cartridge without CHR-ROM. *)
Theorem GetMapper_rejects (nf : NesFile) :
  Mirroring nf = FourScreen \/ ~ 0 <= nesfile.Mapper nf <= 3 \/ PrgRom nf = [] \/
  (nesfile.Mapper nf = 3 /\ ChrRom nf = []) ->
  GetMapper nf = None.
Proof.
  unfold GetMapper, NewMapper0, NewMapper1, NewMapper2, NewMapper3.
  intros [Hm|[Hid|[Hp|[Hid Hc]]]].
  - assert (forall a, setupNametables nf a = None) as Hs
      by (intros a; unfold setupNametables; by rewrite Hm).
    assert (forall (x : option MapperAddressSpace) B (f : MapperAddressSpace -> option B),
              (a ← x; a' ← setupNametables nf a; f a') = None) as Hb
      by (intros [a|] B f; cbn; [by rewrite Hs|done]).
    destruct (nesfile.Mapper nf) as [|[[[]|[]|]|[[]|[]|]|]|]; try done;
      destruct (getb (PrgRom nf) 0); try done; cbn [mbind option_bind fmap option_fmap option_map];
      destruct (last_bank (PrgRom nf)); try done; cbn [mbind option_bind];
      rewrite ?Hs, ?Hb; try done.
    destruct (chrSlice _ _ 0); [|done]. cbn [mbind option_bind].
    destruct (chrSlice _ _ _); [|done]. cbn [mbind option_bind].
    by rewrite Hs.
  - destruct (nesfile.Mapper nf) as [|[[[]|[]|]|[[]|[]|]|]|]; try done; lia.
  - rewrite Hp. by destruct (nesfile.Mapper nf) as [|[[[]|[]|]|[[]|[]|]|]|].
  - rewrite Hid, Hc. unfold chrSlice.
    by destruct (getb (PrgRom nf) 0), (last_bank (PrgRom nf)).
Qed.

Lemma GetMapper_rejects_witness : GetMapper inputs.fourScreenFile = None.
Proof.
  apply GetMapper_rejects. left. reflexivity.
Defined.

Lemma WriteCPU1_shift (m : Mapper1) (addr val : Z) :
  0x8000 <= addr -> Z.land val 0x80 <> 0x80 -> whichBit m < 4 -> 0 <= whichBit m ->
  WriteCPU1 addr val m
    = Some (0, set_whichBit (whichBit m + 1)
                 (set_shiftReg (Z.lor (shiftReg m)
                    (u8 (Z.shiftl (Z.land val 1) (whichBit m)))) m)).
Proof.
  intros Ha Hv Hw Hw0. unfold WriteCPU1.
  destruct (Z.ltb_spec addr 0x8000); [lia|].
  destruct (Z.eqb_spec (Z.land val 0x80) 0x80); [done|].
  cbn [whichBit set_whichBit set_shiftReg].
  assert (u8 (whichBit m + 1) = whichBit m + 1) as ->
    by (unfold u8; apply Z.mod_small; lia).
  destruct (Z.ltb_spec (whichBit m + 1) 5); [done|lia].
Qed.

Lemma WriteCPU1_control (m : Mapper1) (addr val : Z) :
  0x8000 <= addr < 0xa000 -> Z.land val 0x80 <> 0x80 -> whichBit m = 4 ->
  WriteCPU1 addr val m
    = Some (0, set_shiftReg 0 (controlRegChanged
                 (set_controlReg (Z.lor (shiftReg m)
                                    (u8 (Z.shiftl (Z.land val 1) 4)))
                    (set_whichBit 0
                       (set_shiftReg (Z.lor (shiftReg m)
                          (u8 (Z.shiftl (Z.land val 1) 4))) m))))).
Proof.
  intros Ha Hv Hw. unfold WriteCPU1.
  destruct (Z.ltb_spec addr 0x8000); [lia|].
  destruct (Z.eqb_spec (Z.land val 0x80) 0x80); [done|].
  cbn [whichBit set_whichBit set_shiftReg]. rewrite Hw.
  change (u8 (4 + 1) <? 5) with false. cbv iota.
  destruct (Z.ltb_spec addr 0xa000); [|lia]. done.
Qed.

(** X11.  Five writes without bit 7 to the MMC1, the fifth at 0x8000-0x9FFF, load the control register with their low bits, the first write in bit 0, rearrange the nametables for it and clear the shift register; nothing else changes. *)
Theorem mmc1_control_loaded_by_five_writes (m : Mapper1) (ws : list (Z * Z))
    (last : Z * Z) :
  whichBit m = 0 -> shiftReg m = 0 ->
  length ws = 4%nat ->
  Forall (fun w => 0x8000 <= w.1 /\ Z.land w.2 0x80 <> 0x80) (ws ++ [last]) ->
  last.1 < 0xa000 ->
  exists m',
    writeAll (ws ++ [last]) (IsMapper1 m) = Some (IsMapper1 m') /\
    controlReg m' = serialValue ((ws ++ [last]).*2) /\
    m' = set_shiftReg 0 (controlRegChanged (set_controlReg (controlReg m') m)).
Proof.
  intros Hw Hs Hlen Hall Hlast.
  destruct ws as [|[a1 v1] [|[a2 v2] [|[a3 v3] [|[a4 v4] [|? ?]]]]]; try done.
  destruct last as [a5 v5]. cbn [app] in *.
  repeat match goal with H : Forall _ (_ :: _) |- _ =>
    apply Forall_cons in H; destruct H as [[? ?] H] end.
  cbn [fst snd] in *. cbn [writeAll MapperWriteCPU].
  destruct m as [a prg s w c]. cbn in Hw, Hs. subst s w.
  rewrite WriteCPU1_shift by (done || cbn; lia).
  cbn [mbind option_bind whichBit shiftReg set_whichBit set_shiftReg as1 prgRom controlReg
    writeAll MapperWriteCPU].
  rewrite WriteCPU1_shift by (done || cbn; lia).
  cbn [mbind option_bind whichBit shiftReg set_whichBit set_shiftReg as1 prgRom controlReg
    writeAll MapperWriteCPU].
  rewrite WriteCPU1_shift by (done || cbn; lia).
  cbn [mbind option_bind whichBit shiftReg set_whichBit set_shiftReg as1 prgRom controlReg
    writeAll MapperWriteCPU].
  rewrite WriteCPU1_shift by (done || cbn; lia).
  cbn [mbind option_bind whichBit shiftReg set_whichBit set_shiftReg as1 prgRom controlReg
    writeAll MapperWriteCPU].
  rewrite WriteCPU1_control by (done || cbn; lia).
  cbn [mbind option_bind whichBit shiftReg set_whichBit set_shiftReg as1 prgRom controlReg
    writeAll MapperWriteCPU].
  eexists. split; [reflexivity|].
  unfold serialValue. cbn [fmap list_fmap foldr snd].
  destruct (land_1_cases v1) as [-> | ->], (land_1_cases v2) as [-> | ->],
    (land_1_cases v3) as [-> | ->], (land_1_cases v4) as [-> | ->],
    (land_1_cases v5) as [-> | ->]; split; reflexivity.
Qed.

Lemma mmc1_control_loaded_by_five_writes_witness :
  exists m',
    writeAll (inputs.controlWrites ++ [inputs.lastControlWrite])
      (IsMapper1 (examples.mmc1 (fill 0x2000 0))) = Some (IsMapper1 m') /\
    controlReg m' = 0x13.
Proof.
  assert (whichBit (examples.mmc1 (fill 0x2000 0)) = 0) as Hw by reflexivity.
  assert (shiftReg (examples.mmc1 (fill 0x2000 0)) = 0) as Hs by reflexivity.
  assert (length inputs.controlWrites = 4%nat) as Hlen by reflexivity.
  assert (Forall (fun w => 0x8000 <= w.1 /\ Z.land w.2 0x80 <> 0x80)
            (inputs.controlWrites ++ [inputs.lastControlWrite])) as Hall
    by (unfold inputs.controlWrites, inputs.lastControlWrite; cbn [app];
        repeat (apply Forall_cons_2; [split; [cbn; lia|by vm_compute]|]);
        apply Forall_nil_2).
  assert (inputs.lastControlWrite.1 < 0xa000) as Hlast by (cbn; lia).
  destruct (mmc1_control_loaded_by_five_writes _ _ _ Hw Hs Hlen Hall Hlast)
    as (m' & Hrun & Hc & _).
  exists m'. split; [exact Hrun|exact Hc].
Defined.

Lemma remap_whichBit (m m' : Mapper1) :
  remapChr0 m = Some m' \/ remapChr1 m = Some m' \/ remapPrg m = Some m' ->
  whichBit m' = whichBit m.
Proof.
  unfold remapChr0, remapChr1, remapPrg.
  intros [H|[H|H]]; repeat case_match; simplify_option_eq; done.
Qed.

Lemma shift_bound (s w b : Z) :
  0 <= w < 4 -> 0 <= s < 2 ^ w -> b = 0 \/ b = 1 ->
  0 <= Z.lor s (u8 (Z.shiftl b w)) < 2 ^ (w + 1).
Proof.
  intros Hw Hs Hb.
  assert (forallb (fun w => forallb (fun s => forallb (fun b =>
            negb (s <? 2 ^ w) ||
            ((0 <=? Z.lor s (u8 (Z.shiftl b w))) &&
             (Z.lor s (u8 (Z.shiftl b w)) <? 2 ^ (w + 1))))
            (upto 2)) (upto 16)) (upto 4) = true) as Hall
    by (vm_compute; reflexivity).
  assert (2 ^ w <= 2 ^ 3) by (apply Z.pow_le_mono_r; lia).
  pose proof (forallb_upto _ _ Hall w ltac:(lia)) as H1. cbv beta in H1.
  pose proof (forallb_upto _ _ H1 s ltac:(lia)) as H2. cbv beta in H2.
  pose proof (forallb_upto _ _ H2 b ltac:(lia)) as H3. cbv beta in H3.
  destruct (Z.ltb_spec s (2 ^ w)); [|lia]. cbn [negb orb] in H3.
  apply andb_prop in H3 as [? ?]. lia.
Qed.

Lemma WriteCPU1_shiftInv (m m' : Mapper1) (addr val c : Z) :
  shiftInv m -> WriteCPU1 addr val m = Some (c, m') -> shiftInv m'.
Proof.
  unfold shiftInv. intros [Hw Hs] Hwr. unfold WriteCPU1 in Hwr.
  destruct (addr <? 0x8000).
  { option_step Hwr. by simplify_eq. }
  destruct (Z.land val 0x80 =? 0x80).
  { simplify_eq. cbn. lia. }
  cbn [whichBit set_whichBit set_shiftReg shiftReg] in Hwr.
  assert (u8 (whichBit m + 1) = whichBit m + 1) as Hu
    by (unfold u8; apply Z.mod_small; lia).
  rewrite Hu in Hwr.
  destruct (Z.ltb_spec (whichBit m + 1) 5).
  - simplify_eq. cbn. split; [lia|].
    apply shift_bound; [lia|done|apply land_1_cases].
  - option_step Hwr. simplify_eq. cbn.
    enough (whichBit m0 = 0) as -> by (cbn; lia).
    repeat case_match.
    + by simplify_eq.
    + erewrite remap_whichBit; [|eauto]. done.
    + erewrite remap_whichBit; [|eauto]. done.
    + erewrite remap_whichBit; [|eauto]. done.
Qed.

(** X12.  Whatever is written to an MMC1 that [NewMapper1] built, the bit counter stays below 5 and the shift register holds only that many bits. *)
Theorem mmc1_shift_register_invariant (nf : NesFile) (m m' : Mapper1)
    (ws : list (Z * Z)) :
  NewMapper1 nf = Some m ->
  writeAll ws (IsMapper1 m) = Some (IsMapper1 m') ->
  shiftInv m'.
Proof.
  intros Hnew Hws.
  assert (shiftInv m) as Hinv.
  { unfold NewMapper1 in Hnew. repeat option_step Hnew.
    simplify_eq. unfold shiftInv. cbn. lia. }
  clear Hnew. revert m Hinv Hws.
  induction ws as [|[a v] ws IH]; intros m Hinv Hws; cbn in Hws.
  - by simplify_eq.
  - destruct (WriteCPU1 a v m) as [[c m1]|] eqn:E; [|done]. cbn in Hws.
    eapply IH; [|done]. by eapply WriteCPU1_shiftInv.
Qed.

Lemma mmc1_shift_register_invariant_witness :
  exists m',
    writeAll [(0x8000, 1); (0xe000, 1); (0x8000, 0x80); (0xa000, 0)]
      (IsMapper1 (examples.mmc1 (fill 0x2000 0))) = Some (IsMapper1 m') /\
    shiftInv m'.
Proof.
  assert (NewMapper1 examples.mmc1File = Some (examples.mmc1 (fill 0x2000 0)))
    as Hnew by (vm_compute; reflexivity).
  assert (isMapper1 <$> writeAll [(0x8000, 1); (0xe000, 1); (0x8000, 0x80); (0xa000, 0)]
            (IsMapper1 (examples.mmc1 (fill 0x2000 0))) = Some true) as Hrun
    by (vm_compute; reflexivity).
  destruct (writeAll _ (IsMapper1 (examples.mmc1 (fill 0x2000 0))))
    as [[|m'| |]|] eqn:Hws; try discriminate Hrun.
  exists m'. split; [reflexivity|].
  exact (mmc1_shift_register_invariant _ _ _ _ Hnew Hws).
Defined.

End MapperExtras.

(** ** PPU: the registers *)

Section PpuRegisterExtras.
Import mapper ppu notions.

(** X13.  Two writes [hi], [lo] to PPUADDR with the latch clear set the address counter (and loopyT) to [(hi mod 64) * 256 + lo] and clear the latch again. *)
Theorem ppuaddr_two_writes (p : PPU) (cm : Mapper) (hi lo : Z) :
  addressLatch p = 0 -> 0 <= hi < 0x100 -> 0 <= lo < 0x100 ->
  exists p1 p2,
    WriteRegister PPUADDR hi p cm = Some (p1, cm) /\
    WriteRegister PPUADDR lo p1 cm = Some (p2, cm) /\
    loopyV p2 = 0x100 * (hi mod 0x40) + lo /\
    loopyT p2 = loopyV p2 /\ addressLatch p2 = 0.
Proof.
  intros Hl Hhi Hlo. unfold WriteRegister.
  change (Z.land PPUADDR 0x2007) with 0x2006. cbv iota. rewrite Hl.
  change (0 =? 0) with true. cbv iota zeta.
  eexists. eexists. split; [reflexivity|].
  cbn [addressLatch set_addressLatch set_loopyT loopyT]. change (1 =? 0) with false.
  cbv iota. split; [reflexivity|].
  cbn [addressLatch set_addressLatch set_loopyT set_loopyV loopyT loopyV].
  split; [|done].
  rewrite Z.land_lor_distr_l, <-Z.land_assoc.
  change (Z.land 0xff 0xff00) with 0. rewrite Z.land_0_r, Z.lor_0_l.
  assert (forallb (fun hi => forallb (fun lo =>
            Z.lor (Z.land (u16 (Z.shiftl (Z.land hi 0x3f) 8)) 0xff00) lo
              =? 0x100 * (hi mod 0x40) + lo) (upto 0x100)) (upto 0x100) = true)
    as Hall by (vm_compute; reflexivity).
  pose proof (forallb_upto _ _ Hall hi Hhi) as H1. cbv beta in H1.
  pose proof (forallb_upto _ _ H1 lo Hlo) as H2. cbv beta in H2. lia.
Qed.

Lemma ppuaddr_two_writes_witness :
  exists p1 p2,
    WriteRegister PPUADDR 0x21 (NewPPU (wrapper.NewWindow 1 256))
      examples.nromMapper = Some (p1, examples.nromMapper) /\
    WriteRegister PPUADDR 0x08 p1 examples.nromMapper
      = Some (p2, examples.nromMapper) /\
    loopyV p2 = 0x2108.
Proof.
  assert (addressLatch (NewPPU (wrapper.NewWindow 1 256)) = 0) as Hl
    by reflexivity.
  assert (0 <= 0x21 < 0x100) as Hhi by lia.
  assert (0 <= 0x08 < 0x100) as Hlo by lia.
  destruct (ppuaddr_two_writes _ examples.nromMapper _ _ Hl Hhi Hlo)
    as (p1 & p2 & H1 & H2 & Hv & _).
  exists p1, p2. split; [exact H1|]. split; [exact H2|exact Hv].
Defined.

(** X14.  A read of PPUSTATUS returns the status, clears only its bit 7 and resets the write latch, whatever it was: the two PPUSCROLL writes [x], [y] that follow set fine X to [x mod 8], coarse X to [x / 8], fine Y to [y mod 8] and coarse Y to [y / 8] in loopyT, and leave the nametable bits and loopyV alone. *)
Theorem status_read_restarts_scroll_pair (p : PPU) (cm : Mapper) (x y : Z) :
  0 <= x < 0x100 -> 0 <= y < 0x100 ->
  exists p0 p1 p2,
    ReadRegister PPUSTATUS p cm = Some (ppuStatus p, p0) /\
    ppuStatus p0 = Z.land (ppuStatus p) 0x7f /\
    WriteRegister PPUSCROLL x p0 cm = Some (p1, cm) /\
    WriteRegister PPUSCROLL y p1 cm = Some (p2, cm) /\
    loopyX p2 = x mod 8 /\ coarseX (loopyT p2) = x / 8 /\
    fineY (loopyT p2) = y mod 8 /\ coarseY (loopyT p2) = y / 8 /\
    nametableSelect (loopyT p2) = nametableSelect (loopyT p) /\
    addressLatch p2 = 0 /\ loopyV p2 = loopyV p.
Proof.
  intros Hx Hy. unfold ReadRegister, WriteRegister.
  change (Z.land PPUSTATUS 0x2007) with 0x2002.
  change (Z.land PPUSCROLL 0x2007) with 0x2005. cbv iota zeta.
  eexists. eexists. eexists. split; [reflexivity|]. split; [reflexivity|].
  cbn [addressLatch set_addressLatch set_ppuStatus]. change (0 =? 0) with true.
  cbv iota. split; [reflexivity|].
  cbn [addressLatch set_addressLatch set_loopyT set_loopyX]. change (1 =? 0) with false.
  cbv iota. split; [reflexivity|].
  cbn [addressLatch set_addressLatch set_loopyT set_loopyX set_ppuStatus
       loopyT loopyX loopyV].
  set (K := fun x y : Z =>
    Z.lor (Z.lor (Z.land (Z.land 0x1f (Z.shiftr x 3)) (not16 0x73e0))
                 (u16 (Z.shiftl (Z.land y 7) 12)))
          (u16 (Z.shiftl (Z.land y 0xf8) 2))).
  set (M := Z.land (not16 0x1f) (not16 0x73e0)).
  match goal with |- context [coarseX ?t] =>
    assert (t = Z.lor (Z.land (loopyT p) M) (K x y)) as -> end.
  { unfold K, M. rewrite Z.land_lor_distr_l, <-Z.land_assoc, <-!Z.lor_assoc. done. }
  assert (forallb (fun x => forallb (fun y =>
            (Z.land x 7 =? x mod 8) &&
            (coarseX (K x y) =? x / 8) && (fineY (K x y) =? y mod 8) &&
            (coarseY (K x y) =? y / 8) && (nametableSelect (K x y) =? 0))
            (upto 0x100)) (upto 0x100) = true) as Hall by (vm_compute; reflexivity).
  pose proof (forallb_upto _ _ Hall x Hx) as F1. cbv beta in F1.
  pose proof (forallb_upto _ _ F1 y Hy) as F. cbv beta in F.
  repeat (apply andb_prop in F as [F ?]).
  repeat match goal with H : (_ =? _) = true |- _ => apply Z.eqb_eq in H end.
  clearbody K. unfold coarseX, coarseY, fineY, nametableSelect in *.
  rewrite !Z.shiftr_lor, !Z.shiftr_land, !Z.land_lor_distr_l, <-!Z.land_assoc.
  change (Z.land M 31) with 0. change (Z.land (Z.shiftr M 12) 7) with 0.
  change (Z.land (Z.shiftr M 5) 31) with 0. change (Z.land (Z.shiftr M 10) 3) with 3.
  rewrite !Z.land_0_r, !Z.lor_0_l.
  repeat split; try done.
  match goal with H : Z.land (Z.shiftr (K x y) 10) 3 = 0 |- _ => rewrite H end.
  by rewrite Z.lor_0_r.
Qed.

Lemma status_read_restarts_scroll_pair_witness :
  exists p0 p1 p2,
    ReadRegister PPUSTATUS examples.scrollPPU examples.nromMapper
      = Some (0, p0) /\
    WriteRegister PPUSCROLL 0x7d p0 examples.nromMapper
      = Some (p1, examples.nromMapper) /\
    WriteRegister PPUSCROLL 0x5e p1 examples.nromMapper
      = Some (p2, examples.nromMapper) /\
    loopyX p2 = 5 /\ coarseX (loopyT p2) = 15 /\
    fineY (loopyT p2) = 6 /\ coarseY (loopyT p2) = 11.
Proof.
  assert (0 <= 0x7d < 0x100) as Hx by lia.
  assert (0 <= 0x5e < 0x100) as Hy by lia.
  destruct (status_read_restarts_scroll_pair examples.scrollPPU
              examples.nromMapper _ _ Hx Hy)
    as (p0 & p1 & p2 & H0 & _ & H1 & H2 & Hfx & Hcx & Hfy & Hcy & _).
  exists p0, p1, p2. split; [exact H0|]. split; [exact H1|].
  split; [exact H2|]. split; [exact Hfx|]. split; [exact Hcx|].
  split; [exact Hfy|exact Hcy].
Defined.

(** X15.  Below 0x3F00 a read of PPUDATA returns the read buffer and refills it: of two reads in a row the first returns the old buffer and the second the byte at the address of the first; the address advances by 1 or by 32 as bit 2 of PPUCTRL says. *)
Theorem ppudata_reads_lag_by_one (p p1 p2 : PPU) (cm : Mapper) (v1 v2 : Z) :
  loopyV p < 0x3f00 -> loopyV p1 < 0x3f00 ->
  ReadRegister PPUDATA p cm = Some (v1, p1) ->
  ReadRegister PPUDATA p1 cm = Some (v2, p2) ->
  v1 = bufferedReadData p /\
  MapperReadPPU (loopyV p) cm = Some v2 /\
  loopyV p1 = u16 (loopyV p + (if Z.land (ppuCtrl p) 4 =? 0 then 1 else 32)).
Proof.
  intros Hv Hv1. unfold ReadRegister.
  change (Z.land PPUDATA 0x2007) with 0x2007. cbv iota zeta.
  destruct (Z.ltb_spec (loopyV p) 0x3f00); [|lia].
  destruct (Z.ltb_spec (loopyV p1) 0x3f00); [|lia].
  intros H1 H2.
  destruct (MapperReadPPU (loopyV p) cm) as [d|] eqn:E; [|done].
  cbn [mbind option_bind] in H1. simplify_eq.
  destruct (MapperReadPPU (loopyV (incVRAMAddress _)) cm) as [d1|] eqn:E1; [|done].
  cbn [mbind option_bind] in H2. simplify_eq.
  unfold incVRAMAddress. cbn [ppuCtrl set_bufferedReadData].
  destruct (Z.land (ppuCtrl p) 4 =? 0); cbn; done.
Qed.

Lemma ppudata_reads_lag_by_one_witness :
  exists (v1 v2 : Z) (p1 p2 : PPU),
    ReadRegister PPUDATA inputs.vramPPU examples.solidMapper = Some (v1, p1) /\
    ReadRegister PPUDATA p1 examples.solidMapper = Some (v2, p2) /\
    v1 = 0 /\ MapperReadPPU 0x2000 examples.solidMapper = Some v2 /\
    loopyV p1 = 0x2001.
Proof.
  assert ((r1 ← ReadRegister PPUDATA inputs.vramPPU examples.solidMapper;
           r2 ← ReadRegister PPUDATA r1.2 examples.solidMapper;
           Some (loopyV r1.2)) = Some 0x2001) as Hrun
    by (vm_compute; reflexivity).
  destruct (ReadRegister PPUDATA inputs.vramPPU examples.solidMapper)
    as [[v1 p1]|] eqn:H1; [|discriminate Hrun].
  cbn [mbind option_bind snd] in Hrun.
  destruct (ReadRegister PPUDATA p1 examples.solidMapper)
    as [[v2 p2]|] eqn:H2; [|discriminate Hrun].
  cbn [mbind option_bind] in Hrun. injection Hrun as Hv1.
  assert (loopyV inputs.vramPPU < 0x3f00) as Hb by (vm_compute; reflexivity).
  assert (loopyV p1 < 0x3f00) as Hb1 by (rewrite Hv1; lia).
  destruct (ppudata_reads_lag_by_one _ _ _ _ _ _ Hb Hb1 H1 H2) as (E1 & E2 & _).
  exists v1, v2, p1, p2. split; [reflexivity|]. split; [exact H2|].
  split; [exact E1|]. split; [exact E2|exact Hv1].
Defined.

(** X16.  A write to OAMDATA stores at OAMADDR and advances it by one modulo 256; a read of OAMDATA does not advance it, so that after setting OAMADDR again the byte is read back. *)
Theorem oam_write_then_read (p : PPU) (cm : Mapper) (a v : Z) :
  length (oamData p) = 256%nat -> 0 <= a < 0x100 ->
  exists p1 p2 p3,
    WriteRegister OAMADDR a p cm = Some (p1, cm) /\
    WriteRegister OAMDATA v p1 cm = Some (p2, cm) /\
    oamAddr p2 = (a + 1) mod 0x100 /\
    WriteRegister OAMADDR a p2 cm = Some (p3, cm) /\
    ReadRegister OAMDATA p3 cm = Some (v, p3).
Proof.
  intros Hlen Ha. unfold ReadRegister, WriteRegister.
  change (Z.land OAMADDR 0x2007) with 0x2003.
  change (Z.land OAMDATA 0x2007) with 0x2004. cbv iota.
  eexists. eexists. eexists. split; [reflexivity|].
  cbn [oamAddr oamData set_oamAddr set_oamData].
  rewrite setb_Some by lia. cbn [mbind option_bind].
  split; [reflexivity|]. split; [reflexivity|]. split; [reflexivity|].
  cbn [oamAddr oamData set_oamAddr set_oamData].
  unfold getb. destruct (Z.ltb_spec a 0); [lia|].
  rewrite list_lookup_insert_eq by lia. done.
Qed.

Lemma oam_write_then_read_witness :
  exists p1 p2 p3,
    WriteRegister OAMADDR 0xff (NewPPU (wrapper.NewWindow 1 256))
      examples.nromMapper = Some (p1, examples.nromMapper) /\
    WriteRegister OAMDATA 0x42 p1 examples.nromMapper
      = Some (p2, examples.nromMapper) /\
    oamAddr p2 = 0 /\
    WriteRegister OAMADDR 0xff p2 examples.nromMapper
      = Some (p3, examples.nromMapper) /\
    ReadRegister OAMDATA p3 examples.nromMapper = Some (0x42, p3).
Proof.
  assert (length (oamData (NewPPU (wrapper.NewWindow 1 256))) = 256%nat)
    as Hlen by (vm_compute; reflexivity).
  assert (0 <= 0xff < 0x100) as Ha by lia.
  exact (oam_write_then_read _ examples.nromMapper _ 0x42 Hlen Ha).
Defined.

(** X17.  [SpriteDMA] replaces the whole OAM by the first 256 bytes of its source and panics on a shorter source. *)
Theorem SpriteDMA_needs_256_bytes (p : PPU) (src : list Z) :
  length (oamData p) = 256%nat ->
  if (256 <=? length src)%nat
  then SpriteDMA src p = Some (set_oamData (take 256 src) p)
  else SpriteDMA src p = None.
Proof.
  intros Hlen. unfold SpriteDMA. rewrite Hlen.
  destruct (Nat.leb_spec 256 (length src)) as [Hs|Hs].
  - rewrite Nat.min_l by done. change (256 =? 256)%nat with true. cbv iota.
    rewrite drop_ge by lia. by rewrite app_nil_r.
  - rewrite Nat.min_r by lia.
    destruct (Nat.eqb_spec (length src) 256); [lia|done].
Qed.

Lemma SpriteDMA_needs_256_bytes_witness :
  SpriteDMA (fill 255 1) (NewPPU (wrapper.NewWindow 1 256)) = None /\
  oamData <$> SpriteDMA (fill 300 1) (NewPPU (wrapper.NewWindow 1 256))
    = Some (fill 256 1).
Proof.
  assert (length (oamData (NewPPU (wrapper.NewWindow 1 256))) = 256%nat)
    as Hlen by (vm_compute; reflexivity).
  pose proof (SpriteDMA_needs_256_bytes _ (fill 255 1) Hlen) as H1.
  pose proof (SpriteDMA_needs_256_bytes _ (fill 300 1) Hlen) as H2.
  assert ((256 <=? length (fill 255 1%Z))%nat = false) as E1
    by (vm_compute; reflexivity).
  assert ((256 <=? length (fill 300 1%Z))%nat = true) as E2
    by (vm_compute; reflexivity).
  rewrite E1 in H1. rewrite E2 in H2.
  split; [exact H1|]. rewrite H2. vm_compute. reflexivity.
Defined.

(** X18.  After [EnterVBlankShouldNMI] the first read of PPUSTATUS shows bit 7 and the next one does not; the NMI request it returns is bit 7 of PPUCTRL. *)
Theorem vblank_flag_read_once (p : PPU) (cm : Mapper) :
  let p0 := snd (EnterVBlankShouldNMI p) in
  exists v1 p1 v2 p2,
    ReadRegister PPUSTATUS p0 cm = Some (v1, p1) /\
    ReadRegister PPUSTATUS p1 cm = Some (v2, p2) /\
    Z.testbit v1 7 = true /\ Z.testbit v2 7 = false /\
    fst (EnterVBlankShouldNMI p) = Z.testbit (ppuCtrl p) 7.
Proof.
  unfold EnterVBlankShouldNMI, ReadRegister.
  change (Z.land PPUSTATUS 0x2007) with 0x2002. cbv iota zeta.
  cbn [snd fst ppuStatus set_ppuStatus set_addressLatch ppuCtrl].
  eexists. eexists. eexists. eexists.
  split; [reflexivity|]. split; [reflexivity|].
  split; [|split].
  - rewrite Z.lor_spec. change (Z.testbit 0x80 7) with true. apply orb_true_r.
  - cbn [ppuStatus set_ppuStatus set_addressLatch].
    rewrite Z.land_spec. change (Z.testbit 0x7f 7) with false. apply andb_false_r.
  - change 0x80 with (2 ^ 7). rewrite land_pow2 by lia.
    by destruct (Z.testbit (ppuCtrl p) 7).
Qed.

End PpuRegisterExtras.

(** ** PPU: rendering *)

Section RenderExtras.
Import mapper ppu props notions.

(** X19.  [getPixel] combines bit [7 - x] of the two pattern bytes: plane 0 gives bit 0 of the colour and plane 1 gives bit 1. *)
Theorem getPixel_planes (tileBit0 tileBit1 x : Z) :
  0 <= tileBit0 < 0x100 -> 0 <= tileBit1 < 0x100 -> 0 <= x < 8 ->
  getPixel tileBit0 tileBit1 x = bit tileBit0 (7 - x) + 2 * bit tileBit1 (7 - x).
Proof.
  intros H0 H1 Hx.
  set (P := fun v : Z =>
    let x := v / 0x100 in
    let b := v mod 0x100 in
    (Z.land (Z.shiftr b (u8 (7 - u8 x))) 1 =? bit b (7 - x)) &&
    ((if x =? 7 then Z.land 2 (u8 (Z.shiftl b 1))
      else Z.land 2 (Z.shiftr b (u8 (6 - u8 x)))) =? 2 * bit b (7 - x))).
  assert (forall v, 0 <= v < 0x100 * 8 -> P v = true) as Hall
    by (apply forallb_upto2; vm_compute; reflexivity).
  pose proof (Hall (0x100 * x + tileBit0) ltac:(lia)) as F0.
  pose proof (Hall (0x100 * x + tileBit1) ltac:(lia)) as F1.
  unfold P in F0, F1. cbv zeta in F0, F1.
  destruct (divmod_256 x tileBit0 H0) as [Hd0 Hm0].
  destruct (divmod_256 x tileBit1 H1) as [Hd1 Hm1].
  rewrite Hd0, Hm0 in F0. rewrite Hd1, Hm1 in F1.
  apply andb_prop in F0 as [F0 _]. apply andb_prop in F1 as [_ F1].
  apply Z.eqb_eq in F0, F1.
  unfold getPixel. cbv zeta. rewrite F0.
  destruct (x =? 7); rewrite F1; unfold bit;
    by destruct (Z.testbit tileBit0 _), (Z.testbit tileBit1 _).
Qed.

Lemma getPixel_planes_witness : getPixel 0x80 0x80 0 = 3 /\ getPixel 0x01 0x00 7 = 1.
Proof.
  assert (0 <= 0x80 < 0x100) as Ha by lia.
  assert (0 <= 0x01 < 0x100) as Hb by lia.
  assert (0 <= 0x00 < 0x100) as Hc by lia.
  assert (0 <= 0 < 8) as H0 by lia.
  assert (0 <= 7 < 8) as H7 by lia.
  split.
  - exact (getPixel_planes 0x80 0x80 0 Ha Ha H0).
  - exact (getPixel_planes 0x01 0x00 7 Hb Hc H7).
Defined.

Lemma incrementFineY_loopyV (p q : PPU) :
  loopyV p = loopyV q ->
  loopyV (incrementFineY p) = loopyV (incrementFineY q).
Proof.
  intros Hv. unfold incrementFineY. rewrite Hv.
  destruct (negb _); [done|].
  cbn [loopyV set_loopyV]. rewrite ?Hv.
  destruct (_ =? 29); [cbn [loopyV set_loopyV]; by rewrite ?Hv|].
  destruct (_ =? 31); cbn [loopyV set_loopyV]; by rewrite ?Hv.
Qed.

(** X20.  On a 15-bit address [incrementFineY] adds one to fine Y; from fine Y 7 it goes to fine Y 0 and the next coarse Y, where row 29 wraps to 0 and switches the vertical nametable and row 31 wraps to 0 without switching. *)
Theorem incrementFineY_fields (p : PPU) :
  0 <= loopyV p < 0x8000 ->
  let v := loopyV p in
  loopyV (incrementFineY p)
    = if fineY v <? 7 then v + 0x1000
      else scrollAddress 0
             (if coarseY v =? 29 then Z.lxor (nametableSelect v) 2
              else nametableSelect v)
             (if (coarseY v =? 29) || (coarseY v =? 31) then 0
              else coarseY v + 1)
             (coarseX v).
Proof.
  intros Hv v.
  rewrite (incrementFineY_loopyV p (barePPU v)) by done.
  apply Z.eqb_eq.
  apply (forallb_upto2 (fun v =>
    loopyV (incrementFineY (barePPU v))
    =? if fineY v <? 7 then v + 0x1000
       else scrollAddress 0
              (if coarseY v =? 29 then Z.lxor (nametableSelect v) 2
               else nametableSelect v)
              (if (coarseY v =? 29) || (coarseY v =? 31) then 0
               else coarseY v + 1)
              (coarseX v)) 0x80); [|done].
  vm_compute. reflexivity.
Qed.

Lemma incrementFineY_fields_witness :
  loopyV (incrementFineY (barePPU 0x73a5)) = 0x0805 /\
  loopyV (incrementFineY (barePPU 0x23a5)) = 0x33a5.
Proof.
  assert (0 <= loopyV (barePPU 0x73a5) < 0x8000) as Ha by (cbn; lia).
  assert (0 <= loopyV (barePPU 0x23a5) < 0x8000) as Hb by (cbn; lia).
  split.
  - exact (incrementFineY_fields (barePPU 0x73a5) Ha).
  - exact (incrementFineY_fields (barePPU 0x23a5) Hb).
Defined.

Lemma withinLine_refl (p : PPU) : withinLine p p.
Proof. by unfold withinLine, sameRegisters. Qed.

Lemma withinLine_trans (p q r : PPU) :
  withinLine p q -> withinLine q r -> withinLine p r.
Proof.
  unfold withinLine, sameRegisters.
  intros ((A1&A2&A3&A4&A5&A6&A7&A8&A9)&A10&A11&A12)
         ((B1&B2&B3&B4&B5&B6&B7&B8&B9)&B10&B11&B12).
  rewrite A1, A2, A3, A4, A5, A6, A7, A8, A9, A10, A11.
  repeat split; try done. intros k Hk. by rewrite A12, B12.
Qed.

Lemma backgroundColumn_withinLine (cartMapper : Mapper) (base i : Z)
    (p p' : PPU) (out out' : list Z) :
  backgroundColumn cartMapper base i (p, out) = Some (p', out') ->
  withinLine p' p.
Proof.
  unfold backgroundColumn. intros Hc.
  repeat option_step Hc.
  injection Hc as <- <-. unfold withinLine, sameRegisters.
  repeat case_match; done.
Qed.

Lemma incrementFineY_withinLine (p : PPU) : withinLine (incrementFineY p) p.
Proof.
  unfold incrementFineY, withinLine, sameRegisters.
  repeat case_match; simplify_eq; done.
Qed.

Lemma renderBackground_withinLine (cartMapper : Mapper) (p p' : PPU)
    (out out' : list Z) :
  renderBackground out p cartMapper = Some (p', out') -> withinLine p' p.
Proof.
  unfold renderBackground. intros Hr.
  match type of Hr with
  | context [forM ?body ?l ?s] => destruct (forM body l s) as [[p1 o1]|] eqn:E
  end; [|done].
  simpl in Hr. simplify_eq.
  apply (forM_inv (fun s => withinLine (fst s) p)) in E;
    [|intros i [x o] [x' o'] _ I Hb|apply withinLine_refl].
  - eapply withinLine_trans; [apply incrementFineY_withinLine|exact E].
  - eapply withinLine_trans; [|exact I].
    by eapply backgroundColumn_withinLine.
Qed.

Lemma reloadLoopyV_withinLine (p : PPU) : withinLine (reloadLoopyV p) p.
Proof. unfold reloadLoopyV, withinLine, sameRegisters. by case_match. Qed.

Lemma spritePixel_withinLine (i : Z) (row : SpriteRow) (background : list Z)
    (x : Z) (s s' : SpriteLine) :
  spritePixel i row background x s = Some s' ->
  withinLine (sl_ppu s') (sl_ppu s).
Proof.
  unfold spritePixel. intros Hp.
  repeat (case_match; simplify_option_eq); try apply withinLine_refl.
  all: unfold withinLine, sameRegisters; cbn; repeat split; try done.
  all: intros k Hk; rewrite Z.lor_spec; change 0x40 with (2 ^ 6);
    destruct (Z.ltb_spec k 0); [by rewrite !Z.testbit_neg_r by done|];
    rewrite Z.pow2_bits_false by lia; apply orb_false_r.
Qed.

Lemma renderSprites_withinLine (cartMapper : Mapper) (out : list Z)
    (priorityOut : list bool) (background : list Z) (p : PPU)
    (sl : SpriteLine) :
  renderSprites out priorityOut background p cartMapper = Some sl ->
  withinLine (sl_ppu sl) p.
Proof.
  unfold renderSprites. intros Hr.
  apply (forM_inv (fun t => withinLine (sl_ppu t) p)) in Hr;
    [done| |apply withinLine_refl].
  intros i t t' _ I Hp. unfold renderSprite in Hp.
  destruct (fetchSprite cartMapper (sl_ppu t) i) as [[row|]|];
    cbn [mbind option_bind] in Hp; [| |done].
  2:{ by simplify_eq. }
  apply (forM_inv (fun u => withinLine (sl_ppu u) p)) in Hp; [done| |done].
  intros x u u' _ Iu Hu. eapply withinLine_trans; [|exact Iu].
  by eapply spritePixel_withinLine.
Qed.

(** X21.  A scan line that renders without a panic advances the scan line counter by one and changes neither PPUCTRL, PPUMASK, OAM, OAMADDR, the palette, loopyT, the write latch nor the read buffer; of the status register it can change only bit 6. *)
Theorem RenderScanLine_leaves_registers (Palette : list Color)
    (cartMapper : Mapper) (p p' : PPU) :
  RenderScanLine Palette p cartMapper = Some p' ->
  sameRegisters p' p /\
  scanLineCounter p' = u16 (scanLineCounter p + 1) /\
  forall k, k <> 6 -> Z.testbit (ppuStatus p') k = Z.testbit (ppuStatus p) k.
Proof.
  unfold RenderScanLine. intros Hr.
  destruct (negb (shouldRenderBackground p) && negb (shouldRenderSprites p)).
  { repeat option_step Hr. injection Hr as <-. by unfold sameRegisters. }
  unfold renderRows in Hr.
  pose proof (reloadLoopyV_withinLine p) as H0.
  set (q := reloadLoopyV p) in *. clearbody q.
  assert (exists q1 background,
    (if shouldRenderBackground q
     then renderBackground (fill 256 0) q cartMapper
     else Some (q, fill 256 0)) = Some (q1, background) /\ withinLine q1 p)
    as (q1 & background & Hbg & H1).
  { destruct (shouldRenderBackground q).
    - destruct (renderBackground _ q cartMapper) as [[q1 bgr]|] eqn:E; [|done].
      exists q1, bgr. split; [done|].
      eapply withinLine_trans; [|exact H0]. by eapply renderBackground_withinLine.
    - by exists q, (fill 256 0). }
  rewrite Hbg in Hr. cbn [mbind option_bind] in Hr.
  option_step Hr.
  assert (withinLine (sl_ppu s) p) as H2.
  { destruct (shouldRenderSprites q1).
    - eapply withinLine_trans; [|exact H1]. by eapply renderSprites_withinLine.
    - by simplify_eq. }
  option_step Hr. injection Hr as <-.
  destruct H2 as (Hregs & Hsl & Hw & Hst).
  cbn [scanLineCounter set_scanLineCounter set_window ppuStatus].
  rewrite Hsl. split; [|done]. revert Hregs. by unfold sameRegisters.
Qed.

Lemma RenderScanLine_leaves_registers_witness :
  exists p',
    RenderScanLine examples.blackPalette examples.hitPPU examples.solidMapper
      = Some p' /\
    sameRegisters p' examples.hitPPU /\ scanLineCounter p' = 2.
Proof.
  assert (scanLineCounter <$>
            RenderScanLine examples.blackPalette examples.hitPPU
              examples.solidMapper = Some 2) as Hrun
    by (vm_compute; reflexivity).
  destruct (RenderScanLine examples.blackPalette examples.hitPPU
              examples.solidMapper) as [p'|] eqn:Hr; [|discriminate Hrun].
  destruct (RenderScanLine_leaves_registers _ _ _ _ Hr) as (Hregs & Hsl & _).
  exists p'. split; [reflexivity|]. split; [exact Hregs|exact Hsl].
Defined.

Lemma spritePixel_keeps_claimed (i : Z) (row : SpriteRow) (background : list Z)
    (x : Z) (s s' : SpriteLine) (j o : Z) :
  spritePixel i row background x s = Some s' ->
  getb (sl_out s) j = Some o -> isBG o = false ->
  getb (sl_out s') j = Some o /\
  getb (sl_priorityOut s') j = getb (sl_priorityOut s) j.
Proof.
  unfold spritePixel. intros Hp Hj Ho.
  assert (0 <= j) as Hj0.
  { unfold getb in Hj. destruct (Z.ltb_spec j 0); [done|lia]. }
  destruct (256 <=? spriteXOut row x); [by simplify_eq|].
  destruct (_ && _) in Hp; [by simplify_eq|].
  destruct (getb (sl_out s) (spriteXOut row x)) as [o'|] eqn:Hx;
    cbn [mbind option_bind] in Hp; [|done].
  destruct (isBG o') eqn:Ho'; cbn [negb] in Hp; [|by simplify_eq].
  assert (spriteXOut row x <> j) as Hne
    by (intros Heq; rewrite Heq in Hx; congruence).
  destruct (setb (sl_priorityOut s) _ _) as [pr|] eqn:Hpr;
    cbn [mbind option_bind] in Hp; [|done].
  destruct (setb (sl_out s) _ _) as [out|] eqn:Hout;
    cbn [mbind option_bind] in Hp; [|done].
  option_step Hp. injection Hp as <-. cbn [sl_out sl_priorityOut].
  split.
  - by rewrite (getb_setb_ne _ _ _ _ _ Hout Hj0 Hne).
  - by rewrite (getb_setb_ne _ _ _ _ _ Hpr Hj0 Hne).
Qed.

(** X22.  Once a sprite has drawn a non-transparent pixel, no sprite that the loop handles later changes that pixel or its priority: the sprite with the lower index wins. *)
Theorem earlier_sprite_wins (cartMapper : Mapper) (background : list Z)
    (sprites : list Z) (s s' : SpriteLine) (j o : Z) :
  forM (renderSprite cartMapper background) sprites s = Some s' ->
  getb (sl_out s) j = Some o -> isBG o = false ->
  getb (sl_out s') j = Some o /\
  getb (sl_priorityOut s') j = getb (sl_priorityOut s) j.
Proof.
  intros Hr Hj Ho.
  apply (forM_inv (fun t =>
           getb (sl_out t) j = Some o /\
           getb (sl_priorityOut t) j = getb (sl_priorityOut s) j)) in Hr;
    [done| |done].
  intros i t t' _ [I1 I2] Hp. unfold renderSprite in Hp.
  destruct (fetchSprite cartMapper (sl_ppu t) i) as [[row|]|];
    cbn [mbind option_bind] in Hp; [| |done].
  2:{ by simplify_eq. }
  apply (forM_inv (fun u =>
           getb (sl_out u) j = Some o /\
           getb (sl_priorityOut u) j = getb (sl_priorityOut s) j)) in Hp;
    [done| |done].
  intros x u u' _ [J1 J2] Hu.
  destruct (spritePixel_keeps_claimed _ _ _ _ _ _ _ _ Hu J1 Ho) as [K1 K2].
  split; [done|]. by rewrite K2.
Qed.

Lemma earlier_sprite_wins_witness :
  exists s',
    forM (renderSprite examples.solidMapper (fill 256 0)) (upto 64)
      inputs.claimedLine = Some s' /\
    getb (sl_out s') 0 = Some 3 /\ getb (sl_out s') 1 = Some 3.
Proof.
  assert ((fun s => getb (sl_out s) 1) <$>
            forM (renderSprite examples.solidMapper (fill 256 0)) (upto 64)
              inputs.claimedLine = Some (Some 3)) as Hrun
    by (vm_compute; reflexivity).
  destruct (forM (renderSprite examples.solidMapper (fill 256 0)) (upto 64)
              inputs.claimedLine) as [s'|] eqn:Hr; [|discriminate Hrun].
  injection Hrun as H1.
  assert (getb (sl_out inputs.claimedLine) 0 = Some 3) as Hj by reflexivity.
  assert (isBG 3 = false) as Ho by reflexivity.
  destruct (earlier_sprite_wins _ _ _ _ _ _ _ Hr Hj Ho) as [H0 _].
  exists s'. split; [reflexivity|]. split; [exact H0|exact H1].
Defined.

End RenderExtras.

(** ** CPU: the stack on the test memory *)

Section StackExtras.
Import cpu cputest props notions.

Lemma push_test (v : Z) (c : CPU MemoryForTesting) :
  push v c
    = Some (tt, set_sp (u8 (sp c - 1))
                  (set_clockCycles (u64 (clockCycles c + 0))
                     (set_mem (store (u16 (0x100 + sp c)) v (mem c)) c))).
Proof. reflexivity. Qed.

Lemma pop_test (c : CPU MemoryForTesting) :
  pop c = Some (byteAt (mem c) (u16 (0x100 + u8 (sp c + 1))),
                set_sp (u8 (sp c + 1)) c).
Proof. 
  unfold pop, modify, get, memRead. cbv [mbind Exec_bind]. cbn.
  unfold byteAt. destruct c; reflexivity. Qed.

Lemma memRead_test (a : Z) (c : CPU MemoryForTesting) :
  memRead a c = Some (byteAt (mem c) a, c).
Proof. unfold memRead. cbn. unfold byteAt. by destruct c. Qed.

Lemma byteAt_store (a b v : Z) (m : MemoryForTesting) :
  byteAt (store a v m) b = if b =? a then v else byteAt m b.
Proof.
  unfold byteAt, store. cbn. destruct (Z.eqb_spec b a) as [->|Hne].
  - by rewrite lookup_insert_eq.
  - by rewrite lookup_insert_ne.
Qed.

Ltac run_test :=
  match goal with
  | |- context [push ?v ?c] => rewrite (push_test v c)
  | |- context [pop ?c] => rewrite (pop_test c)
  | |- context [memRead ?a ?c] => rewrite (memRead_test a c)
  end.

Ltac regs :=
  cbn [ac xr yr st sp pc opRawAddr opAddr mem clockCycles
       set_ac set_xr set_yr set_st set_sp set_pc set_opRawAddr set_opAddr
       set_mem set_clockCycles set].

Lemma stack_slots (s : Z) :
  0 <= s < 0x100 ->
  let a1 := u16 (0x100 + s) in
  let s1 := u8 (s - 1) in
  let a2 := u16 (0x100 + s1) in
  let s2 := u8 (s1 - 1) in
  let a3 := u16 (0x100 + s2) in
  let s3 := u8 (s2 - 1) in
  u8 (s3 + 1) = s2 /\ u8 (s2 + 1) = s1 /\ u8 (s1 + 1) = s /\
  a1 <> a2 /\ a2 <> a3 /\ a1 <> a3 /\
  0x100 <= a1 < 0x200 /\ 0x100 <= a2 < 0x200 /\ 0x100 <= a3 < 0x200.
Proof.
  intros Hs. cbv zeta. unfold u8, u16. 
  repeat split; Z.div_mod_to_equations; lia.
Qed.

Lemma byteAt_above_stack (a1 v1 a2 v2 a3 v3 b : Z) (m : MemoryForTesting) :
  0x100 <= a1 < 0x200 -> 0x100 <= a2 < 0x200 -> 0x100 <= a3 < 0x200 ->
  ~ 0x100 <= b < 0x200 ->
  byteAt (store a3 v3 (store a2 v2 (store a1 v1 m))) b = byteAt m b.
Proof.
  intros. rewrite !byteAt_store.
  destruct (Z.eqb_spec b a3); [lia|]. destruct (Z.eqb_spec b a2); [lia|].
  destruct (Z.eqb_spec b a1); [lia|]. done.
Qed.

(** X23.  On the test memory, [NMI] takes 7 cycles, sets I and jumps to the vector at 0xFFFA; the RTI of the handler then restores PC and SP, and the status with bit 5 set and bit 4 clear; A, X and Y are untouched. *)
Theorem nmi_then_rti_resumes (c : CPU MemoryForTesting) :
  0 <= sp c < 0x100 -> 0 <= pc c < 0x10000 ->
  exists c1 c2,
    NMI c = Some (7, c1) /\
    pc c1 = Z.lor (byteAt (mem c) 0xfffa) (u16 (Z.shiftl (byteAt (mem c) 0xfffb) 8)) /\
    isSet I c1 = true /\
    opRti c1 = Some (tt, c2) /\
    pc c2 = pc c /\ sp c2 = sp c /\
    st c2 = Z.lor ALWAYS_ON (Z.land (st c) (not8 B)) /\
    ac c2 = ac c /\ xr c2 = xr c /\ yr c2 = yr c.
Proof.
  intros Hs Hp.
  destruct (stack_slots (sp c) Hs) as (E3 & E2 & E1 & N12 & N23 & N13 & R1 & R2 & R3).
  cbv zeta in *.
  destruct c as [a x y s p pcv raw oa m cyc dbg]. regs. cbn [sp pc] in *.
  unfold NMI, opRti, pushWord, popWord.
  eexists. eexists. split.
  { cbv [mbind Exec_bind mret Exec_ret modify get].
    repeat (run_test; cbv beta iota; regs). reflexivity. }
  regs. split.
  { change (u16 (vectorNMI + 1)) with 0xfffb. change vectorNMI with 0xfffa.
    rewrite !byteAt_above_stack by (done || lia). done. }
  split.
  { change I with (2 ^ 2). rewrite isSet_testbit by lia. regs.
    by rewrite lor_pow2_testbit by lia. }
  split.
  { cbv [mbind Exec_bind mret Exec_ret modify get].
    repeat (run_test; cbv beta iota; regs). reflexivity. }
  regs. rewrite E3, E2, E1. rewrite !byteAt_store.
  rewrite !Z.eqb_refl.
  destruct (Z.eqb_spec (u16 (256 + u8 (p - 1))) (u16 (256 + u8 (u8 (p - 1) - 1))));
    [lia|].
  destruct (Z.eqb_spec (u16 (256 + p)) (u16 (256 + u8 (u8 (p - 1) - 1)))); [lia|].
  destruct (Z.eqb_spec (u16 (256 + p)) (u16 (256 + u8 (p - 1)))); [lia|].
  rewrite word_bytes by done. done.
Qed.

Lemma nmi_then_rti_resumes_witness :
  exists c1 c2,
    NMI inputs.interruptedCPU = Some (7, c1) /\ pc c1 = 0x9000 /\
    opRti c1 = Some (tt, c2) /\ pc c2 = 0x8000 /\ sp c2 = 0xfd /\ st c2 = 0x24.
Proof.
  assert (0 <= sp inputs.interruptedCPU < 0x100) as Hs by (cbn; lia).
  assert (0 <= pc inputs.interruptedCPU < 0x10000) as Hp by (cbn; lia).
  destruct (nmi_then_rti_resumes inputs.interruptedCPU Hs Hp)
    as (c1 & c2 & Hn & Hpc1 & _ & Hr & Hpc & Hsp & Hst & _).
  exists c1, c2. split; [exact Hn|]. split; [exact Hpc1|]. split; [exact Hr|].
  split; [exact Hpc|]. split; [exact Hsp|exact Hst].
Defined.

(** X24.  On the test memory, JSR jumps to its target in 6 cycles, and an RTS there returns in 6 cycles to the instruction after the JSR with the stack pointer restored, when the target lies outside the stack page. *)
Theorem jsr_then_rts_resumes (c : CPU MemoryForTesting) (target : Z) :
  0 <= sp c < 0x100 -> 0 <= pc c < 0x10000 - 3 ->
  ~ 0x100 <= target < 0x200 ->
  byteAt (mem c) (pc c) = 0x20 ->
  target = Z.lor (byteAt (mem c) (pc c + 1))
                 (u16 (Z.shiftl (byteAt (mem c) (pc c + 2)) 8)) ->
  byteAt (mem c) target = 0x60 ->
  exists c1 c2,
    Interpret c = Some (6, c1) /\ pc c1 = target /\
    Interpret c1 = Some (6, c2) /\ pc c2 = pc c + 3 /\ sp c2 = sp c.
Proof.
  intros Hs Hp Ht Hjsr Htarget Hrts.
  destruct (stack_slots (sp c) Hs) as (E3 & E2 & E1 & N12 & N23 & N13 & R1 & R2 & R3).
  cbv zeta in *.
  destruct c as [a x y s p pcv raw oa m cyc dbg]. regs. cbn [sp pc mem] in *.
  assert (u16 (pcv + 1) = pcv + 1) as U1 by (unfold u16; apply Z.mod_small; lia).
  assert (u16 (pcv + 1 + 1) = pcv + 2) as U2
    by (unfold u16; rewrite Z.mod_small by lia; lia).
  assert (u16 (pcv + 2 + 1) = pcv + 3) as U3
    by (unfold u16; rewrite Z.mod_small by lia; lia).
  assert (u16 (pcv + 3 - 1) = pcv + 2) as U4
    by (unfold u16; rewrite Z.mod_small by lia; lia).
  eexists. eexists. split.
  { unfold Interpret, readPC8.
    cbv [mbind Exec_bind mret Exec_ret modify get].
    regs. run_test. cbv beta iota. regs. cbn [mem]. rewrite Hjsr.
    change (opTable !! 0x20) with (Some (entry "JSR" opJsr 6 0 ABS)).
    cbv beta iota.
    unfold readAddressOfOperand, addrABS, readPC16, readPC8, addCycles, opJsr, pushWord.
    cbn [addressing cycles exec].
    cbv [mbind Exec_bind mret Exec_ret modify get].
    repeat (run_test; cbv beta iota; regs). rewrite ?U1, ?U2, ?U3, ?U4.
    cbn [mem]. rewrite <-Htarget. reflexivity. }
  regs. split; [done|]. split.
  { unfold Interpret, readPC8.
    cbv [mbind Exec_bind mret Exec_ret modify get].
    regs. run_test. cbv beta iota. regs. cbn [mem].
    rewrite !byteAt_store.
    destruct (Z.eqb_spec target (u16 (256 + u8 (p - 1)))); [lia|].
    destruct (Z.eqb_spec target (u16 (256 + p))); [lia|].
    rewrite Hrts.
    change (opTable !! 0x60) with (Some (entry "RTS" opRts 6 0 IMP)).
    cbv beta iota.
    unfold readAddressOfOperand, addCycles, opRts, popWord.
    cbn [addressing cycles exec].
    cbv [mbind Exec_bind mret Exec_ret modify get].
    repeat (run_test; cbv beta iota; regs). reflexivity. }
  regs. rewrite E2, E1. rewrite !byteAt_store. rewrite !Z.eqb_refl.
  destruct (Z.eqb_spec (u16 (256 + p)) (u16 (256 + u8 (p - 1)))); [lia|].
  rewrite word_bytes by lia. split; [|done].
  unfold u16. rewrite Z.mod_small by lia. lia.
Qed.

Lemma jsr_then_rts_resumes_witness :
  exists c1 c2,
    Interpret inputs.jsrCPU = Some (6, c1) /\ pc c1 = 0x9000 /\
    Interpret c1 = Some (6, c2) /\ pc c2 = 0x8003 /\ sp c2 = 0xfd.
Proof.
  assert (0 <= sp inputs.jsrCPU < 0x100) as Hs by (cbn; lia).
  assert (0 <= pc inputs.jsrCPU < 0x10000 - 3) as Hp by (cbn; lia).
  assert (~ 0x100 <= 0x9000 < 0x200) as Ht by lia.
  assert (byteAt (mem inputs.jsrCPU) (pc inputs.jsrCPU) = 0x20) as Hj
    by reflexivity.
  assert (0x9000 = Z.lor (byteAt (mem inputs.jsrCPU) (pc inputs.jsrCPU + 1))
                     (u16 (Z.shiftl (byteAt (mem inputs.jsrCPU)
                                       (pc inputs.jsrCPU + 2)) 8))) as Ha
    by reflexivity.
  assert (byteAt (mem inputs.jsrCPU) 0x9000 = 0x60) as Hr by reflexivity.
  exact (jsr_then_rts_resumes inputs.jsrCPU 0x9000 Hs Hp Ht Hj Ha Hr).
Defined.

End StackExtras.

(** ** CPU: branches, compare, the opcode table *)

Section CpuExtras.
Import cpu props notions.
Context {M : Type} `{MemoryInterface M}.

Lemma sign_extend (off : Z) :
  0 <= off < 0x100 ->
  (if Z.land 0x80 off =? 0x80 then Z.lor off 0xff00 else off)
    = signed8 off + (if off <? 0x80 then 0 else 0x10000).
Proof.
  intros Ho.
  assert (forallb (fun off =>
            (if Z.land 0x80 off =? 0x80 then Z.lor off 0xff00 else off)
            =? signed8 off + (if off <? 0x80 then 0 else 0x10000))
            (upto 0x100) = true) as Hall by (vm_compute; reflexivity).
  pose proof (forallb_upto _ _ Hall off Ho) as F. cbv beta in F. lia.
Qed.

(** X25.  A branch that is not taken changes nothing and does not read its operand; a taken branch reads the operand, moves PC by it as a signed byte (modulo 0x10000) and costs one more cycle, two when the target is on another page. *)
Theorem genericBranch_target (should : CPU M -> bool) (c : CPU M)
    (off : Z) (m' : M) :
  Read (opAddr c) (mem c) = Some (off, m') ->
  0 <= off < 0x100 -> 0 <= pc c < 0x10000 ->
  let target := (pc c + signed8 off) mod 0x10000 in
  let penalty := if target / 0x100 =? pc c / 0x100 then 1 else 2 in
  genericBranch should c
    = Some (tt, if should c
                then set_pc target
                       (set_clockCycles (u64 (clockCycles c + penalty))
                          (set_mem m' c))
                else c).
Proof.
  intros Hr Ho Hp target penalty.
  unfold genericBranch, readOpData, memRead, addCycles, get, modify.
  cbv [mbind Exec_bind mret Exec_ret]. destruct (should c); [|done].
  cbn [negb]. rewrite Hr. cbn [mbind option_bind pc set_mem clockCycles].
  rewrite sign_extend by done.
  assert (u16 (pc c + (signed8 off + (if off <? 0x80 then 0 else 0x10000)))
          = target) as ->.
  { unfold u16, target. destruct (off <? 0x80); [f_equal; lia|].
    replace (pc c + (signed8 off + 0x10000))
      with (pc c + signed8 off + 1 * 0x10000) by lia.
    by rewrite Z.mod_add. }
  pose proof (Z.mod_pos_bound (pc c + signed8 off) 0x10000 ltac:(lia)) as Ht.
  fold target in Ht.
  rewrite !land_0xff00 by done. subst penalty.
  destruct (Z.eqb_spec (target / 0x100) (pc c / 0x100)) as [He|He].
  - rewrite He, Z.eqb_refl. done.
  - destruct (Z.eqb_spec (0x100 * (target / 0x100)) (0x100 * (pc c / 0x100)));
      [lia|done].
Qed.

Lemma setZN_Z (r : Z) (c : CPU M) :
  Z.testbit (st (setZN r c)) 1 = (r =? 0).
Proof.
  unfold setZN. change Z_ with (2 ^ 1). change N with (2 ^ 7).
  destruct (r =? 0), (Z.land r 0x80 =? 0x80); cbn [st set_st];
    repeat (rewrite ?lor_pow2_testbit, ?land_not8_pow2_testbit by lia;
            change (1 =? 7) with false; change (1 =? 1) with true; cbv iota);
    done.
Qed.

Lemma setZN_N (r : Z) (c : CPU M) :
  Z.testbit (st (setZN r c)) 7 = Z.testbit r 7.
Proof.
  unfold setZN. change Z_ with (2 ^ 1). change N with (2 ^ 7).
  change 0x80 with (2 ^ 7). rewrite land_pow2 by lia.
  destruct (Z.testbit r 7); destruct (r =? 0); cbn [st set_st];
    rewrite ?Z.eqb_refl; change (0 =? 2 ^ 7) with false; cbv iota; cbn [st set_st];
    rewrite ?lor_pow2_testbit, ?land_not8_pow2_testbit by lia; done.
Qed.

(** X26.  CMP sets C when the operand is at most A, Z and N from the difference modulo 256, and leaves A and the other flags alone. *)
Theorem opCmp_flags (c c' : CPU M) :
  opCmp c = Some (tt, c') ->
  exists data m',
    Read (opAddr c) (mem c) = Some (data, m') /\
    isSet C c' = (data <=? ac c) /\
    isSet Z_ c' = (u8 (ac c - data) =? 0) /\
    isSet N c' = Z.testbit (u8 (ac c - data)) 7 /\
    ac c' = ac c /\ mem c' = m' /\
    forall k, 2 <= k < 7 -> Z.testbit (st c') k = Z.testbit (st c) k.
Proof.
  unfold opCmp, readOpData, memRead, get, modify.
  cbv [mbind Exec_bind mret Exec_ret]. intros Hc.
  destruct (Read (opAddr c) (mem c)) as [[data m']|]; [|done].
  cbn [mbind option_bind] in Hc. injection Hc as <-.
  exists data, m'. split; [done|].
  change C with (2 ^ 0). change Z_ with (2 ^ 1). change N with (2 ^ 7).
  assert (forall f on (x : CPU M), ac (set f on x) = ac x) as Hac
    by (intros f on x; unfold set; by destruct on).
  rewrite !isSet_testbit by lia. rewrite !Hac. cbn [ac set_mem mem].
  rewrite setZN_Z, setZN_N.
  split.
  { rewrite setZN_testbit by lia. by rewrite set_testbit by lia. }
  split; [done|]. split; [done|].
  split.
  { unfold setZN, set. by repeat case_match. }
  split.
  { unfold setZN, set. by repeat case_match. }
  intros k Hk. rewrite setZN_testbit by lia. rewrite set_testbit by lia.
  destruct (Z.eqb_spec k 0); [lia|done].
Qed.

(** X27.  [opTable] has an entry for every opcode byte except seventeen, and [Interpret] panics when it fetches one of those. *)
Theorem Interpret_panics_on_missing_opcodes (c : CPU M) (op : Z) (m1 : M) :
  Read (pc c) (mem c) = Some (op, m1) -> 0 <= op < 0x100 ->
  (opTable (M:=M) !! op = None <-> op ∈ missingOpcodes) /\
  (op ∈ missingOpcodes -> Interpret c = None).
Proof.
  intros Hr Hop.
  assert (opTable (M:=M) !! op = None <-> op ∈ missingOpcodes) as Hiff.
  { assert (forallb (fun k =>
              eqb (bool_decide (k ∈ (opEntries (M:=M)).*1))
                  (negb (bool_decide (k ∈ missingOpcodes)))) (upto 0x100) = true)
      as Hall by (cbv [opEntries fmap list_fmap fst]; vm_compute; reflexivity).
    pose proof (forallb_upto _ _ Hall op Hop) as F. cbv beta in F.
    apply eqb_prop in F. unfold opTable. split.
    - intros Hnone%not_elem_of_list_to_map_2.
      rewrite (bool_decide_eq_false_2 _ Hnone) in F.
      destruct (decide (op ∈ missingOpcodes)) as [Hin|Hin]; [done|].
      by rewrite (bool_decide_eq_false_2 _ Hin) in F.
    - intros Hin. apply not_elem_of_list_to_map_1.
      rewrite (bool_decide_eq_true_2 _ Hin) in F. cbn [negb] in F.
      by apply bool_decide_eq_false_1 in F. }
  split; [done|]. intros Hin. apply Hiff in Hin.
  unfold Interpret, readPC8, memRead, get, modify.
  cbv [mbind Exec_bind mret Exec_ret].
  cbn [pc mem set_clockCycles]. rewrite Hr.
  cbn [mbind option_bind]. by rewrite Hin.
Qed.

Lemma setZN_frame (r : Z) (x : CPU M) :
  clockCycles (setZN r x) = clockCycles x /\ ac (setZN r x) = ac x /\
  pc (setZN r x) = pc x /\ mem (setZN r x) = mem x.
Proof. unfold setZN. by repeat case_match. Qed.

(** X28.  LDA absolute,X loads the byte at the 16-bit sum of its operand and X, sets Z and N from it, advances PC by 3 and takes 4 cycles, 5 when the low operand byte plus X carries into the next page. *)
Theorem lda_absolute_x_page_cross (c : CPU M) (lo hi d : Z) (m1 m2 m3 m4 : M) :
  0 <= pc c < 0x10000 -> 0 <= xr c < 0x100 ->
  0 <= lo < 0x100 -> 0 <= hi < 0x100 ->
  Read (pc c) (mem c) = Some (0xbd, m1) ->
  Read (u16 (pc c + 1)) m1 = Some (lo, m2) ->
  Read (u16 (pc c + 2)) m2 = Some (hi, m3) ->
  Read (u16 (0x100 * hi + lo + xr c)) m3 = Some (d, m4) ->
  exists c',
    Interpret c = Some (if lo + xr c <? 0x100 then 4 else 5, c') /\
    ac c' = d /\ pc c' = u16 (pc c + 3) /\ mem c' = m4 /\
    isSet Z_ c' = (d =? 0) /\ isSet N c' = Z.testbit d 7.
Proof.
  intros Hpc Hx Hlo Hhi H1 H2 H3 H4.
  assert (u16 (u16 (pc c + 1) + 1) = u16 (pc c + 2)) as U2.
  { unfold u16. rewrite Zplus_mod_idemp_l. f_equal. lia. }
  assert (u16 (u16 (pc c + 2) + 1) = u16 (pc c + 3)) as U3.
  { unfold u16. rewrite Zplus_mod_idemp_l. f_equal. lia. }
  unfold Interpret, readPC8, memRead, get, modify.
  cbv [mbind Exec_bind mret Exec_ret].
  cbn [pc mem set_clockCycles set_mem set_pc].
  rewrite H1. cbn [mbind option_bind pc mem set_clockCycles set_mem set_pc].
  change (opTable !! 0xbd) with (Some (entry "LDA" opLda 4 1 ABSX)).
  cbn [readAddressOfOperand addressing exec cycles extraCycles].
  unfold addrABSX, readPC16, readPC8, pageCross, memRead, get, modify, addCycles,
    opLda, readOpData, memRead, get, modify.
  cbv [mbind Exec_bind mret Exec_ret].
  cbn [pc mem set_clockCycles set_mem set_pc].
  rewrite H2. cbn [mbind option_bind pc mem set_clockCycles set_mem set_pc].
  rewrite U2, H3.
  cbn [mbind option_bind pc mem set_clockCycles set_mem set_pc set_opRawAddr
       set_opAddr opRawAddr opAddr xr].
  rewrite word_of_bytes by done.
  pose proof (Z.mod_pos_bound (0x100 * hi + lo + xr c) 0x10000 ltac:(lia)) as Hb.
  fold (u16 (0x100 * hi + lo + xr c)) in Hb.
  rewrite !land_0xff00 by (done || lia).
  replace ((0x100 * hi + lo) / 0x100) with hi
    by (apply Z.div_unique with lo; lia).
  assert (u16 (0x100 * hi + lo + xr c) / 0x100 = hi <-> lo + xr c < 0x100) as Hpage.
  { unfold u16. Z.div_mod_to_equations. lia. }
  destruct (Z.ltb_spec (lo + xr c) 0x100) as [Hlt|Hge].
  - destruct (Z.eqb_spec (0x100 * hi) (0x100 * (u16 (0x100 * hi + lo + xr c) / 0x100)))
      as [_|Hne]; [|lia].
    cbn [negb mret Exec_ret].
    cbn [mbind option_bind pc mem set_clockCycles set_mem set_pc set_opRawAddr
         set_opAddr opRawAddr opAddr xr clockCycles].
    rewrite H4. cbn [mbind option_bind].
    match goal with |- context [setZN ?r ?x] =>
      destruct (setZN_frame r x) as (Fc & Fa & Fp & Fm) end.
    rewrite Fc. cbn [clockCycles set_ac set_mem set_clockCycles].
    eexists. split; [reflexivity|].
    change Z_ with (2 ^ 1). change N with (2 ^ 7).
    rewrite !isSet_testbit by lia. rewrite setZN_Z, setZN_N, Fa, Fp, Fm.
    cbn [ac pc mem set_ac set_mem set_clockCycles set_opAddr set_opRawAddr set_pc].
    rewrite U3. done.
  - destruct (Z.eqb_spec (0x100 * hi) (0x100 * (u16 (0x100 * hi + lo + xr c) / 0x100)))
      as [He|_]; [lia|].
    cbn [negb].
    cbn [mbind option_bind pc mem set_clockCycles set_mem set_pc set_opRawAddr
         set_opAddr opRawAddr opAddr xr clockCycles].
    rewrite H4. cbn [mbind option_bind].
    match goal with |- context [setZN ?r ?x] =>
      destruct (setZN_frame r x) as (Fc & Fa & Fp & Fm) end.
    rewrite Fc. cbn [clockCycles set_ac set_mem set_clockCycles].
    eexists. split; [reflexivity|].
    change Z_ with (2 ^ 1). change N with (2 ^ 7).
    rewrite !isSet_testbit by lia. rewrite setZN_Z, setZN_N, Fa, Fp, Fm.
    cbn [ac pc mem set_ac set_mem set_clockCycles set_opAddr set_opRawAddr set_pc].
    rewrite U3. done.
Qed.

End CpuExtras.

Section CpuExtrasWitnesses.
Import cpu props notions.

Lemma genericBranch_target_witness :
  exists c',
    opBeq inputs.branchCPU = Some (tt, c') /\ pc c' = 0x8000 /\
    clockCycles c' = 1.
Proof.
  assert (Read (opAddr inputs.branchCPU) (mem inputs.branchCPU)
          = Some (0xfe, mem inputs.branchCPU)) as Hr by reflexivity.
  assert (0 <= 0xfe < 0x100) as Ho by lia.
  assert (0 <= pc inputs.branchCPU < 0x10000) as Hp by (cbn; lia).
  pose proof (genericBranch_target (isSet Z_) inputs.branchCPU _ _ Hr Ho Hp)
    as Hb.
  eexists. split; [exact Hb|]. split; reflexivity.
Defined.

Lemma opCmp_flags_witness :
  exists c',
    opCmp examples.adcCPU = Some (tt, c') /\
    isSet C c' = true /\ isSet Z_ c' = true /\ isSet N c' = false.
Proof.
  assert (is_Some (opCmp examples.adcCPU)) as [[[] c'] Hc]
    by (vm_compute; eauto).
  destruct (opCmp_flags _ _ Hc) as (data & m' & Hr & HC & HZ & HN & _).
  assert (data = 0x50) as -> by (vm_compute in Hr; congruence).
  exists c'. split; [exact Hc|]. split; [exact HC|]. split; [exact HZ|exact HN].
Defined.

Lemma Interpret_panics_on_missing_opcodes_witness :
  Interpret inputs.jamCPU = None.
Proof.
  assert (Read (pc inputs.jamCPU) (mem inputs.jamCPU)
          = Some (0x02, mem inputs.jamCPU)) as Hr by reflexivity.
  assert (0 <= 0x02 < 0x100) as Hop by lia.
  destruct (Interpret_panics_on_missing_opcodes inputs.jamCPU _ _ Hr Hop)
    as [_ Hpanic].
  apply Hpanic. unfold missingOpcodes. apply list_elem_of_here.
Defined.

Lemma lda_absolute_x_page_cross_witness :
  exists c',
    Interpret inputs.ldaCPU = Some (5, c') /\ ac c' = 0x80 /\ pc c' = 0x8003 /\
    isSet N c' = true.
Proof.
  pose (m := inputs.ldaProgram).
  assert (0 <= pc inputs.ldaCPU < 0x10000) as Hp by (cbn; lia).
  assert (0 <= xr inputs.ldaCPU < 0x100) as Hx by (cbn; lia).
  assert (0 <= 0xff < 0x100) as Hlo by lia.
  assert (0 <= 0x20 < 0x100) as Hhi by lia.
  assert (Read (pc inputs.ldaCPU) (mem inputs.ldaCPU) = Some (0xbd, m)) as H1
    by reflexivity.
  assert (Read (u16 (pc inputs.ldaCPU + 1)) m = Some (0xff, m)) as H2
    by reflexivity.
  assert (Read (u16 (pc inputs.ldaCPU + 2)) m = Some (0x20, m)) as H3
    by reflexivity.
  assert (Read (u16 (0x100 * 0x20 + 0xff + xr inputs.ldaCPU)) m
          = Some (0x80, m)) as H4 by reflexivity.
  destruct (lda_absolute_x_page_cross inputs.ldaCPU _ _ _ _ _ _ _
              Hp Hx Hlo Hhi H1 H2 H3 H4)
    as (c' & Hrun & Hac & Hpc & _ & _ & HN).
  exists c'. split; [exact Hrun|]. split; [exact Hac|]. split; [exact Hpc|exact HN].
Defined.

End CpuExtrasWitnesses.

(** ** nesfile: reading an image *)

Section NesFileExtras.
Import nesfile notions.

Lemma readAndCheck_full (n : Z) (before data after : list Z) :
  0 < n -> length data = Z.to_nat n ->
  readAndCheck n {| contents := before ++ data ++ after; offset := length before |}
    = Some (data, {| contents := before ++ data ++ after;
                     offset := length (before ++ data) |}).
Proof.
  intros Hn Hlen. unfold readAndCheck. cbn [contents offset].
  rewrite drop_app_length.
  destruct (Z.ltb_spec 0 n); [|lia].
  destruct (Nat.eqb_spec (length (data ++ after)) 0) as [He|_].
  { rewrite length_app in He. lia. }
  cbn [andb]. rewrite <-Hlen, take_app_length.
  replace (n - Z.of_nat (length data)) with 0 by lia.
  unfold fill. cbn. by rewrite app_nil_r, length_app.
Qed.

Lemma readBanks_full (size : Z) (banks : list (list Z)) (before after : list Z) :
  0 < size -> Forall (fun b => length b = Z.to_nat size) banks ->
  readBanks (length banks) size
    {| contents := before ++ concat banks ++ after; offset := length before |}
    = Some (banks, {| contents := before ++ concat banks ++ after;
                      offset := length (before ++ concat banks) |}).
Proof.
  intros Hs. revert before. induction banks as [|b banks IH]; intros before Hall.
  - cbn. by rewrite app_nil_r.
  - apply Forall_cons in Hall as [Hb Hall]. cbn [length readBanks concat].
    rewrite <-!app_assoc. rewrite readAndCheck_full by done.
    cbn [mbind option_bind].
    specialize (IH (before ++ b) Hall).
    rewrite <-!app_assoc in IH. rewrite IH. cbn [mbind option_bind].
    done.
Qed.

Lemma header_flags (flags6 flags7 : Z) :
  0 <= flags6 < 0x100 -> 0 <= flags7 < 0x100 ->
  (0 =? Z.land flags6 1) = negb (Z.testbit flags6 0) /\
  (0 =? Z.land flags6 8) = negb (Z.testbit flags6 3) /\
  (2 =? Z.land flags6 2) = Z.testbit flags6 1 /\
  (0 =? Z.land flags6 4) = negb (Z.testbit flags6 2) /\
  Z.lor (Z.land 0xf (Z.shiftr flags6 4)) (Z.land 0xf0 flags7)
    = flags6 / 0x10 + 0x10 * (flags7 / 0x10).
Proof.
  intros H6 H7.
  pose proof (forallb_upto2 (fun v =>
    let f6 := v mod 0x100 in
    let f7 := v / 0x100 in
    eqb (0 =? Z.land f6 1) (negb (Z.testbit f6 0)) &&
    eqb (0 =? Z.land f6 8) (negb (Z.testbit f6 3)) &&
    eqb (2 =? Z.land f6 2) (Z.testbit f6 1) &&
    eqb (0 =? Z.land f6 4) (negb (Z.testbit f6 2)) &&
    (Z.lor (Z.land 0xf (Z.shiftr f6 4)) (Z.land 0xf0 f7)
       =? f6 / 0x10 + 0x10 * (f7 / 0x10))) 0x100) as F.
  specialize (F ltac:(vm_compute; reflexivity) (0x100 * flags7 + flags6) ltac:(lia)).
  cbv beta zeta in F.
  replace ((0x100 * flags7 + flags6) mod 0x100) with flags6 in F
    by (apply Z.mod_unique with flags7; lia).
  replace ((0x100 * flags7 + flags6) / 0x100) with flags7 in F
    by (apply Z.div_unique with flags6; lia).
  repeat (apply andb_prop in F as [F ?]).
  repeat match goal with H : eqb _ _ = true |- _ => apply eqb_prop in H end.
  repeat split; try done. lia.
Qed.

(** X29.  [ReadNesFile] on a file that holds an iNES image returns its banks in order, mirroring from bits 0 and 3 of flag byte 6 (four-screen wins), the SRAM flag from bit 1, the mapper number from the high nibbles of flag bytes 6 and 7; it skips the reserved header bytes and a trainer, and ignores what follows the image. *)
Theorem ReadNesFile_reads_image (fs : gmap string (list Z)) (fileName : string)
    (flags6 flags7 : Z) (reserved trainer : list Z) (prg chr : list (list Z))
    (trailing : list Z) :
  fs !! fileName
    = Some (image flags6 flags7 reserved trainer prg chr ++ trailing) ->
  0 <= flags6 < 0x100 -> 0 <= flags7 < 0x100 ->
  length reserved = 8%nat ->
  length trainer = (if Z.testbit flags6 2 then 512%nat else 0%nat) ->
  Forall (fun b => length b = Z.to_nat 0x4000) prg ->
  Forall (fun b => length b = Z.to_nat 0x2000) chr ->
  ReadNesFile fs fileName
    = Some {| Mirroring := if Z.testbit flags6 3 then FourScreen
                           else if Z.testbit flags6 0 then Vertical
                           else Horizontal;
              SramEnabled := Z.testbit flags6 1;
              nesfile.Mapper := flags6 / 0x10 + 0x10 * (flags7 / 0x10);
              PrgRom := prg; ChrRom := chr |}.
Proof.
  intros Hfs H6 H7 Hres Htr Hprg Hchr.
  destruct (header_flags flags6 flags7 H6 H7) as (F0 & F3 & F1 & F2 & Fm).
  unfold ReadNesFile. rewrite Hfs. cbn [mbind option_bind].
  set (hdr := canonicalHeader
                ++ [Z.of_nat (length prg); Z.of_nat (length chr); flags6; flags7]
                ++ reserved).
  assert (length hdr = 16%nat) as Hhdr by (subst hdr; cbn; lia).
  assert (image flags6 flags7 reserved trainer prg chr ++ trailing
          = [] ++ hdr ++ (trainer ++ concat prg ++ (concat chr ++ trailing)))
    as -> by (unfold image, hdr; by rewrite <-!app_assoc).
  change 0%nat with (length (@nil Z)) at 1.
  rewrite readAndCheck_full by (done || lia).
  cbn [mbind option_bind app].
  change (take 4 hdr) with canonicalHeader.
  rewrite bool_decide_eq_true_2 by done. cbn [negb].
  change (getb hdr 4) with (Some (Z.of_nat (length prg))).
  change (getb hdr 5) with (Some (Z.of_nat (length chr))).
  change (getb hdr 6) with (Some flags6).
  change (getb hdr 7) with (Some flags7).
  cbn [mbind option_bind]. rewrite F0, F3, F1, F2, Fm, !Nat2Z.id.
  assert ((if negb (negb (Z.testbit flags6 2))
           then snd <$> readAndCheck 512
                  {| contents := hdr ++ trainer ++ concat prg ++ concat chr ++ trailing;
                     offset := length hdr |}
           else Some {| contents := hdr ++ trainer ++ concat prg ++ concat chr ++ trailing;
                        offset := length hdr |})
          = Some {| contents := (hdr ++ trainer) ++ concat prg ++ (concat chr ++ trailing);
                    offset := length (hdr ++ trainer) |}) as ->.
  { destruct (Z.testbit flags6 2); cbn [negb].
    - rewrite readAndCheck_full by (done || lia). cbn.
      by rewrite <-!app_assoc.
    - destruct trainer; [|done]. cbn [app]. by rewrite app_nil_r. }
  cbn [mbind option_bind].
  rewrite readBanks_full by (done || lia). cbn [mbind option_bind].
  assert ((hdr ++ trainer) ++ concat prg ++ concat chr ++ trailing
          = ((hdr ++ trainer) ++ concat prg) ++ concat chr ++ trailing) as ->
    by (by rewrite <-!app_assoc).
  rewrite readBanks_full by (done || lia). cbn [mbind option_bind].
  f_equal. f_equal.
  destruct (Z.testbit flags6 3), (Z.testbit flags6 0); done.
Qed.

Lemma ReadNesFile_reads_image_witness :
  ReadNesFile inputs.disk "game.nes"
    = Some {| Mirroring := Vertical; SramEnabled := false; Mapper := 1;
              PrgRom := [fill 0x4000 1]; ChrRom := [fill 0x2000 2] |}.
Proof.
  assert (inputs.disk !! "game.nes"%string
          = Some (image 0x11 0x00 (fill 8 0) [] [fill 0x4000 1] [fill 0x2000 2]
                    ++ fill 8 0xff)) as Hfs by reflexivity.
  assert (0 <= 0x11 < 0x100) as H6 by lia.
  assert (0 <= 0x00 < 0x100) as H7 by lia.
  assert (length (fill 8 0 : list Z) = 8%nat) as Hres by reflexivity.
  assert (length (@nil Z) = (if Z.testbit 0x11 2 then 512%nat else 0%nat))
    as Htr by reflexivity.
  assert (Forall (fun b : list Z => length b = Z.to_nat 0x4000) [fill 0x4000 1])
    as Hprg by (apply Forall_cons_2; [vm_compute; reflexivity|apply Forall_nil_2]).
  assert (Forall (fun b : list Z => length b = Z.to_nat 0x2000) [fill 0x2000 2])
    as Hchr by (apply Forall_cons_2; [vm_compute; reflexivity|apply Forall_nil_2]).
  exact (ReadNesFile_reads_image _ _ _ _ _ _ _ _ _ Hfs H6 H7 Hres Htr Hprg Hchr).
Defined.

Lemma readAndCheck_header (bytes : list Z) :
  readAndCheck 16 {| contents := bytes; offset := 0 |}
    = if (length bytes =? 0)%nat then None
      else Some (take 16 bytes ++ fill (16 - Z.of_nat (length (take 16 bytes))) 0,
                 {| contents := bytes; offset := length (take 16 bytes) |}).
Proof. reflexivity. Qed.

(** X30.  [ReadNesFile] dies on a file that is missing, empty, or does not start with the magic bytes 78, 69, 83, 26 (NES and 0x1A). *)
Theorem ReadNesFile_needs_magic (fs : gmap string (list Z)) (fileName : string) :
  match fs !! fileName with
  | None => True
  | Some bytes => take 4 bytes <> canonicalHeader
  end ->
  ReadNesFile fs fileName = None.
Proof.
  unfold ReadNesFile. destruct (fs !! fileName) as [bytes|]; [|done].
  intros Hmagic. cbn [mbind option_bind]. rewrite readAndCheck_header.
  destruct (length bytes =? 0)%nat; [done|].
  cbn [mbind option_bind].
  rewrite bool_decide_eq_false_2; [done|].
  intros Heq. apply Hmagic.
  destruct bytes as [|b0 [|b1 [|b2 [|b3 bytes]]]]; cbn in Heq |- *;
    unfold canonicalHeader in *; try done; by simplify_eq.
Qed.

Lemma ReadNesFile_needs_magic_witness :
  ReadNesFile inputs.disk "junk.nes" = None /\
  ReadNesFile inputs.disk "none.nes" = None.
Proof.
  split.
  - apply ReadNesFile_needs_magic.
    change (inputs.disk !! "junk.nes"%string) with (Some [0; 1; 2; 3]).
    cbv iota. discriminate.
  - apply ReadNesFile_needs_magic.
    change (inputs.disk !! "none.nes"%string) with (@None (list Z)).
    exact Logic.I.
Defined.

End NesFileExtras.
